(** * The login automation core of THE_ROBUST_MICROSOFT, embedded in Rocq

    A shallow embedding of the session store, the response classifier, the
    redirect-driving loop, the credential flow, the OAuth/PKCE token
    acquirer and the OTP retrieval engine of [microsoft-auth.js],
    [decode.js] and the OTP fetcher, with the properties stated about them.

    JavaScript values are embedded as the inductive type [json]; a plain
    object used as a map is a [gmap string json]; a computation that may
    throw returns a [Result]. *)

From Stdlib Require Import ZArith NArith List String Ascii Bool Lia.
From Stdlib Require Import Sorting.Sorted Sorting.Permutation.
From stdpp Require Import base option gmap strings list pretty.

Set Warnings "-register-all".
Local Open Scope string_scope.
Local Open Scope list_scope.
Local Open Scope Z_scope.

(* ====================================================================== *)
(** * JavaScript values, truthiness and exceptions *)
(* ====================================================================== *)

Module JS.

(** The objects of the runtime that reading a property of a plain object
    or of an array can hand out: [Object.prototype], its methods, and
    [Array.prototype]. *)
Inductive Builtin : Type :=
  | Object_prototype
  | Object_prototype_method (name : string)
  | Array_prototype.

(** The values a session stores and JSON carries, and the built-in
    objects a property read can return.  [undefined] is not a stored
    value: a property that is absent is the [None] of a lookup.  Values
    are taken by content: an object has no identity of its own. *)
Inductive json : Type :=
  | JNull
  | JBool (b : bool)
  | JNum (z : Z)
  | JStr (s : string)
  | JArr (l : list json)
  | JObj (m : gmap string json)
  | JNative (b : Builtin).

(** ToBoolean. *)
Definition truthy (v : json) : bool :=
  match v with
  | JNull => false
  | JBool b => b
  | JNum z => negb (z =? 0)
  | JStr s => negb (String.eqb s "")
  | JArr _ | JObj _ | JNative _ => true
  end.

(** The string-keyed properties of [Object.prototype] besides the accessor
    [__proto__]: its methods (ECMAScript, with those of its annex B). *)
Definition Object_prototype_methods : list string :=
  ["constructor"; "__defineGetter__"; "__defineSetter__"; "hasOwnProperty";
   "__lookupGetter__"; "__lookupSetter__"; "isPrototypeOf"; "propertyIsEnumerable";
   "toString"; "valueOf"; "toLocaleString"].

Definition Object_prototype_member (k : string) : option json :=
  if existsb (String.eqb k) Object_prototype_methods
  then Some (JNative (Object_prototype_method k))
  else None.

(** ToBoolean of a value that may be [undefined]. *)
Definition truthy_opt (o : option json) : bool :=
  match o with
  | Some v => truthy v
  | None => false
  end.

(** [o || d] with a defined right operand. *)
Definition or_else (o : option json) (d : json) : json :=
  match o with
  | Some v => if truthy v then v else d
  | None => d
  end.

Inductive Error : Type :=
  | TypeError (message : string)
  | SyntaxError (message : string)
  | PlainError (message : string)
  | NetworkError (message : string)
  | AuthError (message step : string).

Definition message_of (e : Error) : string :=
  match e with
  | TypeError m | SyntaxError m | PlainError m | NetworkError m => m
  | AuthError m _ => m
  end.

Inductive Result (A : Type) : Type :=
  | Ok (a : A)
  | Throw (e : Error).
Arguments Ok {A} a.
Arguments Throw {A} e.

(** Reading the property [k] of [v] where the source names the property:
    a TypeError on [null], the own entry of a plain object, [undefined] on
    the other receivers (built-in and inherited properties such as
    [length] are not part of the embedding: none of the names the source
    reads is one). *)
Definition prop (v : json) (k : string) : Result (option json) :=
  match v with
  | JNull => Throw (TypeError "Cannot read properties of null")
  | JObj m => Ok (m !! k)
  | _ => Ok None
  end.

(** [s.includes(sub)] *)
Fixpoint includes (s sub : string) : bool :=
  if String.prefix sub s then true
  else match s with
       | EmptyString => false
       | String _ s' => includes s' sub
       end.

(** The one-character string of a double quote. *)
Definition dquote : string := String (ascii_of_N 34) EmptyString.

(** [s.startsWith(p)] *)
Definition startsWith (s p : string) : bool := String.prefix p s.

End JS.
Export JS.

(* ====================================================================== *)
(** * Session store: [HttpSession] of microsoft-auth.js *)
(* ====================================================================== *)

Module Session.

(** A cookie of the jar: (domain, name, value, attributes). *)
Record Cookie : Type := mkCookie {
  c_key : string;
  c_value : string;
  c_domain : string;
  c_path : string;
  c_secure : bool;
  c_httpOnly : bool
}.

(** The prototype of the metadata object: [Object.prototype], which every
    object literal and every object of [JSON.parse] has, or what an
    assignment to [__proto__] has put in its place ([JNull]: none). *)
Inductive Prototype : Type :=
  | Standard
  | Replaced (p : json).

(** The tough-cookie jar with the [_metadata] property the session hangs
    on it; [None] is a jar that has no such property yet.  The prototype
    is that of the metadata object, when [_metadata] is an object. *)
Record CookieJar : Type := Build_CookieJar {
  jar_cookies : list Cookie;
  _metadata : option json;
  _metadata_prototype : Prototype
}.

(** A jar whose metadata, if any, is an object as a literal or
    [JSON.parse] builds it. *)
Definition mkJar (cookies : list Cookie) (metadata : option json) : CookieJar :=
  Build_CookieJar cookies metadata Standard.

Record HttpSession : Type := mkSession {
  jar : CookieJar;
  flowToken : option string;
  loginUrl : option string
}.

Definition BASE_URLS_LOGIN : string := "https://login.live.com/".

(** [new CookieJar()] *)
Definition new_CookieJar : CookieJar := mkJar [] None.

(** [constructor(proxy, cookieJar)]: [this.jar = cookieJar || new CookieJar()],
    then [_metadata] is initialised to [{}] when it is falsy. *)
Definition new_HttpSession (cookieJar : option CookieJar) : HttpSession :=
  let j := default new_CookieJar cookieJar in
  let j := if truthy_opt (_metadata j) then j
           else mkJar (jar_cookies j) (Some (JObj ∅)) in
  mkSession j None (Some BASE_URLS_LOGIN).

Definition with_metadata (s : HttpSession) (md : json) : HttpSession :=
  mkSession (Build_CookieJar (jar_cookies (jar s)) (Some md) (_metadata_prototype (jar s)))
            (flowToken s) (loginUrl s).

(** ** Properties of the metadata object

    [obj[key]], [key in obj], [obj[key] = value] and [delete obj[key]] on
    an object with the own properties [m] and the prototype [proto]. *)

(** The array index a property name denotes: the decimal numeral of a
    natural number, without a sign and without leading zeros. *)
Fixpoint decimal_value (acc : nat) (k : string) : option nat :=
  match k with
  | EmptyString => Some acc
  | String c r =>
      let n := N_of_ascii c in
      if ((48 <=? n) && (n <=? 57))%N
      then decimal_value (10 * acc + N.to_nat (n - 48)) r
      else None
  end.

Definition index_of_key (k : string) : option nat :=
  match k with
  | EmptyString => None
  | String "0" EmptyString => Some O
  | String "0" _ => None
  | _ => decimal_value 0 k
  end.

(** The elements and the [length] of an array. *)
Definition array_member (l : list json) (k : string) : option json :=
  if String.eqb k "length" then Some (JNum (Z.of_nat (length l)))
  else match index_of_key k with
       | Some i => l !! i
       | None => None
       end.

(** What the prototype chain holds under [k], the accessor [__proto__] of
    [Object.prototype] left aside: a property of the object that was put
    in place of the prototype, or a method of [Object.prototype].  (The
    methods a built-in or an array in that place brings along, those of
    [Array.prototype] and [Function.prototype], are not part of the
    embedding.) *)
Definition inherited_member (proto : Prototype) (k : string) : option json :=
  match proto with
  | Standard => Object_prototype_member k
  | Replaced JNull => None
  | Replaced (JObj pm) =>
      match pm !! k with
      | Some v => Some v
      | None => Object_prototype_member k
      end
  | Replaced (JArr l) =>
      match array_member l k with
      | Some v => Some v
      | None => Object_prototype_member k
      end
  | Replaced _ => Object_prototype_member k
  end.

(** Whether the chain ends in [Object.prototype], where the accessor
    [__proto__] lives, and the prototype its getter hands out. *)
Definition reaches_Object_prototype (proto : Prototype) : bool :=
  match proto with
  | Replaced JNull => false
  | _ => true
  end.

(** The prototypes the embedding follows to their end: [Object.prototype],
    none, or an object as a literal or [JSON.parse] builds it.  (An array
    or a built-in in that place brings the members of [Array.prototype]
    or [Function.prototype] along, which are not listed here.) *)
Definition plain_prototype (proto : Prototype) : bool :=
  match proto with
  | Standard | Replaced JNull | Replaced (JObj _) => true
  | Replaced _ => false
  end.

Definition prototype_value (proto : Prototype) : json :=
  match proto with
  | Standard => JNative Object_prototype
  | Replaced p => p
  end.

(** [obj[key]] *)
Definition object_get (m : gmap string json) (proto : Prototype) (key : string)
  : option json :=
  match m !! key with
  | Some v => Some v
  | None =>
      match inherited_member proto key with
      | Some v => Some v
      | None =>
          if String.eqb key "__proto__" && reaches_Object_prototype proto
          then Some (prototype_value proto)
          else None
      end
  end.

(** [key in obj] *)
Definition object_has (m : gmap string json) (proto : Prototype) (key : string) : bool :=
  bool_decide (is_Some (object_get m proto key)).

(** [obj[key] = value].  An own property is written, and created where
    the chain holds a data property or nothing under [key]; the one
    accessor of the chain, [__proto__] of [Object.prototype], takes the
    assignment for itself: its setter replaces the prototype by an object
    or by [null] and ignores any other value. *)
Definition object_set (m : gmap string json) (proto : Prototype) (key : string)
    (value : json) : gmap string json * Prototype :=
  if String.eqb key "__proto__"
     && negb (bool_decide (is_Some (m !! key)))
     && negb (bool_decide (is_Some (inherited_member proto key)))
     && reaches_Object_prototype proto
  then match value with
       | JNull | JObj _ | JArr _ | JNative _ => (m, Replaced value)
       | JBool _ | JNum _ | JStr _ => (m, proto)
       end
  else (<[key := value]> m, proto).

(** [setMetadata(key, value)].  The receiver of the assignment is a plain
    object on every session the constructor built; a receiver that is not
    one (only an imported wrapper whose [metadata] is no object gives it)
    makes the strict-mode assignment throw on a primitive, and a named
    property on an array is not part of the embedding. *)
Definition setMetadata (s : HttpSession) (key : string) (value : json)
  : Result HttpSession :=
  let '(md, proto) :=
    if truthy_opt (_metadata (jar s))
    then (default JNull (_metadata (jar s)), _metadata_prototype (jar s))
    else (JObj ∅, Standard) in
  match md with
  | JObj m =>
      let '(m', proto') := object_set m proto key value in
      Ok (mkSession (Build_CookieJar (jar_cookies (jar s)) (Some (JObj m')) proto')
                    (flowToken s) (loginUrl s))
  | _ => Throw (TypeError "Cannot create property")
  end.

(** [arr[key]] on an array as [JSON.parse] builds it (the methods of
    [Array.prototype] are not part of the embedding). *)
Definition array_get (l : list json) (key : string) : option json :=
  match array_member l key with
  | Some v => Some v
  | None =>
      match Object_prototype_member key with
      | Some v => Some v
      | None => if String.eqb key "__proto__" then Some (JNative Array_prototype) else None
      end
  end.

(** [getMetadata(key)]: [this.jar._metadata?.[key] || null].  (On a
    receiver that is a primitive or a built-in, which only a wrapper
    imported from a text written by hand gives, the properties of the
    receiver are not part of the embedding.) *)
Definition getMetadata (s : HttpSession) (key : string) : json :=
  match _metadata (jar s) with
  | Some (JObj m) => or_else (object_get m (_metadata_prototype (jar s)) key) JNull
  | Some (JArr l) => or_else (array_get l key) JNull
  | _ => JNull
  end.

(** [hasMetadata(key)]: [this.jar._metadata && key in this.jar._metadata];
    the value of the conjunction, [None] for [undefined]. *)
Definition hasMetadata (s : HttpSession) (key : string) : Result (option json) :=
  match _metadata (jar s) with
  | None => Ok None
  | Some md =>
      if truthy md then
        match md with
        | JObj m => Ok (Some (JBool (object_has m (_metadata_prototype (jar s)) key)))
        | JArr l => Ok (Some (JBool (bool_decide (is_Some (array_get l key)))))
        | JNative _ =>
            Ok (Some (JBool (bool_decide (is_Some (Object_prototype_member key))
                             || String.eqb key "__proto__")))
        | _ => Throw (TypeError "Cannot use 'in' operator")
        end
      else Ok (Some md)
  end.

(** [removeMetadata(key)]: [delete] takes an own property away. *)
Definition removeMetadata (s : HttpSession) (key : string) : HttpSession :=
  match _metadata (jar s) with
  | Some (JObj m) => with_metadata s (JObj (delete key m))
  | _ => s
  end.

(** [getAllMetadata()] *)
Definition getAllMetadata (s : HttpSession) : json :=
  or_else (_metadata (jar s)) (JObj ∅).

(** ** Export and import

    [JSON.stringify], [JSON.parse] and the jar's own [toJSON] and
    [CookieJar.fromJSON] belong to the platform and to tough-cookie: they
    are the parameters of this section.  [None] stands for a thrown
    exception. *)
Section Serialization.

Variable JSON_stringify : json -> string.
Variable JSON_parse : string -> option json.
Variable jar_toJSON : list Cookie -> json.
Variable jar_fromJSON : json -> option (list Cookie).

(** The object [exportCookieJar] hands to [JSON.stringify]; [exportedAt] is
    [new Date().toISOString()]. *)
Definition export_document (s : HttpSession) (exportedAt : string) : json :=
  JObj (<["cookies" := jar_toJSON (jar_cookies (jar s))]>
       (<["metadata" := or_else (_metadata (jar s)) (JObj ∅)]>
       (<["exportedAt" := JStr exportedAt]> ∅))).

Definition exportCookieJar (s : HttpSession) (exportedAt : string) : string :=
  JSON_stringify (export_document s exportedAt).

(** The choice between the new format and the old one:
    [if (data.cookies && data.metadata) ... else ...]. *)
Definition select_shape (data : json) : Result (json * json) :=
  match prop data "cookies", prop data "metadata" with
  | Ok c, Ok m =>
      match c, m with
      | Some cv, Some mv =>
          if truthy cv && truthy mv then Ok (cv, mv) else Ok (data, JObj ∅)
      | _, _ => Ok (data, JObj ∅)
      end
  | Throw e, _ | _, Throw e => Throw e
  end.

(** The body of [importCookieJar] after [JSON.parse]; every exception is
    caught and turned into [null]. *)
Definition import_data (data : json) : option CookieJar :=
  match select_shape data with
  | Ok (cookieData, metadata) =>
      match jar_fromJSON cookieData with
      | Some cs => Some (mkJar cs (Some metadata))
      | None => None
      end
  | Throw _ => None
  end.

Definition importCookieJar (cookieJarString : string) : option CookieJar :=
  match JSON_parse cookieJarString with
  | Some data => import_data data
  | None => None
  end.

(** The three serialization shapes of the specification. *)
Definition current_wrapper (cookies metadata : json) : json :=
  JObj (<["cookies" := cookies]> (<["metadata" := metadata]> ∅)).

Definition double_wrapped (cookies metadata : json) : json :=
  JObj (<["cookies" := current_wrapper cookies metadata]> ∅).

End Serialization.

End Session.

(* ====================================================================== *)
(** * The platform's JSON text and tough-cookie's serialized jar

    Executable models of [JSON.stringify], [JSON.parse], [jar.toJSON()]
    and [CookieJar.fromJSON], the library functions the session store is
    parameterised by.  Numbers are the integers of [json]. *)
(* ====================================================================== *)

Module JsonText.

Definition quote : ascii := ascii_of_N 34.
Definition backslash : ascii := "\"%char.

Definition hex_digit (n : N) : ascii :=
  ascii_of_N (if (n <? 10)%N then 48 + n else 87 + n).

(** The escapes [JSON.stringify] writes inside a string literal. *)
Fixpoint escape (s : string) : string :=
  match s with
  | EmptyString => EmptyString
  | String c r =>
      let n := N_of_ascii c in
      if Ascii.eqb c quote then String backslash (String quote (escape r))
      else if Ascii.eqb c backslash then String backslash (String backslash (escape r))
      else if (n =? 10)%N then String backslash (String "n" (escape r))
      else if (n =? 13)%N then String backslash (String "r" (escape r))
      else if (n =? 9)%N then String backslash (String "t" (escape r))
      else if (n <? 32)%N then
        String backslash (String "u" (String "0" (String "0"
          (String (hex_digit (n / 16)) (String (hex_digit (n mod 16)) (escape r))))))
      else String c (escape r)
  end.

Definition quoted (s : string) : string :=
  String quote (escape s) +:+ String quote EmptyString.

Definition joined (parts : list string) : string :=
  match parts with
  | [] => ""
  | p :: ps => fold_left (fun acc q => acc +:+ "," +:+ q) ps p
  end.

(** A function has no JSON text: [JSON.stringify] leaves a property that
    holds one out of an object and writes [null] for it in an array. *)
Definition is_function (v : json) : bool :=
  match v with
  | JNative (Object_prototype_method _) => true
  | _ => false
  end.

Fixpoint stringify (v : json) : string :=
  match v with
  | JNull => "null"
  | JBool true => "true"
  | JBool false => "false"
  | JNum z => pretty z
  | JStr s => quoted s
  | JArr l => "[" +:+ joined (map stringify l) +:+ "]"
  | JObj m =>
      "{" +:+ joined (map_fold (fun k x acc =>
                                  if is_function x then acc
                                  else (quoted k +:+ ":" +:+ stringify x) :: acc) [] m)
          +:+ "}"
  | JNative Object_prototype => "{}"
  | JNative (Object_prototype_method _) => "null"
  | JNative Array_prototype => "[]"
  end.

Definition is_ws (c : ascii) : bool :=
  let n := N_of_ascii c in
  ((n =? 32) || (n =? 9) || (n =? 10) || (n =? 13))%N.

Fixpoint skip_ws (s : string) : string :=
  match s with
  | String c r => if is_ws c then skip_ws r else s
  | EmptyString => s
  end.

Definition digit_val (c : ascii) : option Z :=
  let n := N_of_ascii c in
  if ((48 <=? n) && (n <=? 57))%N then Some (Z.of_N n - 48) else None.

Definition hex_val (c : ascii) : option N :=
  let n := N_of_ascii c in
  if ((48 <=? n) && (n <=? 57))%N then Some (n - 48)%N
  else if ((97 <=? n) && (n <=? 102))%N then Some (n - 87)%N
  else if ((65 <=? n) && (n <=? 70))%N then Some (n - 55)%N
  else None.

(** Digits of an integer literal, most significant first. *)
Fixpoint read_digits (s : string) (acc : Z) (seen : bool) : option (Z * string) :=
  match s with
  | String c r =>
      match digit_val c with
      | Some d => read_digits r (10 * acc + d) true
      | None => if seen then Some (acc, s) else None
      end
  | EmptyString => if seen then Some (acc, s) else None
  end.

(** The rest of a string literal after its opening quote. *)
Fixpoint read_string (s : string) : option (string * string) :=
  match s with
  | EmptyString => None
  | String c r =>
      if Ascii.eqb c quote then Some (EmptyString, r)
      else if Ascii.eqb c backslash then
        match r with
        | String e r' =>
            let plain (ch : ascii) :=
              match read_string r' with
              | Some (t, rest) => Some (String ch t, rest)
              | None => None
              end in
            if Ascii.eqb e "n" then plain (ascii_of_N 10)
            else if Ascii.eqb e "r" then plain (ascii_of_N 13)
            else if Ascii.eqb e "t" then plain (ascii_of_N 9)
            else if Ascii.eqb e "b" then plain (ascii_of_N 8)
            else if Ascii.eqb e "f" then plain (ascii_of_N 12)
            else if Ascii.eqb e "u" then
              match r' with
              | String h1 (String h2 (String h3 (String h4 r''))) =>
                  match hex_val h1, hex_val h2, hex_val h3, hex_val h4 with
                  | Some 0%N, Some 0%N, Some a, Some b =>
                      match read_string r'' with
                      | Some (t, rest) => Some (String (ascii_of_N (16 * a + b)) t, rest)
                      | None => None
                      end
                  | _, _, _, _ => None
                  end
              | _ => None
              end
            else if Ascii.eqb e quote || Ascii.eqb e backslash || Ascii.eqb e "/"
            then plain e
            else None
        | EmptyString => None
        end
      else
        match read_string r with
        | Some (t, rest) => Some (String c t, rest)
        | None => None
        end
  end.

Definition expect (word : string) (v : json) (s : string) : option (json * string) :=
  if String.prefix word s
  then Some (v, String.substring (String.length word)
                                 (String.length s - String.length word) s)
  else None.

Fixpoint read_value (fuel : nat) (s : string) : option (json * string) :=
  match fuel with
  | O => None
  | S fuel' =>
      match skip_ws s with
      | EmptyString => None
      | String c r as s0 =>
          if Ascii.eqb c "n" then expect "null" JNull s0
          else if Ascii.eqb c "t" then expect "true" (JBool true) s0
          else if Ascii.eqb c "f" then expect "false" (JBool false) s0
          else if Ascii.eqb c quote then
            match read_string r with
            | Some (t, rest) => Some (JStr t, rest)
            | None => None
            end
          else if Ascii.eqb c "[" then
            match skip_ws r with
            | String "]" rest => Some (JArr [], rest)
            | r0 => read_elements fuel' r0 []
            end
          else if Ascii.eqb c "{" then
            match skip_ws r with
            | String "}" rest => Some (JObj ∅, rest)
            | r0 => read_members fuel' r0 ∅
            end
          else if Ascii.eqb c "-" then
            match read_digits r 0 false with
            | Some (z, rest) => Some (JNum (- z), rest)
            | None => None
            end
          else
            match read_digits s0 0 false with
            | Some (z, rest) => Some (JNum z, rest)
            | None => None
            end
      end
  end
with read_elements (fuel : nat) (s : string) (acc : list json) : option (json * string) :=
  match fuel with
  | O => None
  | S fuel' =>
      match read_value fuel' s with
      | Some (v, rest) =>
          match skip_ws rest with
          | String "," rest' => read_elements fuel' rest' (acc ++ [v])
          | String "]" rest' => Some (JArr (acc ++ [v]), rest')
          | _ => None
          end
      | None => None
      end
  end
with read_members (fuel : nat) (s : string) (acc : gmap string json) : option (json * string) :=
  match fuel with
  | O => None
  | S fuel' =>
      match skip_ws s with
      | String c r =>
          if Ascii.eqb c quote then
            match read_string r with
            | Some (k, rest) =>
                match skip_ws rest with
                | String ":" rest' =>
                    match read_value fuel' rest' with
                    | Some (v, rest'') =>
                        match skip_ws rest'' with
                        | String "," rest3 => read_members fuel' rest3 (<[k := v]> acc)
                        | String "}" rest3 => Some (JObj (<[k := v]> acc), rest3)
                        | _ => None
                        end
                    | None => None
                    end
                | _ => None
                end
            | None => None
            end
          else None
      | EmptyString => None
      end
  end.

(** [JSON.parse]: [None] is the SyntaxError. *)
Definition parse (s : string) : option json :=
  match read_value (S (String.length s)) s with
  | Some (v, rest) =>
      match skip_ws rest with
      | EmptyString => Some v
      | _ => None
      end
  | None => None
  end.

End JsonText.

Module ToughCookie.
Import Session.

Definition cookie_toJSON (c : Cookie) : json :=
  JObj (<["key" := JStr (c_key c)]>
       (<["value" := JStr (c_value c)]>
       (<["domain" := JStr (c_domain c)]>
       (<["path" := JStr (c_path c)]>
       (<["secure" := JBool (c_secure c)]>
       (<["httpOnly" := JBool (c_httpOnly c)]> ∅)))))).

Definition cookie_fromJSON (j : json) : option Cookie :=
  match j with
  | JObj m =>
      match m !! "key", m !! "value", m !! "domain",
            m !! "path", m !! "secure", m !! "httpOnly" with
      | Some (JStr k), Some (JStr v), Some (JStr d),
        Some (JStr p), Some (JBool s), Some (JBool h) =>
          Some (mkCookie k v d p s h)
      | _, _, _, _, _, _ => None
      end
  | _ => None
  end.

(** [jar.toJSON()]: the serialized memory store. *)
Definition toJSON (cs : list Cookie) : json :=
  JObj (<["version" := JStr "tough-cookie@4.1.3"]>
       (<["storeType" := JStr "MemoryCookieStore"]>
       (<["rejectPublicSuffixes" := JBool true]>
       (<["cookies" := JArr (map cookie_toJSON cs)]> ∅)))).

(** [CookieJar.fromJSON(serialized)]: it throws ([None]) unless
    [serialized.cookies] is an array, and skips an entry that is no cookie. *)
Definition fromJSON (j : json) : option (list Cookie) :=
  match j with
  | JObj m =>
      match m !! "cookies" with
      | Some (JArr l) => Some (omap cookie_fromJSON l)
      | _ => None
      end
  | _ => None
  end.

End ToughCookie.

(* ====================================================================== *)
(** * The sibling importer: [_importCookieJar] of Rewardsgrind.js *)
(* ====================================================================== *)

Module Rewardsgrind.
Import Session.

Section Importer.

Variable JSON_parse : string -> option json.
Variable deserializeSync : json -> option (list Cookie).

Definition is_memory_store (o : option json) : bool :=
  match o with
  | Some (JStr s) => String.eqb s "MemoryCookieStore"
  | _ => false
  end.

(** Which part of the parsed document is the jar: the [cookies] of a
    wrapper with metadata, the document itself when it is a raw jar, the
    [cookies] of a wrapper that lost its metadata; an Error otherwise. *)
Definition select_cookieData (data : json) : Result json :=
  match prop data "cookies", prop data "metadata", prop data "storeType" with
  | Ok c, Ok m, Ok st =>
      if truthy_opt c && truthy_opt m then Ok (default JNull c)
      else if is_memory_store st then Ok data
      else if truthy_opt c then
        match prop (default JNull c) "storeType" with
        | Ok st' =>
            if is_memory_store st' then Ok (default JNull c)
            else Throw (PlainError "Serialized cookie jar is in an unknown format.")
        | Throw e => Throw e
        end
      else Throw (PlainError "Serialized cookie jar is in an unknown format.")
  | Throw e, _, _ | _, Throw e, _ | _, _, Throw e => Throw e
  end.

Definition _importCookieJar (cookieJarString : string) : option (list Cookie) :=
  if String.eqb cookieJarString "" then None
  else
    match JSON_parse cookieJarString with
    | Some data =>
        match select_cookieData data with
        | Ok cookieData => deserializeSync cookieData
        | Throw _ => None
        end
    | None => None
    end.

End Importer.

End Rewardsgrind.

(* ====================================================================== *)
(** * The authorization URL builder: [createMicrosoftAuthUrl] of decode.js

    A [Buffer] is a list of bytes, each a number below 256. *)
(* ====================================================================== *)

Module Pkce.

Local Open Scope N_scope.

(** ** [buffer.toString("base64")] and [buffer.toString("hex")] *)

Definition base64_char (i : N) : ascii :=
  if i <? 26 then ascii_of_N (65 + i)
  else if i <? 52 then ascii_of_N (71 + i)
  else if i <? 62 then ascii_of_N (i - 4)
  else if i =? 62 then "+"%char
  else "/"%char.

Definition sextet1 (a : N) : N := N.land (N.shiftr a 2) 63.
Definition sextet2 (a b : N) : N := N.land (N.lor (N.shiftl a 4) (N.shiftr b 4)) 63.
Definition sextet3 (b c : N) : N := N.land (N.lor (N.shiftl b 2) (N.shiftr c 6)) 63.
Definition sextet4 (c : N) : N := N.land c 63.

Fixpoint base64 (bytes : list N) : string :=
  match bytes with
  | a :: b :: c :: rest =>
      String (base64_char (sextet1 a)) (String (base64_char (sextet2 a b))
        (String (base64_char (sextet3 b c)) (String (base64_char (sextet4 c))
          (base64 rest))))
  | [a; b] =>
      String (base64_char (sextet1 a)) (String (base64_char (sextet2 a b))
        (String (base64_char (sextet3 b 0)) "="))
  | [a] =>
      String (base64_char (sextet1 a)) (String (base64_char (sextet2 a 0)) "==")
  | [] => ""
  end.

Definition hex_char (n : N) : ascii :=
  if n <? 10 then ascii_of_N (48 + n) else ascii_of_N (87 + n).

Fixpoint hex (bytes : list N) : string :=
  match bytes with
  | [] => ""
  | b :: rest =>
      String (hex_char (N.land (N.shiftr b 4) 15)) (String (hex_char (N.land b 15)) (hex rest))
  end.

(** [s.replace(/c/g, d)] and [s.replace(/c/g, "")] for a character [c]. *)
Fixpoint replace_all (c d : ascii) (s : string) : string :=
  match s with
  | EmptyString => EmptyString
  | String x r => String (if Ascii.eqb x c then d else x) (replace_all c d r)
  end.

Fixpoint remove_all (c : ascii) (s : string) : string :=
  match s with
  | EmptyString => EmptyString
  | String x r => if Ascii.eqb x c then remove_all c r else String x (remove_all c r)
  end.

(** [base64UrlEncode(buffer)] *)
Definition base64UrlEncode (buffer : list N) : string :=
  remove_all "=" (replace_all "/" "_" (replace_all "+" "-" (base64 buffer))).

(** The bytes of an ASCII string, as [Buffer.from] and [hash.update] take
    them. *)
Fixpoint bytes_of (s : string) : list N :=
  match s with
  | EmptyString => []
  | String c r => N_of_ascii c :: bytes_of r
  end.

(** ** SHA-256 ([crypto.createHash("sha256")], FIPS 180-4) *)

Definition mask32 : N := 4294967295.
Definition add32 (x y : N) : N := N.land (x + y) mask32.
Definition rotr (n x : N) : N :=
  N.lor (N.shiftr x n) (N.land (N.shiftl x (32 - n)) mask32).
Definition not32 (x : N) : N := N.lxor x mask32.

Definition Ch (x y z : N) : N := N.lxor (N.land x y) (N.land (not32 x) z).
Definition Maj (x y z : N) : N :=
  N.lxor (N.lxor (N.land x y) (N.land x z)) (N.land y z).
Definition Sigma0 (x : N) : N := N.lxor (N.lxor (rotr 2 x) (rotr 13 x)) (rotr 22 x).
Definition Sigma1 (x : N) : N := N.lxor (N.lxor (rotr 6 x) (rotr 11 x)) (rotr 25 x).
Definition sigma0 (x : N) : N := N.lxor (N.lxor (rotr 7 x) (rotr 18 x)) (N.shiftr x 3).
Definition sigma1 (x : N) : N := N.lxor (N.lxor (rotr 17 x) (rotr 19 x)) (N.shiftr x 10).

(** The constants are derived as the standard defines them: the first 32
    bits of the fractional parts of the cube roots of the first 64 primes,
    and of the square roots of the first 8 primes. *)
Definition is_prime (n : nat) : bool :=
  forallb (fun d => negb (Nat.eqb (Nat.modulo n d) 0)) (seq 2 (n - 2)).

Definition first_primes (count : nat) : list N :=
  map N.of_nat (firstn count (List.filter is_prime (seq 2 310))).

(** The integer cube root, built bit by bit from the top. *)
Fixpoint cube_root_bits (bits : nat) (n r : N) : N :=
  match bits with
  | O => r
  | S b =>
      let c := N.lor r (N.shiftl 1 (N.of_nat b)) in
      if c * c * c <=? n then cube_root_bits b n c else cube_root_bits b n r
  end.

Definition fraction_of_cube_root (p : N) : N :=
  N.land (cube_root_bits 40 (N.shiftl p 96) 0) mask32.

Definition fraction_of_square_root (p : N) : N :=
  N.land (N.sqrt (N.shiftl p 64)) mask32.

Definition K256 : list N :=
  Eval vm_compute in map fraction_of_cube_root (first_primes 64).

Definition H256 : list N :=
  Eval vm_compute in map fraction_of_square_root (first_primes 8).

(** The message followed by the bit 1, zeros up to 56 modulo 64 bytes, and
    the bit length on eight bytes. *)
Definition be_bytes (width : nat) (x : N) : list N :=
  map (fun i => N.land (N.shiftr x (8 * N.of_nat i)) 255) (rev (seq 0 width)).

Definition pad (message : list N) : list N :=
  let len := length message in
  let zeros := (Nat.modulo (119 - Nat.modulo len 64) 64)%nat in
  message ++ [128] ++ repeat 0 zeros ++ be_bytes 8 (8 * N.of_nat len).

Fixpoint words_of (fuel : nat) (bytes : list N) : list N :=
  match fuel, bytes with
  | S f, a :: b :: c :: d :: rest =>
      N.lor (N.lor (N.shiftl a 24) (N.shiftl b 16)) (N.lor (N.shiftl c 8) d)
      :: words_of f rest
  | _, _ => []
  end.

Fixpoint blocks_of (fuel : nat) (words : list N) : list (list N) :=
  match fuel, words with
  | S f, _ :: _ => firstn 16 words :: blocks_of f (skipn 16 words)
  | _, _ => []
  end.

(** The message schedule, newest word first. *)
Fixpoint schedule (steps : nat) (recent : list N) : list N :=
  match steps with
  | O => recent
  | S n =>
      let w := add32 (add32 (sigma1 (nth 1 recent 0)) (nth 6 recent 0))
                     (add32 (sigma0 (nth 14 recent 0)) (nth 15 recent 0)) in
      schedule n (w :: recent)
  end.

Definition round (st : list N) (kw : N * N) : list N :=
  match st with
  | [a; b; c; d; e; f; g; h] =>
      let t1 := add32 (add32 (add32 h (Sigma1 e)) (add32 (Ch e f g) (fst kw))) (snd kw) in
      let t2 := add32 (Sigma0 a) (Maj a b c) in
      [add32 t1 t2; a; b; c; add32 d t1; e; f; g]
  | _ => st
  end.

Definition compress (st : list N) (block : list N) : list N :=
  let w := rev (schedule 48 (rev block)) in
  let st' := fold_left round (combine K256 w) st in
  map (fun p => add32 (fst p) (snd p)) (combine st st').

Definition sha256 (message : list N) : list N :=
  let padded := pad message in
  let words := words_of (length padded) padded in
  let final := fold_left compress (blocks_of (length words) words) H256 in
  concat (map (be_bytes 4) final).

(** ** GUIDs, the state and the query string *)

Definition set_nth (i : nat) (f : N -> N) (l : list N) : list N :=
  match l !! i with
  | Some x => <[i := f x]> l
  | None => l
  end.

Definition slice (from to : nat) (s : string) : string :=
  String.substring from (to - from) s.

(** [createNewGuid()] on the 16 bytes [crypto.randomBytes(16)] returned. *)
Definition createNewGuid (random : list N) : string :=
  let buffer := set_nth 6 (fun b => N.lor (N.land b 15) 64) random in
  let buffer := set_nth 8 (fun b => N.lor (N.land b 63) 128) buffer in
  let h := hex buffer in
  slice 0 8 h +:+ "-" +:+ slice 8 12 h +:+ "-" +:+ slice 12 16 h +:+ "-"
    +:+ slice 16 20 h +:+ "-" +:+ slice 20 32 h.

Definition is_unreserved (c : ascii) : bool :=
  let n := N_of_ascii c in
  ((48 <=? n) && (n <=? 57)) || ((65 <=? n) && (n <=? 90))
  || ((97 <=? n) && (n <=? 122))
  || (n =? 42) || (n =? 45) || (n =? 46) || (n =? 95).

Definition upper_hex_char (n : N) : ascii :=
  if n <? 10 then ascii_of_N (48 + n) else ascii_of_N (55 + n).

(** The application/x-www-form-urlencoded serializer of [URLSearchParams]. *)
Fixpoint form_encode (s : string) : string :=
  match s with
  | EmptyString => EmptyString
  | String c r =>
      let n := N_of_ascii c in
      if is_unreserved c then String c (form_encode r)
      else if n =? 32 then String "+" (form_encode r)
      else String "%" (String (upper_hex_char (n / 16))
                         (String (upper_hex_char (n mod 16)) (form_encode r)))
  end.

Definition query_string (params : list (string * string)) : string :=
  match map (fun p => form_encode (fst p) +:+ "=" +:+ form_encode (snd p)) params with
  | [] => ""
  | p :: ps => fold_left (fun acc q => acc +:+ "&" +:+ q) ps p
  end.

Definition join_scopes (scopes : list string) : string :=
  match scopes with
  | [] => ""
  | p :: ps => fold_left (fun acc q => acc +:+ " " +:+ q) ps p
  end.

(** The [config] argument; [None] is a property the caller left out. *)
Record Config : Type := mkConfig {
  clientId : string;
  authority : string;
  redirectUri : string;
  loginHint : option string;
  scopes : option (list string);
  prompt : option string;
  response_mode : option string;
  x_client_SKU : option string;
  x_client_VER : option string
}.

(** [o || d] on strings. *)
Definition str_or (o : option string) (d : string) : string :=
  match o with
  | Some s => if String.eqb s "" then d else s
  | None => d
  end.

(** The generator behind [crypto.randomBytes]: the bytes it yields, one
    after the other ([random i] is the byte number [i], taken modulo 256). *)
Definition Entropy : Type := nat -> N.

(** [crypto.randomBytes(size)] when [drawn] bytes were handed out before: a
    Buffer of [size] bytes. *)
Definition randomBytes (random : Entropy) (drawn size : nat) : list N :=
  map (fun i => N.land (random i) 255) (seq drawn size).

(** The bytes of the four calls [createMicrosoftAuthUrl] makes, in their
    order: [randomBytes(16)] in each [createNewGuid()], for the nonce, the
    correlation id and the identifier of the state, then [randomBytes(32)]
    for the code verifier. *)
Definition nonce_bytes (random : Entropy) : list N := randomBytes random 0 16.
Definition correlation_bytes (random : Entropy) : list N := randomBytes random 16 16.
Definition state_bytes (random : Entropy) : list N := randomBytes random 32 16.
Definition verifier_bytes (random : Entropy) : list N := randomBytes random 48 32.

Record RequestContext : Type := mkContext {
  codeVerifier : string;
  state : string;
  nonce : string;
  correlationId : string;
  params : list (string * string);
  context_scopes : string
}.

(** [params.get(name)] on a [URLSearchParams]. *)
Fixpoint params_get (params : list (string * string)) (name : string) : option string :=
  match params with
  | [] => None
  | (key, value) :: rest =>
      if String.eqb key name then Some value else params_get rest name
  end.

Definition default_scopes : list string :=
  ["service::outlook.office.com::MBI_SSL"; "openid"; "profile"; "offline_access"].

(** [createMicrosoftAuthUrl(config)]: the redirect URL and the request
    context. *)
Definition createMicrosoftAuthUrl (config : Config) (random : Entropy)
  : string * RequestContext :=
  let nonce := createNewGuid (randomBytes random 0 16) in
  let correlationId := createNewGuid (randomBytes random 16 16) in
  let interactionType :=
    match prompt config with
    | Some "none" => "silent"
    | _ => "redirect"
    end%string in
  let msalInternalState :=
    ("{" +:+ dquote +:+ "id" +:+ dquote +:+ ":" +:+ dquote
         +:+ createNewGuid (randomBytes random 32 16) +:+ dquote +:+ ","
         +:+ dquote +:+ "meta" +:+ dquote +:+ ":{" +:+ dquote +:+ "interactionType"
         +:+ dquote +:+ ":" +:+ dquote +:+ interactionType +:+ dquote +:+ "}}")%string in
  let state := base64 (bytes_of msalInternalState) in
  let codeVerifier := base64UrlEncode (randomBytes random 48 32) in
  let codeChallenge := base64UrlEncode (sha256 (bytes_of codeVerifier)) in
  let scope := join_scopes (match scopes config with
                            | Some l => l
                            | None => default_scopes
                            end) in
  let paramsObject :=
    [("client_id", clientId config); ("response_type", "code");
     ("redirect_uri", redirectUri config); ("scope", scope);
     ("state", state); ("nonce", nonce);
     ("prompt", str_or (prompt config) "none");
     ("code_challenge", codeChallenge); ("code_challenge_method", "S256");
     ("response_mode", str_or (response_mode config) "fragment");
     ("client-request-id", correlationId);
     ("x-client-SKU", str_or (x_client_SKU config) "msal.js.browser");
     ("x-client-VER", str_or (x_client_VER config) "4.14.0");
     ("client_info", "1")]%string
    ++ match loginHint config with
       | Some hint =>
           if String.eqb hint "" then []
           else [("login_hint", hint); ("X-AnchorMailbox", "UPN:" +:+ hint)]%string
       | None => []
       end in
  ((authority config +:+ "/oauth2/v2.0/authorize?" +:+ query_string paramsObject)%string,
   mkContext codeVerifier state nonce correlationId paramsObject scope).

(** ** Base64url without padding, as RFC 4648 section 5 defines it *)

Definition base64url_char (i : N) : ascii :=
  if i <? 26 then ascii_of_N (65 + i)
  else if i <? 52 then ascii_of_N (71 + i)
  else if i <? 62 then ascii_of_N (i - 4)
  else if i =? 62 then "-"%char
  else "_"%char.

Fixpoint base64url_unpadded (bytes : list N) : string :=
  match bytes with
  | a :: b :: c :: rest =>
      String (base64url_char (sextet1 a)) (String (base64url_char (sextet2 a b))
        (String (base64url_char (sextet3 b c)) (String (base64url_char (sextet4 c))
          (base64url_unpadded rest))))
  | [a; b] =>
      String (base64url_char (sextet1 a)) (String (base64url_char (sextet2 a b))
        (String (base64url_char (sextet3 b 0)) ""))
  | [a] =>
      String (base64url_char (sextet1 a)) (String (base64url_char (sextet2 a 0)) "")
  | [] => ""
  end.

Definition is_base64url_char (c : ascii) : bool :=
  let n := N_of_ascii c in
  ((48 <=? n) && (n <=? 57)) || ((65 <=? n) && (n <=? 90))
  || ((97 <=? n) && (n <=? 122)) || (n =? 45) || (n =? 95).

Fixpoint all_chars (p : ascii -> bool) (s : string) : bool :=
  match s with
  | EmptyString => true
  | String c r => p c && all_chars p r
  end.

(** The example of RFC 7636, appendix B. *)
Definition rfc7636_octets : list N :=
  [116; 24; 223; 180; 151; 153; 224; 37; 79; 250; 96; 125; 216; 173; 187; 186;
   22; 212; 37; 77; 105; 214; 191; 240; 91; 88; 5; 88; 83; 132; 141; 121].

Definition outlook_config : Config :=
  mkConfig "9199bf20-a13f-4107-85dc-02114787ef48"
           "https://login.microsoftonline.com/consumers"
           "https://outlook.live.com/mail/oauthRedirect.html"
           None (Some default_scopes) (Some "none"%string) None None None.

(** A generator that yields the octets of that example as the bytes of
    the verifier. *)
Definition sample_entropy : Entropy :=
  fun i => nth i (map N.of_nat (seq 0 16) ++ map N.of_nat (seq 16 16)
                    ++ map N.of_nat (seq 200 16) ++ rfc7636_octets) 0.

End Pkce.

(* ====================================================================== *)
(** * SHA-256 as the Secure Hash Standard states it (FIPS 180-4)

    The hash the PKCE challenge is specified with, written after the
    sections of the standard: words are the numbers below 2^32, a message
    is a list of bytes.  It is the yardstick the digest of the builder is
    held against. *)
(* ====================================================================== *)

Module Fips180.

Local Open Scope N_scope.

(** ** Operations on words (sections 2.2.2 and 3.2) *)

(** Reduction modulo 2^32: the addition of words is the addition of
    numbers, reduced. *)
Definition word (x : N) : N := x mod 2 ^ 32.

(** [x >> n], and the rotation [(x >> n) or (x << 32 - n)]. *)
Definition SHR (n x : N) : N := N.shiftr x n.
Definition ROTR (n x : N) : N := N.lor (N.shiftr x n) (word (N.shiftl x (32 - n))).

(** The bitwise complement of a word. *)
Definition complement (x : N) : N := N.lxor x (2 ^ 32 - 1).

(** ** Functions (section 4.1.2) *)

Definition Ch (x y z : N) : N := N.lxor (N.land x y) (N.land (complement x) z).
Definition Maj (x y z : N) : N :=
  N.lxor (N.lxor (N.land x y) (N.land x z)) (N.land y z).
Definition Sigma0 (x : N) : N := N.lxor (N.lxor (ROTR 2 x) (ROTR 13 x)) (ROTR 22 x).
Definition Sigma1 (x : N) : N := N.lxor (N.lxor (ROTR 6 x) (ROTR 11 x)) (ROTR 25 x).
Definition sigma0 (x : N) : N := N.lxor (N.lxor (ROTR 7 x) (ROTR 18 x)) (SHR 3 x).
Definition sigma1 (x : N) : N := N.lxor (N.lxor (ROTR 17 x) (ROTR 19 x)) (SHR 10 x).

(** ** Constants (section 4.2.2) and the initial hash value (5.3.3) *)

(** The tables are given as the standard prints them: words in
    hexadecimal, from left to right. *)
Definition hexadecimal_digit (c : ascii) : N :=
  let n := N_of_ascii c in
  if (48 <=? n) && (n <=? 57) then n - 48
  else if (97 <=? n) && (n <=? 102) then n - 87
  else 0.

Fixpoint hexadecimal_words (current : N) (text : string) : list N :=
  match text with
  | EmptyString => [current]
  | String " " rest => current :: hexadecimal_words 0 rest
  | String c rest => hexadecimal_words (16 * current + hexadecimal_digit c) rest
  end.

Definition K : list N :=
  Eval vm_compute in
  concat (map (hexadecimal_words 0)
    [
     "428a2f98 71374491 b5c0fbcf e9b5dba5 3956c25b 59f111f1 923f82a4 ab1c5ed5"%string;
     "d807aa98 12835b01 243185be 550c7dc3 72be5d74 80deb1fe 9bdc06a7 c19bf174"%string;
     "e49b69c1 efbe4786 0fc19dc6 240ca1cc 2de92c6f 4a7484aa 5cb0a9dc 76f988da"%string;
     "983e5152 a831c66d b00327c8 bf597fc7 c6e00bf3 d5a79147 06ca6351 14292967"%string;
     "27b70a85 2e1b2138 4d2c6dfc 53380d13 650a7354 766a0abb 81c2c92e 92722c85"%string;
     "a2bfe8a1 a81a664b c24b8b70 c76c51a3 d192e819 d6990624 f40e3585 106aa070"%string;
     "19a4c116 1e376c08 2748774c 34b0bcb5 391c0cb3 4ed8aa4a 5b9cca4f 682e6ff3"%string;
     "748f82ee 78a5636f 84c87814 8cc70208 90befffa a4506ceb bef9a3f7 c67178f2"%string
    ]).

Definition H0 : list N :=
  Eval vm_compute in
  hexadecimal_words 0 "6a09e667 bb67ae85 3c6ef372 a54ff53a 510e527f 9b05688c 1f83d9ab 5be0cd19".

(** ** Padding (section 5.1.1)

    To a message of [l] bits the bit 1 is appended, then [k] zero bits,
    [k] the smallest solution of [l + 1 + k = 448 mod 512], then [l] on
    64 bits.  On bytes: the byte 0x80, the least number [z] of zero bytes
    with [bytes + 1 + z = 56 mod 64], and the bit length on eight bytes. *)
Definition zero_bytes (bytes : nat) : nat :=
  default O (List.find (fun z => Nat.eqb (Nat.modulo (bytes + 1 + z) 64) 56) (seq 0 64)).

(** The [width] bytes of a number, the most significant first. *)
Fixpoint big_endian (width : nat) (x : N) : list N :=
  match width with
  | O => []
  | S n => (x / 256 ^ N.of_nat n) mod 256 :: big_endian n x
  end.

Definition padded (message : list N) : list N :=
  message ++ [0x80] ++ repeat 0 (zero_bytes (length message))
          ++ big_endian 8 (8 * N.of_nat (length message)).

(** ** Parsing (section 5.2.1)

    The padded message is parsed into blocks of 512 bits, each the
    sixteen words [M0 .. M15]; a word is four bytes, the first the most
    significant. *)
Definition word_of_bytes (b : list N) : N :=
  N.lor (N.lor (N.shiftl (nth 0 b 0) 24) (N.shiftl (nth 1 b 0) 16))
        (N.lor (N.shiftl (nth 2 b 0) 8) (nth 3 b 0)).

Definition block_words (bytes : list N) (i : nat) : list N :=
  map (fun j => word_of_bytes (firstn 4 (skipn (64 * i + 4 * j) bytes))) (seq 0 16).

Definition parsed (bytes : list N) : list (list N) :=
  map (block_words bytes) (seq 0 (length bytes / 64)).

(** ** The hash computation (section 6.2.2) *)

(** Step 1, the message schedule: [W_t = M_t] for [t < 16], and
    [W_t = sigma1(W_(t-2)) + W_(t-7) + sigma0(W_(t-15)) + W_(t-16)]
    after; [schedule M t] is the list [W_0 .. W_(t-1)]. *)
Fixpoint schedule (M : list N) (t : nat) : list N :=
  match t with
  | O => []
  | S t' =>
      let W := schedule M t' in
      W ++ [if (t' <? 16)%nat then nth t' M 0
            else word (sigma1 (nth (t' - 2) W 0) + nth (t' - 7) W 0
                       + sigma0 (nth (t' - 15) W 0) + nth (t' - 16) W 0)]
  end.

(** Steps 2 and 3: the eight working variables, and what a round makes of
    them. *)
Record Working : Type := mkWorking {
  a : N; b : N; c : N; d : N; e : N; f : N; g : N; h : N
}.

Definition round (v : Working) (Kt Wt : N) : Working :=
  let T1 := word (h v + Sigma1 (e v) + Ch (e v) (f v) (g v) + Kt + Wt) in
  let T2 := word (Sigma0 (a v) + Maj (a v) (b v) (c v)) in
  mkWorking (word (T1 + T2)) (a v) (b v) (c v) (word (d v + T1)) (e v) (f v) (g v).

Fixpoint rounds (t : nat) (W : list N) (v : Working) : Working :=
  match t with
  | O => v
  | S t' => round (rounds t' W v) (nth t' K 0) (nth t' W 0)
  end.

(** Step 4 after the 64 rounds of a block: the next hash value. *)
Definition next_hash (H : list N) (M : list N) : list N :=
  let v := rounds 64 (schedule M 64)
             (mkWorking (nth 0 H 0) (nth 1 H 0) (nth 2 H 0) (nth 3 H 0)
                        (nth 4 H 0) (nth 5 H 0) (nth 6 H 0) (nth 7 H 0)) in
  [word (a v + nth 0 H 0); word (b v + nth 1 H 0); word (c v + nth 2 H 0);
   word (d v + nth 3 H 0); word (e v + nth 4 H 0); word (f v + nth 5 H 0);
   word (g v + nth 6 H 0); word (h v + nth 7 H 0)].

(** The message digest: the eight words of the final hash value. *)
Definition SHA256 (message : list N) : list N :=
  concat (map (big_endian 4) (fold_left next_hash (parsed (padded message)) H0)).

End Fips180.

(* ====================================================================== *)
(** * Response classifier: [ResponseAnalyzer] of microsoft-auth.js *)
(* ====================================================================== *)

Module Classifier.

Inductive AuthState : Type :=
  | KMSI_PAGE_OK
  | INITIAL_PAGE_OK
  | INVALID_CREDENTIALS
  | ACCOUNT_LOCKED
  | REAUTH_NEEDED
  | UNKNOWN_STATE
  | PASSKEY_INTERRUPT
  | PRIVACY_NOTICE
  | AUTO_SUBMIT_FORM_DETECTED
  | MANUAL_REDIRECT_DETECTED
  | NEED_TO_ADD_ALT
  | MICROSOFT_HOME_PAGE
  | MICROSOFT_UPDATE_TERM.

#[global] Instance AuthState_eq_dec : EqDecision AuthState.
Proof. solve_decision. Defined.

(** The string value of the tag, as the [AuthState] object of the source
    gives it. *)
Definition AuthState_name (st : AuthState) : string :=
  match st with
  | KMSI_PAGE_OK => "KMSI_PAGE_OK"
  | INITIAL_PAGE_OK => "INITIAL_PAGE_OK"
  | INVALID_CREDENTIALS => "INVALID_CREDENTIALS"
  | ACCOUNT_LOCKED => "ACCOUNT_LOCKED"
  | REAUTH_NEEDED => "REAUTH_NEEDED"
  | UNKNOWN_STATE => "UNKNOWN_STATE"
  | PASSKEY_INTERRUPT => "PASSKEY_INTERRUPT"
  | PRIVACY_NOTICE => "PRIVACY_NOTICE"
  | AUTO_SUBMIT_FORM_DETECTED => "AUTO_SUBMIT_FORM_DETECTED"
  | MANUAL_REDIRECT_DETECTED => "MANUAL_REDIRECT_DETECTED"
  | NEED_TO_ADD_ALT => "NEED_TO_ADD_ALT"
  | MICROSOFT_HOME_PAGE => "MICROSOFT_HOME_PAGE"
  | MICROSOFT_UPDATE_TERM => "MICROSOFT_UPDATE_TERM"
  end.

(** An HTTP response as axios hands it over: the status, the [location]
    header when there is one, and the body text. *)
Record Response : Type := mkResponse {
  status : Z;
  location : option string;
  data : string
}.

(** What the constructor of [ResponseAnalyzer] computes from the response
    with cheerio and [HtmlParser.extractServerData]: the embedded
    [ServerData] object ([None] for [null]), the [action] of the form
    [form#fmHF] ([None]: no such form, [Some None]: a form without the
    attribute) and the text of the [title] elements. *)
Record ResponseAnalyzer : Type := mkAnalyzer {
  responce : Response;
  serverData : option (gmap string json);
  fmHF_action : option (option string);
  title_text : string
}.

Definition html (a : ResponseAnalyzer) : string := data (responce a).

(** [serverData?.[k]], [undefined] as [None]. *)
Definition serverData_prop (a : ResponseAnalyzer) (k : string) : option json :=
  match serverData a with
  | Some m => m !! k
  | None => None
  end.

(** [this.responce.status == 302 && this.responce.headers.location.includes(..)]:
    a 302 without a [location] header throws. *)
Definition redirects_to_account (a : ResponseAnalyzer) : Result bool :=
  if status (responce a) =? 302 then
    match location (responce a) with
    | Some l => Ok (includes l "account.live.com")
    | None => Throw (TypeError "Cannot read properties of undefined (reading 'includes')")
    end
  else Ok false.

(** [this.serverData?.sErrTxt?.includes('incorrect')]: the optional chain
    stops on [undefined] and [null]; a string and an array have an
    [includes] method; any other value throws. *)
Definition error_text_incorrect (a : ResponseAnalyzer) : Result bool :=
  match serverData_prop a "sErrTxt" with
  | None | Some JNull => Ok false
  | Some (JStr s) => Ok (includes s "incorrect")
  | Some (JArr l) =>
      Ok (existsb (fun x => match x with
                            | JStr s => String.eqb s "incorrect"
                            | _ => false
                            end) l)
  | Some _ => Throw (TypeError "includes is not a function")
  end.

(** [form.length > 0 && form.attr('action')?.includes(..)] *)
Definition privacy_notice_form (a : ResponseAnalyzer) : bool :=
  match fmHF_action a with
  | Some (Some act) => includes act "privacynotice.account.microsoft.com"
  | _ => false
  end.

(** [getAuthState()] *)
Definition getAuthState (a : ResponseAnalyzer) : Result AuthState :=
  match redirects_to_account a with
  | Throw e => Throw e
  | Ok true => Ok MICROSOFT_HOME_PAGE
  | Ok false =>
  match error_text_incorrect a with
  | Throw e => Throw e
  | Ok true => Ok INVALID_CREDENTIALS
  | Ok false =>
  if includes (html a) "/Abuse" then Ok ACCOUNT_LOCKED
  else if includes (html a) "identity/confirm" then Ok REAUTH_NEEDED
  else if includes (html a) "interrupt/passkey" then Ok PASSKEY_INTERRUPT
  else if includes (html a) "proofs/Add" then Ok NEED_TO_ADD_ALT
  else if includes (html a) "/tou/accrue" then Ok MICROSOFT_UPDATE_TERM
  else if privacy_notice_form a then Ok PRIVACY_NOTICE
  else if truthy_opt (serverData_prop a "sSigninName") then Ok KMSI_PAGE_OK
  else if truthy_opt (serverData_prop a "sFTTag") then Ok INITIAL_PAGE_OK
  else if includes (title_text a) "Microsoft account | Home" then Ok MICROSOFT_HOME_PAGE
  else Ok UNKNOWN_STATE
  end end.

(** ** The precedence table

    The markers in the order of the specification, each with the state it
    stands for; the first two are the tests of the code where they return. *)
Definition marker_redirect (a : ResponseAnalyzer) : bool :=
  (status (responce a) =? 302)
  && match location (responce a) with
     | Some l => includes l "account.live.com"
     | None => false
     end.

Definition marker_error_text (a : ResponseAnalyzer) : bool :=
  match error_text_incorrect a with
  | Ok b => b
  | Throw _ => false
  end.

Definition markers : list ((ResponseAnalyzer -> bool) * AuthState) :=
  [ (marker_redirect, MICROSOFT_HOME_PAGE);
    (marker_error_text, INVALID_CREDENTIALS);
    (fun a => includes (html a) "/Abuse", ACCOUNT_LOCKED);
    (fun a => includes (html a) "identity/confirm", REAUTH_NEEDED);
    (fun a => includes (html a) "interrupt/passkey", PASSKEY_INTERRUPT);
    (fun a => includes (html a) "proofs/Add", NEED_TO_ADD_ALT);
    (fun a => includes (html a) "/tou/accrue", MICROSOFT_UPDATE_TERM);
    (privacy_notice_form, PRIVACY_NOTICE);
    (fun a => truthy_opt (serverData_prop a "sSigninName"), KMSI_PAGE_OK);
    (fun a => truthy_opt (serverData_prop a "sFTTag"), INITIAL_PAGE_OK);
    (fun a => includes (title_text a) "Microsoft account | Home", MICROSOFT_HOME_PAGE) ].

(** The state of the first marker of a table that holds, [unknown] when
    none does. *)
Fixpoint first_match (table : list ((ResponseAnalyzer -> bool) * AuthState))
    (a : ResponseAnalyzer) : AuthState :=
  match table with
  | [] => UNKNOWN_STATE
  | (m, st) :: rest => if m a then st else first_match rest a
  end.

(** Every marker test returns: a 302 carries its [location], and the
    error text, when there is one, is a string or an array. *)
Definition tests_return (a : ResponseAnalyzer) : bool :=
  match redirects_to_account a, error_text_incorrect a with
  | Ok _, Ok _ => true
  | _, _ => false
  end.

(** The first marker as the specification words it: any 30x redirect that
    points at the account home. *)
Definition marker_redirect_30x (a : ResponseAnalyzer) : bool :=
  (300 <=? status (responce a)) && (status (responce a) <=? 309)
  && match location (responce a) with
     | Some l => includes l "account.live.com"
     | None => false
     end.

Definition markers_as_specified : list ((ResponseAnalyzer -> bool) * AuthState) :=
  (marker_redirect_30x, MICROSOFT_HOME_PAGE) :: tl markers.

End Classifier.

(* ====================================================================== *)
(** * The login flow: [MicrosoftAuth] of microsoft-auth.js *)
(* ====================================================================== *)

Module Flow.
Import Session Classifier.

Inductive Method : Type := GET | POST.

(** A call of [this.session.client]: the method, the URL ([None] when the
    caller passes [null] or [undefined]), the form fields of the body and
    the headers given besides the browser profile. *)
Record Request : Type := mkRequest {
  method : Method;
  url : option string;
  body : list (string * string);
  extra_headers : list (string * string)
}.

(** The fields of a [MicrosoftAuth] object, and [sent], the calls of
    [this.session.client] made so far (newest first), which stands for the
    state of the remote side.  Only these calls are counted: what the
    redirect resolver sends through a client of its own (it polls the
    recovery mailbox for a code) is no part of [sent]. *)
Record MicrosoftAuth : Type := mkAuth {
  email : string;
  password : string;
  session : HttpSession;
  lastUrl : option string;
  lastResponse : option Response;
  customData : option json;
  apiTokens : option json;
  mailboxValue : option json;
  sent : list Request
}.

Definition set_session (f : HttpSession -> HttpSession) (a : MicrosoftAuth) :=
  mkAuth (email a) (password a) (f (session a)) (lastUrl a) (lastResponse a)
         (customData a) (apiTokens a) (mailboxValue a) (sent a).
Definition set_lastUrl (u : option string) (a : MicrosoftAuth) :=
  mkAuth (email a) (password a) (session a) u (lastResponse a)
         (customData a) (apiTokens a) (mailboxValue a) (sent a).
Definition set_lastResponse (r : option Response) (a : MicrosoftAuth) :=
  mkAuth (email a) (password a) (session a) (lastUrl a) r
         (customData a) (apiTokens a) (mailboxValue a) (sent a).
Definition set_customData (d : option json) (a : MicrosoftAuth) :=
  mkAuth (email a) (password a) (session a) (lastUrl a) (lastResponse a)
         d (apiTokens a) (mailboxValue a) (sent a).
Definition set_apiTokens (t : option json) (a : MicrosoftAuth) :=
  mkAuth (email a) (password a) (session a) (lastUrl a) (lastResponse a)
         (customData a) t (mailboxValue a) (sent a).
Definition set_mailboxValue (m : option json) (a : MicrosoftAuth) :=
  mkAuth (email a) (password a) (session a) (lastUrl a) (lastResponse a)
         (customData a) (apiTokens a) m (sent a).
Definition record_sent (rq : Request) (a : MicrosoftAuth) :=
  mkAuth (email a) (password a) (session a) (lastUrl a) (lastResponse a)
         (customData a) (apiTokens a) (mailboxValue a) (rq :: sent a).

Definition set_flow (token url : option string) (s : HttpSession) : HttpSession :=
  mkSession (jar s) token url.

(** [new MicrosoftAuth(credentials)] without a saved jar. *)
Definition new_MicrosoftAuth (e p : string) (cookieJar : option CookieJar) : MicrosoftAuth :=
  mkAuth e p (new_HttpSession cookieJar) None None None None None [].

(** ** The monad of an async method

    A method runs on the object and either returns, throws, or does not
    come back within the recursion depth allowed ([None]). *)
Definition M (A : Type) : Type := MicrosoftAuth -> option (Result A * MicrosoftAuth).

Definition ret {A} (x : A) : M A := fun a => Some (Ok x, a).
Definition throw {A} (e : Error) : M A := fun a => Some (Throw e, a).
Definition out_of_fuel {A} : M A := fun _ => None.
Definition bind {A B} (m : M A) (k : A -> M B) : M B :=
  fun a => match m a with
           | Some (Ok x, a') => k x a'
           | Some (Throw e, a') => Some (Throw e, a')
           | None => None
           end.
Definition get : M MicrosoftAuth := fun a => Some (Ok a, a).
Definition modify (f : MicrosoftAuth -> MicrosoftAuth) : M unit :=
  fun a => Some (Ok tt, f a).
Definition lift {A} (r : Result A) : M A := fun a => Some (r, a).

(** [try { m } catch (error) { h error }] *)
Definition try_catch {A} (m : M A) (h : Error -> M A) : M A :=
  fun a => match m a with
           | Some (Throw e, a') => h e a'
           | other => other
           end.

Notation "x <- m ;; k" := (bind m (fun x => k))
  (at level 100, m at next level, right associativity).
Notation "m ;;; k" := (bind m (fun _ => k))
  (at level 100, right associativity).

(** ** Values *)

(** [String(v)] for the values string concatenation meets. *)
Fixpoint to_js_string (v : json) : string :=
  match v with
  | JNull => "null"
  | JBool true => "true"
  | JBool false => "false"
  | JNum z => pretty z
  | JStr s => s
  | JArr l =>
      JsonText.joined (map (fun x => match x with
                                     | JNull => ""
                                     | _ => to_js_string x
                                     end) l)
  | JObj _ | JNative Object_prototype => "[object Object]"
  | JNative (Object_prototype_method name) =>
      "function " +:+ (if String.eqb name "constructor" then "Object" else name)
        +:+ "() { [native code] }"
  | JNative Array_prototype => ""
  end.

Definition to_js_string_opt (o : option json) : string :=
  match o with
  | Some v => to_js_string v
  | None => "undefined"
  end.

(** A property kept as a URL or a token: a string, [undefined] otherwise. *)
Definition as_string (o : option json) : option string :=
  match o with
  | Some (JStr s) => Some s
  | _ => None
  end.

(** [s.replace('#', '?')]: the first occurrence only. *)
Fixpoint replace_hash (s : string) : string :=
  match s with
  | EmptyString => EmptyString
  | String c r => if Ascii.eqb c "#" then String "?" r else String c (replace_hash r)
  end.

Inductive AnalysisType : Type :=
  | HTTP_REDIRECT | MANUAL_REDIRECT | MSAL_REDIRECT | AUTO_SUBMIT
  | ENTER_PASSWORD | FINAL_PAGE | UNKNOWN.

Definition AnalysisType_name (t : AnalysisType) : string :=
  match t with
  | HTTP_REDIRECT => "HTTP_REDIRECT"
  | MANUAL_REDIRECT => "MANUAL_REDIRECT"
  | MSAL_REDIRECT => "MSAL_REDIRECT"
  | AUTO_SUBMIT => "AUTO_SUBMIT"
  | ENTER_PASSWORD => "ENTER_PASSWORD"
  | FINAL_PAGE => "FINAL_PAGE"
  | UNKNOWN => "UNKNOWN"
  end.

(** What [analyzeRedirect] returns: [{type, url, payload}]. *)
Record Analysis : Type := mkAnalysis {
  an_type : AnalysisType;
  an_url : option string;
  an_payload : list (string * string)
}.

Definition field (k : string) (fields : list (string * string)) : string :=
  match List.find (fun p => String.eqb (fst p) k) fields with
  | Some p => snd p
  | None => "undefined"
  end.

(** What [_performAuthFlow] returns. *)
Inductive FlowResult : Type :=
  | FlowSuccess
  | FlowBlocked (state : AuthState) (customData : option json).

Definition BASE_URLS_REWARDS : string := "https://rewards.bing.com/Signin?idru=%2F".
Definition BASE_URLS_OUTLOOK : string := "https://outlook.live.com/owa/".
Definition BASE_URLS_ACCOUNT : string := "https://account.microsoft.com/".
Definition BASE_URLS_BING : string := "https://www.bing.com/".
Definition TENANT_ID_VALUE : string := "84df9e7f-e9f6-40af-b435-aaaaaaaaaaaa".
Definition TOKEN_ENDPOINT : string :=
  "https://login.microsoftonline.com/consumers/oauth2/v2.0/token".
Definition REENTRY_URL : string :=
  "https://login.live.com/login.srf?wreply=https://outlook.live.com/owa/0/".
Definition OUTLOOK_CLIENT_ID : string := "9199bf20-a13f-4107-85dc-02114787ef48".
Definition OUTLOOK_REDIRECT_URI : string :=
  "https://outlook.live.com/mail/oauthRedirect.html".

(** What [createMicrosoftAuthUrl] hands to [_getOutlookTokens]. *)
Record AuthRequest : Type := mkAuthRequest {
  redirectUrl : string;
  codeVerifier : string;
  correlationId : string;
  scopes : string
}.

Definition to_upper_ascii (c : ascii) : ascii :=
  let n := N_of_ascii c in
  if ((97 <=? n) && (n <=? 122))%N then ascii_of_N (n - 32) else c.

(** [type.toUpperCase()] on the ASCII names of the cookie types. *)
Fixpoint toUpperCase (s : string) : string :=
  match s with
  | EmptyString => EmptyString
  | String c r => String (to_upper_ascii c) (toUpperCase r)
  end.

Section Methods.

(** ** The surroundings of the class *)

(** The remote side: the answer to a call, given the calls made before it.
    [Throw] is a call that fails without a response. *)
Variable server : list Request -> Request -> Result Response.

(** axios parses a body that is JSON text. *)
Variable JSON_parse : string -> option json.
Variable JSON_stringify : json -> string.
Variable jar_toJSON : list Cookie -> json.

(** cheerio and [HtmlParser] on a page: the [ServerData] object, the
    [action] of [form#fmHF], the title text; the hidden inputs of that
    form; the value of the [PPFT] input of a flow-token tag; the [ucis]
    record of the consent page. *)
Variable page_features :
  string -> option (gmap string json) * option (option string) * string.
Variable hidden_inputs : string -> list (string * string).
Variable PPFT_value : string -> option string.
Variable extractUcisData : string -> option (gmap string string).

(** [new URL(u).searchParams], as the function [get] of its result, and
    [new URL(u, base).href]; [Throw] on text that is no URL. *)
Variable URL_searchParams : string -> Result (string -> option string).
Variable resolve_url : string -> string -> Result string.

(** The redirect resolver [EnhancedRedirectHandler]: its state, a new
    handler, and [analyzeRedirect(response, lastUrl)].  The state stands
    for all the resolver holds and reaches: its configuration, its flags
    and the recovery mailbox it polls for a code on the page that asks for
    one.  That polling goes through the mailbox client, not through
    [this.session.client]: it changes the state of the resolver and no
    field of [MicrosoftAuth]. *)
Variable HandlerState : Type.
Variable new_handler : HandlerState.
Variable analyzeRedirect :
  HandlerState -> Response -> option string -> Result Analysis * HandlerState.

(** [createMicrosoftAuthUrl(msalConfig)] in the first attempt of
    [_getOutlookTokens] ([false]) and in the retried one ([true]);
    [_decodeJwtPayload]; [Date.now()] and [new Date().toISOString()]. *)
Variable createMicrosoftAuthUrl : bool -> AuthRequest.
Variable _decodeJwtPayload : option json -> option json.
Variable now : Z.
Variable now_iso : string.

(** ** The HTTP client *)

Definition validateStatus (st : Z) : bool := (200 <=? st) && (st <? 400).

Definition request (validate : Z -> bool) (rq : Request) : M Response :=
  fun a =>
    match url rq with
    | None => Some (Throw (TypeError "Invalid URL"), a)
    | Some _ =>
        match server (sent a) rq with
        | Ok r =>
            if validate (status r) then Some (Ok r, record_sent rq a)
            else Some (Throw (NetworkError "Request failed with status code"),
                       record_sent rq a)
        | Throw e => Some (Throw e, record_sent rq a)
        end
    end.

Definition client_get (u : option string) : M Response :=
  request validateStatus (mkRequest GET u [] []).

Definition client_post (u : option string) (fields : list (string * string)) : M Response :=
  request validateStatus (mkRequest POST u fields []).

(** [response.data] *)
Definition response_data (r : Response) : json :=
  match JSON_parse (data r) with
  | Some j => j
  | None => JStr (data r)
  end.

(** [new ResponseAnalyzer(response)].  The constructor hands
    [response.data] to cheerio and to [html.match]: a string goes through,
    and the analyzer keeps the response with that string as its body; the
    value of a body that was JSON text other than a string makes it throw
    (an object: [html.match is not a function], the runtime's TypeError;
    on the other values the text of the error is cheerio's). *)
Definition new_ResponseAnalyzer (r : Response) : Result ResponseAnalyzer :=
  match response_data r with
  | JStr html =>
      let '(sd, form, title) := page_features html in
      Ok (mkAnalyzer (mkResponse (status r) (location r) html) sd form title)
  | JNull => Throw (PlainError "cheerio.load() expects a string")
  | _ => Throw (TypeError "html.match is not a function")
  end.

(** [response.data] where the source takes it for a page: the string axios
    hands over, [None] for the value of a JSON body that is no string. *)
Definition page_of (r : Response) : option string :=
  match response_data r with
  | JStr html => Some html
  | _ => None
  end.

(** [HtmlParser.extractFlowToken(serverData)] *)
Definition extractFlowToken (sd : option (gmap string json)) : option string :=
  match sd with
  | Some m =>
      match m !! "sFTTag" with
      | Some v => if truthy v then PPFT_value (to_js_string v) else None
      | None => None
      end
  | None => None
  end.

(** [this.session.setMetadata(key, value)] *)
Definition session_setMetadata (k : string) (v : json) : M unit :=
  a <- get;;
  match setMetadata (session a) k v with
  | Ok s' => modify (set_session (fun _ => s'))
  | Throw e => throw e
  end.

(** [Date.now() + (this.apiTokens.expires_in * 1000)], [null] where the
    product is no number. *)
Definition tokens_expiry (tokens : option json) : json :=
  match tokens with
  | Some (JObj m) =>
      match m !! "expires_in" with
      | Some (JNum n) => JNum (now + n * 1000)
      | _ => JNull
      end
  | _ => JNull
  end.

(** ** Redirect handling *)

Definition password_fields (a : MicrosoftAuth) (ppft last_key : string)
  : list (string * string) :=
  [("login", email a); ("loginfmt", email a); ("passwd", password a);
   ("PPFT", ppft); ("type", "11"); ("ps", "2"); ("NewUser", "1");
   (last_key, "16425")].

(** The [for] loop of [_followRedirects], [remaining] iterations left. *)
Fixpoint redirect_loop (remaining : nat) (handler : HandlerState)
    (currentResponse : Response) : M unit :=
  match remaining with
  | O => throw (AuthError "Exceeded maximum redirects" "REDIRECTS")
  | S n =>
      a <- get;;
      match analyzeRedirect handler currentResponse (lastUrl a) with
      | (Throw e, _) => throw e
      | (Ok analysis, handler') =>
          match an_type analysis with
          | HTTP_REDIRECT | MANUAL_REDIRECT | MSAL_REDIRECT =>
              modify (set_lastUrl (an_url analysis));;;
              r <- client_get (an_url analysis);;
              redirect_loop n handler' r
          | AUTO_SUBMIT =>
              modify (set_lastUrl (an_url analysis));;;
              r <- client_post (an_url analysis) (an_payload analysis);;
              redirect_loop n handler' r
          | ENTER_PASSWORD =>
              r <- client_post (an_url analysis)
                     (password_fields a (field "PPFT" (an_payload analysis)) "i13");;
              redirect_loop n handler' r
          | FINAL_PAGE =>
              modify (set_lastResponse (Some currentResponse))
          | UNKNOWN =>
              throw (AuthError ("Unknown redirect type: " +:+ AnalysisType_name UNKNOWN)
                               "REDIRECTS")
          end
      end
  end.

(** [_followRedirects(initialResponse, maxRedirects = 20)] *)
Definition _followRedirects_upto (maxRedirects : nat) (initialResponse : Response) : M unit :=
  redirect_loop maxRedirects new_handler initialResponse.

Definition _followRedirects (initialResponse : Response) : M unit :=
  _followRedirects_upto 20 initialResponse.

(** ** Authentication steps *)

(** After a keep-me-signed-in page: the flow token and post URL of its
    [ServerData]. *)
Definition store_kmsi_flow (an : ResponseAnalyzer) : M unit :=
  match serverData an with
  | Some m =>
      modify (set_session (set_flow (as_string (m !! "sFT")) (as_string (m !! "urlPost"))))
  | None => throw (TypeError "Cannot read properties of null (reading 'sFT')")
  end.

(** [_handlePrivacyNotice()] *)
Definition _handlePrivacyNotice : M AuthState :=
  a <- get;;
  match lastResponse a with
  | None => throw (TypeError "Cannot read properties of undefined (reading 'data')")
  | Some last =>
      analyzer <- lift (new_ResponseAnalyzer last);;
      match fmHF_action analyzer with
      | None => throw (AuthError "Could not extract privacy notice data" "PRIVACY_NOTICE")
      | Some action =>
          response1 <- client_post action (hidden_inputs (html analyzer));;
          match from_option extractUcisData None (page_of response1) with
          | None => throw (AuthError "Could not extract UCIS data" "PRIVACY_NOTICE")
          | Some ucis =>
              let u k := default "undefined" (ucis !! k) in
              client_post (Some "https://privacynotice.account.microsoft.com/recordnotice")
                [("ClientId", u "ClientId"); ("ConsentSurface", "SISU");
                 ("ConsentType", "ucsisunotice"); ("correlation_id", u "CorrelationId");
                 ("CountryRegion", "US"); ("DeviceId", "");
                 ("SerializedEncryptionData", u "SerializedEncryptionData");
                 ("FormFactor", "Desktop"); ("Market", "EN-GB");
                 ("ModelType", "ucsisunotice"); ("ModelVersion", u "ModelVersion");
                 ("NoticeId", u "NoticeId"); ("Platform", "Web");
                 ("UserId", u "UserId"); ("UserVersion", "1")];;;
              searchParams <- lift (match action with
                                    | Some act => URL_searchParams act
                                    | None => Throw (TypeError "Invalid URL")
                                    end);;
              finalResponse <- client_get (searchParams "ru");;
              finalAnalyzer <- lift (new_ResponseAnalyzer finalResponse);;
              state <- lift (getAuthState finalAnalyzer);;
              (if decide (state = KMSI_PAGE_OK) then store_kmsi_flow finalAnalyzer
               else ret tt);;;
              ret state
          end
      end
  end.

(** [_getInitialPage()]: [None] is the [undefined] a caught error leaves. *)
Fixpoint _getInitialPage (fuel : nat) : M (option AuthState) :=
  match fuel with
  | O => out_of_fuel
  | S fuel' =>
      try_catch
        (a <- get;;
         response <- client_get (loginUrl (session a));;
         analyzer <- lift (new_ResponseAnalyzer response);;
         state <- lift (getAuthState analyzer);;
         if decide (state = MICROSOFT_HOME_PAGE) then ret (Some state)
         else if decide (state = MICROSOFT_UPDATE_TERM) then
           _followRedirects response;;;
           _getInitialPage fuel'
         else if decide (state = PRIVACY_NOTICE) then
           modify (set_lastResponse (Some response));;;
           _ <- _handlePrivacyNotice;;
           _getInitialPage fuel'
         else if negb (includes (AuthState_name state) "INITIAL_PAGE_OK") then
           throw (AuthError ("Unexpected initial state: " +:+ AuthState_name state)
                            "INITIAL_PAGE")
         else
           match serverData analyzer with
           | Some m =>
               modify (set_session (set_flow (extractFlowToken (Some m))
                                             (as_string (m !! "urlPost"))));;;
               ret (Some state)
           | None => throw (TypeError "Cannot read properties of null (reading 'urlPost')")
           end)
        (fun error => ret None)
  end.

(** [_postUsername()] *)
Definition _postUsername : M unit :=
  a <- get;;
  response <- client_post (Some "https://login.live.com/GetCredentialType.srf")
                [("username", email a);
                 ("flowToken", default "null" (flowToken (session a)))];;
  modify (set_customData (Some (response_data response)));;;
  exists_result <- lift (prop (response_data response) "IfExistsResult");;
  match exists_result with
  | Some (JNum 0) => ret tt
  | _ => throw (AuthError "Account does not exist" "POST_USERNAME")
  end.

(** [_postPassword()] *)
Definition _postPassword (fuel : nat) : M (option AuthState) :=
  a <- get;;
  response <- client_post (loginUrl (session a))
                (password_fields a (default "null" (flowToken (session a))) "i19");;
  analyzer <- lift (new_ResponseAnalyzer response);;
  state <- lift (getAuthState analyzer);;
  (if decide (state = KMSI_PAGE_OK) then store_kmsi_flow analyzer else ret tt);;;
  if decide (state = MICROSOFT_UPDATE_TERM) then
    _followRedirects response;;;
    _getInitialPage fuel
  else if decide (state = PRIVACY_NOTICE) then
    modify (set_lastResponse (Some response));;;
    _ <- _handlePrivacyNotice;;
    _getInitialPage fuel
  else
    state2 <- lift (getAuthState analyzer);;
    ret (Some state2).

(** [_postKmsi()] *)
Definition _postKmsi : M Response :=
  a <- get;;
  match flowToken (session a) with
  | None | Some "" => throw (AuthError "Missing flow token" "KMSI")
  | Some token =>
      response <- client_post (loginUrl (session a))
                    [("LoginOptions", "1"); ("type", "28"); ("ctx", "");
                     ("hpgrequestid", ""); ("PPFT", token); ("canary", "")];;
      match location response with
      | Some l =>
          if (status response =? 302) && negb (String.eqb l "") then ret response
          else throw (AuthError "Expected redirect after KMSI" "KMSI")
      | None => throw (AuthError "Expected redirect after KMSI" "KMSI")
      end
  end.

(** ** Outlook tokens *)

Definition iframe_headers : list (string * string) :=
  [("Referer", "https://outlook.live.com/"); ("Sec-Fetch-Dest", "iframe");
   ("Sec-Fetch-Site", "cross-site")].

(** The loop [for (let i = 0; i < 2; i++)] of [_getOutlookTokens]: the
    final response, [None] when the hops are used up without one. *)
Fixpoint oauth_hops (remaining : nat) (currentUrl : string) : M (option Response) :=
  match remaining with
  | O => ret None
  | S n =>
      response <- request validateStatus
                    (mkRequest GET (Some currentUrl) [] iframe_headers);;
      match location response with
      | Some l =>
          if negb (String.eqb l "") && negb (includes l "#code")
             && negb (includes l "interaction_required")
          then next <- lift (resolve_url l currentUrl);; oauth_hops n next
          else ret (Some response)
      | None => ret (Some response)
      end
  end.

Definition falsy_string (o : option string) : bool :=
  match o with
  | None | Some "" => true
  | Some _ => false
  end.

(** [this.mailboxValue = tokens.puid + "@" + BASE_URLS.TENANT_ID_VALUE] *)
Definition derive_mailbox (id_token : option json) : M json :=
  match _decodeJwtPayload id_token with
  | None => throw (TypeError "Cannot read properties of null (reading 'puid')")
  | Some tokens =>
      puid <- lift (prop tokens "puid");;
      let mailbox := JStr (to_js_string_opt puid +:+ "@" +:+ TENANT_ID_VALUE) in
      modify (set_mailboxValue (Some mailbox));;;
      ret mailbox
  end.

(** The [claims] field of the token request:
    [{"access_token":{"xms_cc":{"values":["CP1"]}}}]. *)
Definition CLAIMS_CP1 : string :=
  "{" +:+ dquote +:+ "access_token" +:+ dquote +:+ ":{" +:+ dquote +:+ "xms_cc"
      +:+ dquote +:+ ":{" +:+ dquote +:+ "values" +:+ dquote +:+ ":[" +:+ dquote
      +:+ "CP1" +:+ dquote +:+ "]}}}".

(** The exchange of the authorization code and what follows it. *)
Definition exchange_code (rq : AuthRequest) (code : string) : M bool :=
  tokenResponse1 <- request validateStatus
    (mkRequest POST (Some TOKEN_ENDPOINT)
       [("client_id", OUTLOOK_CLIENT_ID); ("scope", scopes rq);
        ("redirect_uri", OUTLOOK_REDIRECT_URI);
        ("grant_type", "authorization_code"); ("code", code);
        ("code_verifier", codeVerifier rq); ("client_info", "1");
        ("client-request-id", correlationId rq);
        ("x-client-SKU", "msal.js.browser"); ("x-client-VER", "4.14.0");
        ("x-ms-lib-capability", "retry-after, h429");
        ("x-client-current-telemetry", "5|863,0,,,|,");
        ("x-client-last-telemetry", "5|0|||0,0");
        ("claims", CLAIMS_CP1)]
       [("Content-Type", "application/x-www-form-urlencoded");
        ("Origin", "https://outlook.live.com/")]);;
  let outlook_tokens := response_data tokenResponse1 in
  modify (set_apiTokens (Some outlook_tokens));;;
  id_token <- lift (prop outlook_tokens "id_token");;
  mailbox <- derive_mailbox id_token;;
  access_token <- lift (prop outlook_tokens "access_token");;
  try_catch
    (request validateStatus
       (mkRequest POST (Some "https://outlook.live.com/owa/0/lang.owa?app=Mail")
          [("localeName", "en-GB"); ("tzid", "America/Chicago");
           ("saveLanguageAndTimezone", "1")]
          [("Authorization",
            "MSAuth1.0 usertoken=" +:+ dquote +:+ to_js_string_opt access_token
              +:+ dquote +:+ ", type=" +:+ dquote +:+ "MSACT" +:+ dquote);
           ("X-Anchormailbox", "PUID:" +:+ to_js_string mailbox)]);;;
     ret tt)
    (fun error => ret tt);;;
  modify (set_apiTokens (Some outlook_tokens));;;
  session_setMetadata "outlookTokens" outlook_tokens;;;
  session_setMetadata "mailboxValue" mailbox;;;
  session_setMetadata "outlookTokensExpiry" (tokens_expiry (Some outlook_tokens));;;
  ret true.

(** The silent re-entry into the login endpoint, followed by [self], the
    call [this._getOutlookTokens(true)]. *)
Definition silent_reentry (self : M bool) : M bool :=
  response <- client_get (Some REENTRY_URL);;
  _followRedirects response;;;
  self.

(** The body of the [try] block of [_getOutlookTokens(retry)]. *)
Definition acquire_body (retry : bool) (self : M bool) : M bool :=
  let rq := createMicrosoftAuthUrl retry in
  final <- oauth_hops 2 (redirectUrl rq);;
  match final with
  | None => throw (AuthError "No final response in OAuth flow" "OUTLOOK_TOKENS")
  | Some finalResponse =>
      match location finalResponse with
      | None => throw (TypeError "Cannot read properties of undefined (reading 'replace')")
      | Some l =>
          searchParams <- lift (URL_searchParams (replace_hash l));;
          let code := searchParams "code" in
          if falsy_string code then
            if negb retry && negb (falsy_string (searchParams "error"))
            then silent_reentry self
            else throw (AuthError "Could not extract authorization code" "OUTLOOK_TOKENS")
          else exchange_code rq (default "" code)
      end
  end.

(** One run of [_getOutlookTokens(retry)]: every error is caught, logged
    and answered with [false]. *)
Definition acquire (retry : bool) (self : M bool) : M bool :=
  try_catch (acquire_body retry self) (fun error => ret false).

(** [_getOutlookTokens(retry = false)] *)
Fixpoint _getOutlookTokens (fuel : nat) (retry : bool) : M bool :=
  match fuel with
  | O => out_of_fuel
  | S fuel' => acquire retry (_getOutlookTokens fuel' true)
  end.

(** [_verifyOutlookTokens(tokens)] *)
Definition _verifyOutlookTokens (tokens : json) : M bool :=
  try_catch
    (access_token <- lift (prop tokens "access_token");;
     response <- request (fun st => st <? 500)
       (mkRequest GET (Some "https://outlook.office.com/api/v2.0/me") []
          [("Authorization", "Bearer " +:+ to_js_string_opt access_token);
           ("Accept", "application/json")]);;
     ret (status response =? 200))
    (fun error => ret false).

(** [_refreshOutlookTokens(refreshToken)] *)
Definition _refreshOutlookTokens (refreshToken : option json) : M bool :=
  try_catch
    (response <- request validateStatus
       (mkRequest POST (Some TOKEN_ENDPOINT)
          [("client_id", OUTLOOK_CLIENT_ID);
           ("scope", "service::outlook.office.com::MBI_SSL openid profile offline_access");
           ("grant_type", "refresh_token");
           ("refresh_token", to_js_string_opt refreshToken)]
          [("Content-Type", "application/x-www-form-urlencoded");
           ("Origin", "https://outlook.live.com/")]);;
     let d := response_data response in
     access_token <- lift (if truthy d then prop d "access_token" else Ok None);;
     if truthy d && truthy_opt access_token then
       modify (set_apiTokens (Some d));;;
       session_setMetadata "outlookTokens" d;;;
       session_setMetadata "outlookTokensExpiry" (tokens_expiry (Some d));;;
       ret true
     else ret false)
    (fun error => ret false).

(** The tail of [_authenticateOutlook]: the full authentication. *)
Definition full_outlook_authentication (fuel : nat) : M bool :=
  response <- client_get (Some BASE_URLS_OUTLOOK);;
  _followRedirects response;;;
  success <- _getOutlookTokens fuel false;;
  a <- get;;
  (if success && truthy_opt (apiTokens a) then
     let tokens := default JNull (apiTokens a) in
     session_setMetadata "outlookTokens" tokens;;;
     id_token <- lift (prop tokens "id_token");;
     mailbox <- derive_mailbox id_token;;
     session_setMetadata "mailboxValue" mailbox;;;
     session_setMetadata "outlookTokensExpiry" (tokens_expiry (apiTokens a))
   else ret tt);;;
  ret success.

(** [_authenticateOutlook()] *)
Definition _authenticateOutlook (fuel : nat) : M bool :=
  a <- get;;
  let savedTokens := getMetadata (session a) "outlookTokens" in
  let savedMailbox := getMetadata (session a) "mailboxValue" in
  if truthy savedTokens && truthy savedMailbox then
    valid <- _verifyOutlookTokens savedTokens;;
    if valid then
      modify (set_apiTokens (Some savedTokens));;;
      modify (set_mailboxValue (Some savedMailbox));;;
      ret true
    else
      refresh_token <- lift (prop savedTokens "refresh_token");;
      refreshed <- _refreshOutlookTokens refresh_token;;
      if refreshed then ret true else full_outlook_authentication fuel
  else full_outlook_authentication fuel.

(** [verifySession()]: the [success] of its result. *)
Definition verifySession (fuel : nat) : M bool :=
  try_catch
    (response <- request validateStatus
       (mkRequest GET (Some (BASE_URLS_ACCOUNT +:+ "home/api/profile/personal-info")) []
          [("Accept", "application/json"); ("X-Requested-With", "XMLHttpRequest")]);;
     _ <- _authenticateOutlook fuel;;
     signInName <- lift (prop (response_data response) "signInName");;
     a <- get;;
     ret (match signInName with
          | Some (JStr s) => String.eqb s (email a)
          | _ => false
          end))
    (fun error => ret false).

(** [_handleKmsiPage()] *)
Definition _handleKmsiPage (fuel : nat) : M FlowResult :=
  response <- _postKmsi;;
  _followRedirects response;;;
  verified <- verifySession fuel;;
  if verified then ret FlowSuccess
  else throw (AuthError "Session verification failed" "KMSI_VERIFICATION").

(** ** The flow *)

Definition state_name (state : option AuthState) : string :=
  match state with
  | Some st => AuthState_name st
  | None => "undefined"
  end.

(** [_performAuthFlow()] and [_handleAuthState(state)] *)
Fixpoint _performAuthFlow (fuel : nat) : M FlowResult :=
  match fuel with
  | O => out_of_fuel
  | S fuel' =>
      state <- _getInitialPage fuel';;
      if decide (state = Some MICROSOFT_HOME_PAGE) then ret FlowSuccess
      else
        _postUsername;;;
        passwordState <- _postPassword fuel';;
        if decide (passwordState = Some MICROSOFT_HOME_PAGE) then ret FlowSuccess
        else _handleAuthState fuel' passwordState
  end
with _handleAuthState (fuel : nat) (state : option AuthState) : M FlowResult :=
  match fuel with
  | O => out_of_fuel
  | S fuel' =>
      match state with
      | Some KMSI_PAGE_OK => _handleKmsiPage fuel'
      | Some PRIVACY_NOTICE =>
          newState <- _handlePrivacyNotice;;
          _handleAuthState fuel' (Some newState)
      | Some (ACCOUNT_LOCKED as st) | Some (REAUTH_NEEDED as st)
      | Some (PASSKEY_INTERRUPT as st) | Some (NEED_TO_ADD_ALT as st) =>
          a <- get;;
          ret (FlowBlocked st (customData a))
      | Some INITIAL_PAGE_OK => _performAuthFlow fuel'
      | _ => throw (AuthError ("Unexpected state: " +:+ state_name state) "AUTH_FLOW")
      end
  end.

(** ** Cookie retrieval *)

Definition _authenticateRewards : M bool :=
  response <- client_get (Some BASE_URLS_REWARDS);;
  _followRedirects response;;;
  verifyResponse <- client_get (Some "https://rewards.bing.com/");;
  ret (status verifyResponse =? 200).

Definition _authenticateBing : M bool :=
  response <- client_get
    (Some (BASE_URLS_BING +:+ "fd/auth/signin/v2?action=interactive&isSilent=true"));;
  _followRedirects response;;;
  ret true.

(** [_getCookies(types)] *)
Fixpoint _getCookies (fuel : nat) (types : list string) (cookies : gmap string bool)
  : M (gmap string bool) :=
  match types with
  | [] => ret cookies
  | type :: rest =>
      let upper := toUpperCase type in
      cookies' <-
        (if String.eqb upper "ALL" then
           verified <- verifySession fuel;; ret (<["all" := verified]> cookies)
         else if String.eqb upper "REWARDS" then
           b <- _authenticateRewards;; ret (<["rewards" := b]> cookies)
         else if String.eqb upper "OUTLOOK" then
           b <- _authenticateOutlook fuel;; ret (<["outlook" := b]> cookies)
         else if String.eqb upper "BING" then
           b <- _authenticateBing;; ret (<["bing" := b]> cookies)
         else ret cookies);;
      _getCookies fuel rest cookies'
  end.

(** ** Public API *)

Inductive LoginResult : Type :=
  | LoginSuccess (cookies : gmap string bool) (cookieJar : string)
  | LoginBlocked (state : AuthState) (customData : option json)
  | LoginFailed (error step : string).

(** [_formatError(error)] *)
Definition _formatError (e : Error) : LoginResult :=
  match e with
  | AuthError m step => LoginFailed m step
  | _ => LoginFailed (if String.eqb (message_of e) "" then "Unknown error"
                      else message_of e) "UNKNOWN"
  end.

(** [login(cookieTypes = ['ALL'])] *)
Definition login (fuel : nat) (cookieTypes : list string) : M LoginResult :=
  try_catch
    (authResult <- _performAuthFlow fuel;;
     match authResult with
     | FlowBlocked st cd => ret (LoginBlocked st cd)
     | FlowSuccess =>
         cookies <- _getCookies fuel cookieTypes ∅;;
         a <- get;;
         ret (LoginSuccess cookies
                (exportCookieJar JSON_stringify jar_toJSON (session a) now_iso))
     end)
    (fun error => ret (_formatError error)).

End Methods.

Arguments redirect_loop server {HandlerState} analyzeRedirect.
Arguments _followRedirects_upto server {HandlerState} new_handler analyzeRedirect.
Arguments _followRedirects server {HandlerState} new_handler analyzeRedirect.
Arguments _getInitialPage server JSON_parse page_features hidden_inputs PPFT_value
  extractUcisData URL_searchParams {HandlerState} new_handler analyzeRedirect.
Arguments _postPassword server JSON_parse page_features hidden_inputs PPFT_value
  extractUcisData URL_searchParams {HandlerState} new_handler analyzeRedirect.
Arguments silent_reentry server {HandlerState} new_handler analyzeRedirect.
Arguments acquire_body server JSON_parse URL_searchParams resolve_url
  {HandlerState} new_handler analyzeRedirect.
Arguments acquire server JSON_parse URL_searchParams resolve_url
  {HandlerState} new_handler analyzeRedirect.
Arguments _getOutlookTokens server JSON_parse URL_searchParams resolve_url
  {HandlerState} new_handler analyzeRedirect.
Arguments _performAuthFlow server JSON_parse page_features hidden_inputs PPFT_value
  extractUcisData URL_searchParams resolve_url {HandlerState} new_handler analyzeRedirect.
Arguments _handleAuthState server JSON_parse page_features hidden_inputs PPFT_value
  extractUcisData URL_searchParams resolve_url {HandlerState} new_handler analyzeRedirect.
Arguments login server JSON_parse JSON_stringify jar_toJSON page_features hidden_inputs
  PPFT_value extractUcisData URL_searchParams resolve_url {HandlerState} new_handler
  analyzeRedirect.

End Flow.

(* ====================================================================== *)
(** * Canned surroundings for running the flow

    Executable stand-ins for the URL class, for cheerio on the pages of
    the canned responses and for the remote side, used to run the methods
    of [Flow] on concrete response sequences. *)
(* ====================================================================== *)

Module Canned.
Import Session Classifier Flow.

Fixpoint split_on (c : ascii) (s : string) : list string :=
  match s with
  | EmptyString => [EmptyString]
  | String x r =>
      let parts := split_on c r in
      if Ascii.eqb x c then EmptyString :: parts
      else match parts with
           | p :: ps => String x p :: ps
           | [] => [String x EmptyString]
           end
  end.

(** The query of a URL: what stands between the first [?] and a later [#]. *)
Definition query_of (u : string) : string :=
  match split_on "?" u with
  | _ :: q :: rest => hd "" (split_on "#" (fold_left (fun acc p => acc +:+ "?" +:+ p) rest q))
  | _ => ""
  end.

Definition pair_of (kv : string) : string * string :=
  match split_on "=" kv with
  | k :: v :: rest => (k, fold_left (fun acc p => acc +:+ "=" +:+ p) rest v)
  | k :: [] => (k, "")
  | [] => ("", "")
  end.

(** [new URL(u).searchParams.get]: the first value of a key, on absolute
    http URLs (no percent-decoding). *)
Definition URL_searchParams (u : string) : Result (string -> option string) :=
  if startsWith u "http" then
    Ok (fun k =>
          match List.find (fun p => String.eqb (fst p) k)
                          (map pair_of (split_on "&" (query_of u))) with
          | Some p => Some (snd p)
          | None => None
          end)
  else Throw (TypeError "Invalid URL").

(** [new URL(l, base).href] on an absolute [l]. *)
Definition resolve_url (l base : string) : Result string :=
  if startsWith l "http" then Ok l else Throw (TypeError "Invalid URL").

(** The resolver on pages without forms: a 301 or 302 with a location is
    an HTTP redirect, any other 200 the final page. *)
Definition plain_resolver (h : unit) (r : Response) (lastUrl : option string)
  : Result Analysis * unit :=
  match location r with
  | Some l =>
      if ((status r =? 302) || (status r =? 301)) && negb (String.eqb l "")
      then (Ok (mkAnalysis HTTP_REDIRECT (Some l) []), tt)
      else if status r =? 200 then (Ok (mkAnalysis FINAL_PAGE None []), tt)
      else (Ok (mkAnalysis UNKNOWN None []), tt)
  | None =>
      if status r =? 200 then (Ok (mkAnalysis FINAL_PAGE None []), tt)
      else (Ok (mkAnalysis UNKNOWN None []), tt)
  end.

(** cheerio on a page without [ServerData], forms or inputs; the title of
    the maintenance page. *)
Definition bare_page_features (html : string)
  : option (gmap string json) * option (option string) * string :=
  (None, None, if includes html "<title>Maintenance</title>" then "Maintenance" else "").

Definition no_hidden_inputs (html : string) : list (string * string) := [].
Definition no_PPFT (tag : string) : option string := None.
Definition no_ucis (html : string) : option (gmap string string) := None.
Definition no_jwt (token : option json) : option json := None.

Definition authorize_request (retry : bool) : AuthRequest :=
  mkAuthRequest
    (if retry
     then "https://login.microsoftonline.com/consumers/oauth2/v2.0/authorize?nonce=2"
     else "https://login.microsoftonline.com/consumers/oauth2/v2.0/authorize?nonce=1")
    "dBjftJeZ4CVP-mB92K27uhbUJU1p1r_wW1gFWFOEjXk"
    "7f3c2a10-0000-4000-8000-000000000001"
    "service::outlook.office.com::MBI_SSL openid profile offline_access".

(** A remote side that answers every call with a redirect to a next page. *)
Definition bouncing_server (hist : list Request) (rq : Request) : Result Response :=
  Ok (mkResponse 302 (Some "https://login.live.com/next") "").

Definition first_bounce : Response :=
  mkResponse 302 (Some "https://login.live.com/oauth20_authorize.srf") "".

(** A remote side whose every page is a maintenance page: no [ServerData],
    no marker, another title. *)
Definition maintenance_page : Response :=
  mkResponse 200 None "<html><title>Maintenance</title><body>Try again later</body></html>".

Definition maintenance_server (hist : list Request) (rq : Request) : Result Response :=
  Ok maintenance_page.

(** A remote side that refuses every silent authorization with
    [interaction_required] and serves a plain page to every other call. *)
Definition interaction_required_redirect : Response :=
  mkResponse 302
    (Some "https://outlook.live.com/mail/oauthRedirect.html#error=interaction_required&state=abc")
    "".

Definition is_iframe_call (rq : Request) : bool :=
  existsb (fun h => String.eqb (fst h) "Sec-Fetch-Dest" && String.eqb (snd h) "iframe")
          (extra_headers rq).

Definition refusing_server (hist : list Request) (rq : Request) : Result Response :=
  if is_iframe_call rq then Ok interaction_required_redirect
  else Ok (mkResponse 200 None "<html><title>Outlook</title></html>").

(** The same, but the refusal names no [error] parameter. *)
Definition errorless_redirect : Response :=
  mkResponse 302
    (Some "https://outlook.live.com/mail/oauthRedirect.html#error_description=interaction_required")
    "".

Definition errorless_server (hist : list Request) (rq : Request) : Result Response :=
  if is_iframe_call rq then Ok errorless_redirect
  else Ok (mkResponse 200 None "<html><title>Outlook</title></html>").

Definition fresh_auth : MicrosoftAuth :=
  new_MicrosoftAuth "user@hotmail.com" "secret" None.

(** The methods on a canned remote side. *)
Definition login_on (server : list Request -> Request -> Result Response) :=
  Flow.login server JsonText.parse JsonText.stringify ToughCookie.toJSON
    bare_page_features no_hidden_inputs no_PPFT no_ucis URL_searchParams resolve_url
    tt plain_resolver authorize_request no_jwt 1762160000000 "2026-11-03T09:00:00.000Z".

Definition getInitialPage_on (server : list Request -> Request -> Result Response) :=
  Flow._getInitialPage server JsonText.parse bare_page_features no_hidden_inputs no_PPFT no_ucis
    URL_searchParams tt plain_resolver.

Definition getOutlookTokens_on (server : list Request -> Request -> Result Response) :=
  Flow._getOutlookTokens server JsonText.parse URL_searchParams resolve_url
    tt plain_resolver authorize_request no_jwt 1762160000000.

Definition acquire_on (server : list Request -> Request -> Result Response) :=
  Flow.acquire server JsonText.parse URL_searchParams resolve_url
    tt plain_resolver authorize_request no_jwt 1762160000000.

End Canned.

(* ====================================================================== *)
(** * OTP retrieval: [OutlookOTPFetcher]

    The texts of a mail (subject, sender, preview) are sequences of UTF-16
    code units, as the regular expressions of the source see them. *)
(* ====================================================================== *)

Module Otp.

Local Open Scope N_scope.

Definition jsstring : Type := list N.

(** The code units of an ASCII literal. *)
Definition u (s : string) : jsstring := Pkce.bytes_of s.

(** ** Character classes of JavaScript regular expressions *)

(** [\s]: white space and line terminators. *)
Definition is_space (c : N) : bool :=
  ((9 <=? c) && (c <=? 13)) || (c =? 32) || (c =? 160) || (c =? 0x1680)
  || ((0x2000 <=? c) && (c <=? 0x200A)) || (c =? 0x2028) || (c =? 0x2029)
  || (c =? 0x202F) || (c =? 0x205F) || (c =? 0x3000) || (c =? 0xFEFF).

(** [\d] *)
Definition is_digit (c : N) : bool := (48 <=? c) && (c <=? 57).

(** [\w] *)
Definition is_word (c : N) : bool :=
  is_digit c || ((65 <=? c) && (c <=? 90)) || ((97 <=? c) && (c <=? 122)) || (c =? 95).

(** [.] without the [s] flag: anything but a line terminator. *)
Definition is_dot (c : N) : bool :=
  negb ((c =? 10) || (c =? 13) || (c =? 0x2028) || (c =? 0x2029)).

(** A pattern character under the [i] flag: the code units that
    Canonicalize sends to the same unit as [c].  For an ASCII letter these
    are its two cases; beyond ASCII the sets are given for the letters of
    the patterns below. *)
Definition same_letter (c x : N) : bool :=
  if ((65 <=? c) && (c <=? 90)) then (x =? c) || (x =? c + 32)
  else if ((97 <=? c) && (c <=? 122)) then (x =? c) || (x =? c - 32)
  else if c =? 0xF3 then (x =? 0xF3) || (x =? 0xD3)
  else if c =? 0x43A then (x =? 0x43A) || (x =? 0x41A)
  else if c =? 0x43E then (x =? 0x43E) || (x =? 0x41E) || (x =? 0x1C82)
  else if c =? 0x434 then (x =? 0x434) || (x =? 0x414) || (x =? 0x1C81)
  else x =? c.

(** ** A backtracking matcher

    The constructs the patterns use: one character of a class, sequence,
    an optional non-capturing group, a quantified class (greedy or lazy,
    with a least and a greatest count), the capture group and [\b]. *)
Inductive regex : Type :=
  | Eps
  | Chr (p : N -> bool)
  | Seq (r1 r2 : regex)
  | Opt (r : regex)
  | Rep (p : N -> bool) (least : nat) (most : option nat) (greedy : bool)
  | Group (r : regex)
  | WordBoundary.

(** A position in the input: the code unit before it, the rest of the
    input, and the text of group 1 once it is closed. *)
Record Position : Type := mkPosition {
  before : option N;
  rest : list N;
  capture : option jsstring
}.

Fixpoint rep {A} (p : N -> bool) (least : nat) (most : option nat) (greedy : bool)
    (count : nat) (prev : option N) (l : list N) (cap : option jsstring)
    (k : Position -> option A) : option A :=
  let stop (_ : unit) :=
    if (least <=? count)%nat then k (mkPosition prev l cap) else None in
  match l with
  | c :: t =>
      if p c && match most with
                | Some m => (count <? m)%nat
                | None => true
                end
      then
        if greedy then
          match rep p least most greedy (S count) (Some c) t cap k with
          | Some x => Some x
          | None => stop tt
          end
        else
          match stop tt with
          | Some x => Some x
          | None => rep p least most greedy (S count) (Some c) t cap k
          end
      else stop tt
  | [] => stop tt
  end.

Definition word_before (s : Position) : bool :=
  match before s with
  | Some c => is_word c
  | None => false
  end.

Definition word_after (s : Position) : bool :=
  match rest s with
  | c :: _ => is_word c
  | [] => false
  end.

(** [matches r s k]: the first way, in the order of a backtracking
    matcher, to match [r] at [s] so that the continuation [k] succeeds. *)
Fixpoint matches {A} (r : regex) (s : Position) (k : Position -> option A) : option A :=
  match r with
  | Eps => k s
  | Chr p =>
      match rest s with
      | c :: t => if p c then k (mkPosition (Some c) t (capture s)) else None
      | [] => None
      end
  | Seq r1 r2 => matches r1 s (fun s1 => matches r2 s1 k)
  | Opt r1 =>
      match matches r1 s k with
      | Some x => Some x
      | None => k s
      end
  | Rep p least most greedy =>
      rep p least most greedy 0 (before s) (rest s) (capture s) k
  | Group r1 =>
      matches r1 s
        (fun s1 =>
           k (mkPosition (before s1) (rest s1)
                (Some (firstn (length (rest s) - length (rest s1)) (rest s)))))
  | WordBoundary => if xorb (word_before s) (word_after s) then k s else None
  end.

(** [text.match(r)] without the [g] flag: the leftmost match; its group 1. *)
Fixpoint search_from (r : regex) (prev : option N) (l : list N) : option (option jsstring) :=
  match matches r (mkPosition prev l None) (fun s => Some (capture s)) with
  | Some cap => Some cap
  | None =>
      match l with
      | c :: t => search_from r (Some c) t
      | [] => None
      end
  end.

Definition search (r : regex) (text : jsstring) : option (option jsstring) :=
  search_from r None text.

(** ** The patterns of [extractOTPFromPreview] *)

Definition seq_of (rs : list regex) : regex := fold_right Seq Eps rs.

(** A literal, and a literal under the [i] flag. *)
Definition lit (s : jsstring) : regex := seq_of (map (fun c => Chr (N.eqb c)) s).
Definition lit_i (s : jsstring) : regex := seq_of (map (fun c => Chr (same_letter c)) s).

Definition spaces0 : regex := Rep is_space 0 None true.
Definition spaces1 : regex := Rep is_space 1 None true.
Definition any_lazy : regex := Rep is_dot 0 None false.
Definition colon_or_space : regex := Rep (fun c => (c =? 58) || is_space c) 1 None true.
Definition code_4_8 : regex := Group (Rep is_digit 4 (Some 8%nat) true).
Definition code_of (n : nat) : regex := Group (Rep is_digit n (Some n) true).

(** [/label:\s*(\d{4,8})/i] and [/label\s+(\d{4,8})/i] *)
Definition labeled (label : jsstring) : regex := seq_of [lit_i label; spaces0; code_4_8].
Definition spaced (label : jsstring) : regex := seq_of [lit_i label; spaces1; code_4_8].

(** The same with a label matched case-sensitively. *)
Definition labeled_exact (label : jsstring) : regex := seq_of [lit label; spaces0; code_4_8].

Definition bare (n : nat) : regex := seq_of [WordBoundary; code_of n; WordBoundary].
Definition enclosed (open close : N) : regex :=
  seq_of [Chr (N.eqb open); code_4_8; Chr (N.eqb close)].

Inductive Kind : Type := Labeled | BareDigits | Enclosed.

Definition codigo : jsstring := [99; 0xF3; 100; 105; 103; 111; 58].
Definition kod_cyrillic : jsstring := [0x43A; 0x43E; 0x434; 58].
Definition daima : jsstring := [0x4EE3; 0x7801; 58].
Definition koodo : jsstring := [0x30B3; 0x30FC; 0x30C9; 58].

(** The pattern list, in the order of the source. *)
Definition patterns : list (Kind * regex) :=
  [ (Labeled, labeled (u "Security code:"));
    (Labeled, spaced (u "security code"));
    (Labeled, seq_of [lit_i (u "Security code"); spaces1; lit_i (u "is"); spaces1; code_4_8]);
    (Labeled, labeled (u "verification code:"));
    (Labeled, spaced (u "verification code"));
    (Labeled, seq_of [lit_i (u "verify"); any_lazy; lit_i (u "code:"); spaces0; code_4_8]);
    (Labeled, labeled (u "Your code:"));
    (Labeled, spaced (u "your code"));
    (Labeled, labeled (u "code is:"));
    (Labeled, spaced (u "code is"));
    (Labeled, labeled (u "code:"));
    (Labeled, labeled (u "One-time code:"));
    (Labeled, spaced (u "one-time code"));
    (Labeled, labeled (u "OTP:"));
    (Labeled, spaced (u "OTP"));
    (Labeled, labeled (u "passcode:"));
    (Labeled, spaced (u "passcode"));
    (Labeled, labeled (u "pass code:"));
    (Labeled, seq_of [lit_i (u "use"); spaces1;
                      Opt (seq_of [lit_i (u "the"); spaces1]);
                      Opt (seq_of [lit_i (u "following"); spaces1]);
                      Opt (seq_of [lit_i (u "security"); spaces1]);
                      lit_i (u "code"); colon_or_space; code_4_8]);
    (Labeled, seq_of [lit_i (u "please"); spaces1; lit_i (u "use"); any_lazy;
                      lit_i (u "code"); colon_or_space; code_4_8]);
    (Labeled, labeled (u "access code:"));
    (Labeled, spaced (u "access code"));
    (BareDigits, bare 6);
    (BareDigits, bare 5);
    (BareDigits, bare 7);
    (BareDigits, bare 8);
    (BareDigits, bare 4);
    (Enclosed, enclosed 91 93);
    (Enclosed, enclosed 40 41);
    (Enclosed, enclosed 123 125);
    (Labeled, labeled codigo);
    (Labeled, labeled (u "code:"));
    (Labeled, labeled kod_cyrillic);
    (Labeled, labeled_exact daima);
    (Labeled, labeled_exact koodo);
    (Labeled, labeled (u "codice:"));
    (Labeled, labeled (u "Kode:")) ].

(** ** Cleaning the preview *)

(** [.replace(/\r\n/g, ' ')] *)
Fixpoint replace_crlf (l : jsstring) : jsstring :=
  match l with
  | [] => []
  | c :: t =>
      match t with
      | d :: t' =>
          if (c =? 13) && (d =? 10) then 32 :: replace_crlf t' else c :: replace_crlf t
      | [] => [c]
      end
  end.

(** [.replace(/\n/g, ' ')] *)
Definition replace_lf (l : jsstring) : jsstring :=
  map (fun c => if c =? 10 then 32 else c) l.

(** [.replace(/\s+/g, ' ')]; [in_run] says that the code unit before was
    white space. *)
Fixpoint collapse_spaces (in_run : bool) (l : jsstring) : jsstring :=
  match l with
  | [] => []
  | c :: t =>
      if is_space c then
        if in_run then collapse_spaces true t else 32 :: collapse_spaces true t
      else c :: collapse_spaces false t
  end.

Fixpoint drop_spaces (l : jsstring) : jsstring :=
  match l with
  | c :: t => if is_space c then drop_spaces t else l
  | [] => []
  end.

(** [.trim()] *)
Definition trim (l : jsstring) : jsstring :=
  rev (drop_spaces (rev (drop_spaces l))).

Definition clean (preview : jsstring) : jsstring :=
  trim (collapse_spaces false (replace_lf (replace_crlf preview))).

(** One turn of the loop over the patterns: the code a pattern yields. *)
Definition try_pattern (cleanText : jsstring) (pattern : regex) : option jsstring :=
  match search pattern cleanText with
  | Some (Some code) =>
      if (negb (length code =? 0) && (4 <=? length code) && (length code <=? 8))%nat
      then Some code else None
  | _ => None
  end.

Fixpoint first_code (cleanText : jsstring) (ps : list (Kind * regex)) : option jsstring :=
  match ps with
  | [] => None
  | (_, pattern) :: rest =>
      match try_pattern cleanText pattern with
      | Some code => Some code
      | None => first_code cleanText rest
      end
  end.

(** [extractOTPFromPreview(preview)]; [None] is [null]. *)
Definition extractOTPFromPreview (preview : jsstring) : option jsstring :=
  match preview with
  | [] => None
  | _ => first_code (clean preview) patterns
  end.

(** ** Candidate mails *)

(** [String.prototype.toLowerCase], exact on the ASCII letters and on the
    two code units whose lower case holds an ASCII letter (the Kelvin sign
    and the dotted capital I); the other code units, none of which turns
    into ASCII, are kept as they are. *)
Definition lower_unit (c : N) : list N :=
  if (65 <=? c) && (c <=? 90) then [c + 32]
  else if c =? 0x212A then [107]
  else if c =? 0x130 then [105; 0x307]
  else [c].

Definition toLowerCase (s : jsstring) : jsstring := flat_map lower_unit s.

Fixpoint starts_with (s p : jsstring) : bool :=
  match p, s with
  | [], _ => true
  | x :: p', y :: s' => (x =? y) && starts_with s' p'
  | _ :: _, [] => false
  end.

(** [s.includes(sub)] *)
Fixpoint includes_units (s sub : jsstring) : bool :=
  if starts_with s sub then true
  else match s with
       | [] => false
       | _ :: s' => includes_units s' sub
       end.

(** [conv.LastDeliveryTime], a text of the listing, read through
    [new Date(..).getTime()]: absent from the conversation ([undefined],
    which is falsy and no date), a text that is no date ([NaN]), or the
    time in milliseconds. *)
Inductive Delivery : Type :=
  | NoTime
  | BadTime
  | Time (ms : Z).

(** A conversation of the mailbox listing; [EmailAddress] is
    [LastSender?.Mailbox?.EmailAddress]. *)
Record Conversation : Type := mkConversation {
  ConversationTopic : option jsstring;
  EmailAddress : option jsstring;
  LastDeliveryTime : Delivery;
  Preview : option jsstring
}.

(** [(x || '').toLowerCase()] *)
Definition lowered (o : option jsstring) : jsstring := toLowerCase (default [] o).

Definition security_keywords : list jsstring :=
  [u "security code"; u "verification code"; u "security info"; u "verify"].

Definition provider_keywords : list jsstring :=
  [u "microsoft"; u "accountprotection"; u "account-security"].

Definition hasSecuritySubject (conv : Conversation) : bool :=
  let subject := lowered (ConversationTopic conv) in
  includes_units subject (u "security code")
  || includes_units subject (u "verification code")
  || includes_units subject (u "security info")
  || includes_units subject (u "verify").

Definition isMicrosoft (conv : Conversation) : bool :=
  let sender := lowered (EmailAddress conv) in
  includes_units sender (u "microsoft")
  || includes_units sender (u "accountprotection")
  || includes_units sender (u "account-security").

(** [isRecent]: [true] unless there is a delivery time, then
    [now - deliveryTime <= maxAge] (false on [NaN]). *)
Definition isRecent (now maxAge : Z) (conv : Conversation) : bool :=
  match LastDeliveryTime conv with
  | NoTime => true
  | BadTime => false
  | Time t => (now - t <=? maxAge)%Z
  end.

(** [Array.prototype.sort(compare)]: a stable sort; a comparator value
    that is [NaN] ([None]) counts as zero.  With a comparator that orders
    the elements consistently this is the one order the language fixes.
    Where it does not, as when some mails have a delivery time and others
    none on the conversation-search path, the language leaves the order to
    the engine, and the insertion below is one of the orders allowed; the
    facts about the order of the candidates are stated for lists on which
    the comparator is consistent. *)
Section Sort.

Context {A : Type}.
Variable compare : A -> A -> option Z.

Definition comes_after (x y : A) : bool :=
  match compare x y with
  | Some v => (0 <? v)%Z
  | None => false
  end.

Fixpoint insert_sorted (x : A) (l : list A) : list A :=
  match l with
  | [] => [x]
  | y :: l' => if comes_after x y then y :: insert_sorted x l' else x :: y :: l'
  end.

Definition sort (l : list A) : list A := fold_right insert_sorted [] l.

End Sort.

(** What a retrieval hands back on success. *)
Record OtpResult : Type := mkOtpResult {
  otp : jsstring;
  email_subject : option jsstring;
  email_sender : option jsstring;
  email_deliveryTime : Delivery;
  email_preview : jsstring;
  method : string
}.

(** The loop over the sorted mails: the first preview that yields a code. *)
Fixpoint scan (how : string) (mails : list Conversation) : option OtpResult :=
  match mails with
  | [] => None
  | mail :: others =>
      match Preview mail with
      | Some ((_ :: _) as preview) =>
          match extractOTPFromPreview preview with
          | Some code =>
              Some (mkOtpResult code (ConversationTopic mail) (EmailAddress mail)
                      (LastDeliveryTime mail) (firstn 200 preview) how)
          | None => scan how others
          end
      | _ => scan how others
      end
  end.

(** *** The bulk mailbox snapshot: [extractOTPFromStartupData] *)

(** The conversation list under each of the three paths the source looks
    at; [None] where the path is absent. *)
Record StartupData : Type := mkStartupData {
  findConversation_Body_Conversations : option (list Conversation);
  Body_Conversations : option (list Conversation);
  FindConversation_Body_Conversations : option (list Conversation)
}.

Definition startup_conversations (startupData : StartupData)
  : option (list Conversation) :=
  match findConversation_Body_Conversations startupData with
  | Some l => Some l
  | None =>
      match Body_Conversations startupData with
      | Some l => Some l
      | None => FindConversation_Body_Conversations startupData
      end
  end.

(** [const maxAge = 600000] *)
Definition startup_maxAge : Z := 600000.

Definition startup_filter (now : Z) (conv : Conversation) : bool :=
  hasSecuritySubject conv && isMicrosoft conv && isRecent now startup_maxAge conv.

(** [new Date(x.LastDeliveryTime || 0).getTime()] *)
Definition time_or_epoch (conv : Conversation) : option Z :=
  match LastDeliveryTime conv with
  | NoTime => Some 0%Z
  | BadTime => None
  | Time t => Some t
  end.

(** [timeB - timeA] *)
Definition startup_compare (a b : Conversation) : option Z :=
  match time_or_epoch a, time_or_epoch b with
  | Some ta, Some tb => Some (tb - ta)%Z
  | _, _ => None
  end.

(** The security mails of the snapshot, filtered and sorted. *)
Definition startup_candidates (now : Z) (conversations : list Conversation)
  : list Conversation :=
  sort startup_compare (List.filter (startup_filter now) conversations).

Definition extractOTPFromStartupData (now : Z) (startupData : StartupData)
  : option OtpResult :=
  match startup_conversations startupData with
  | Some conversations =>
      scan "startup_data_direct" (startup_candidates now conversations)
  | None => None
  end.

(** *** The conversation search: [findMicrosoftOTP] *)

Record Options : Type := mkOptions {
  maxAge : Z;
  senderFilters : list jsstring;
  subjectFilters : list jsstring
}.

(** The defaults of the destructuring assignment. *)
Definition default_senderFilters : list jsstring :=
  [u "account-security-noreply@accountprotection.microsoft.com";
   u "noreply@microsoft.com"; u "microsoft-noreply@microsoft.com"].

Definition default_subjectFilters : list jsstring :=
  [u "security code"; u "verification code"; u "verify"; u "security info"].

Definition with_defaults (maxAge : option Z) : Options :=
  mkOptions (default 600000%Z maxAge) default_senderFilters default_subjectFilters.

Definition senderMatches (options : Options) (conv : Conversation) : bool :=
  let sender := lowered (EmailAddress conv) in
  existsb (fun f => includes_units sender (toLowerCase f)) (senderFilters options)
  || includes_units sender (u "microsoft").

Definition subjectMatches (options : Options) (conv : Conversation) : bool :=
  let subject := lowered (ConversationTopic conv) in
  existsb (fun f => includes_units subject (toLowerCase f)) (subjectFilters options).

Definition search_filter (options : Options) (now : Z) (conv : Conversation) : bool :=
  senderMatches options conv && subjectMatches options conv
  && isRecent now (maxAge options) conv.

(** The sort keys: the delivery time, with the epoch for a missing one. *)
Definition epoch_key (conv : Conversation) : Z := default 0%Z (time_or_epoch conv).

Definition time_of (conv : Conversation) : option Z :=
  match LastDeliveryTime conv with
  | Time t => Some t
  | _ => None
  end.

Definition time_key (conv : Conversation) : Z := default 0%Z (time_of conv).

(** [new Date(b.LastDeliveryTime) - new Date(a.LastDeliveryTime)]: [NaN]
    when one of the two has no delivery time. *)
Definition search_compare (a b : Conversation) : option Z :=
  match time_of a, time_of b with
  | Some ta, Some tb => Some (tb - ta)%Z
  | _, _ => None
  end.

Definition search_candidates (options : Options) (now : Z)
    (conversations : list Conversation) : list Conversation :=
  sort search_compare (List.filter (search_filter options now) conversations).

(** What the calls of one lookup brought: the snapshot ([None] when the
    call failed), whether folder ids were found, and the conversations of
    the search ([None] when it failed or listed nothing). *)
Record Mailbox : Type := mkMailbox {
  startupData : option StartupData;
  folderIds : bool;
  searched : option (list Conversation)
}.

Inductive Lookup : Type :=
  | Found (result : OtpResult)
  | NotFound (error : string).

(** [findMicrosoftOTP(options)]; [now_startup] and [now_search] are the
    values of [Date.now()] on the two paths. *)
Definition findMicrosoftOTP (options : Options) (now_startup now_search : Z)
    (mailbox : Mailbox) : Lookup :=
  let directOTPResult :=
    match startupData mailbox with
    | Some sd => extractOTPFromStartupData now_startup sd
    | None => None
    end in
  match directOTPResult with
  | Some result => Found result
  | None =>
      if negb (folderIds mailbox && bool_decide (is_Some (startupData mailbox)))
      then NotFound "Could not obtain folder IDs and no OTP found in startup data"
      else
        match searched mailbox with
        | Some ((_ :: _) as conversations) =>
            match scan "conversation_api"
                    (search_candidates options now_search conversations) with
            | Some result => Found result
            | None => NotFound "No OTP found in available emails"
            end
        | _ => NotFound "No OTP found in available emails"
        end
  end.

End Otp.

(* ====================================================================== *)
(** * Sample objects

    Concrete sessions, pages and mails on which the methods are run. *)
(* ====================================================================== *)

Module Samples.
Import Session Classifier.

Definition sample_session : HttpSession :=
  mkSession
    (mkJar [mkCookie "MSPAuth" "Disabled" "login.live.com" "/" true true;
            mkCookie "MUID" "3A7F" "bing.com" "/" false false]
           (Some (JObj (<["mailboxValue" := JStr "0003BFFD@84df9e7f"]>
                       (<["outlookTokensExpiry" := JNum 1762160000000]> ∅)))))
    None (Some BASE_URLS_LOGIN).

(** A current wrapper whose [cookies] field is itself a wrapper. *)
Definition double_wrapped_text : string :=
  JsonText.stringify
    (double_wrapped (ToughCookie.toJSON (jar_cookies (jar sample_session)))
                    (JObj (<["mailboxValue" := JStr "0003BFFD@84df9e7f"]> ∅))).

(** A wrapper that lost its [metadata] field. *)
Definition wrapped_raw_jar_text : string :=
  JsonText.stringify
    (JObj (<["cookies" := ToughCookie.toJSON (jar_cookies (jar sample_session))]> ∅)).

(** A page on which the abuse marker and the signed-in user name co-occur. *)
Definition locked_kmsi_page : ResponseAnalyzer :=
  mkAnalyzer
    (mkResponse 200 None
       "<script>var ServerData = {sSigninName:'a@b.c'};</script><a href='https://account.live.com/Abuse?mkt=EN-US'>")
    (Some (<["sSigninName" := JStr "a@b.c"]> ∅))
    None
    "Sign in".

(** A 301 redirect to the account home. *)
Definition moved_permanently : ResponseAnalyzer :=
  mkAnalyzer (mkResponse 301 (Some "https://account.live.com/") "") None None "".

(** A mail of the provider that carries a security code. *)
Definition security_mail (delivery : Otp.Delivery) (preview : string) : Otp.Conversation :=
  Otp.mkConversation
    (Some (Otp.u "Microsoft account security code"))
    (Some (Otp.u "account-security-noreply@accountprotection.microsoft.com"))
    delivery (Some (Otp.u preview)).

End Samples.

(* ====================================================================== *)
(** * Predicates in which the properties are stated *)
(* ====================================================================== *)

Module Statements.

(** ** The URL-safe encoder *)

(** What the three replacements of [base64UrlEncode] do to one character. *)
Definition url_variant (c : ascii) : ascii :=
  let c1 := if Ascii.eqb c "+" then "-"%char else c in
  if Ascii.eqb c1 "/" then "_"%char else c1.

(** The three replacements on a whole text. *)
Definition url_form (s : string) : string :=
  Pkce.remove_all "=" (Pkce.replace_all "/" "_" (Pkce.replace_all "+" "-" s)).

(** ** The redirect loop *)

Section RedirectLoop.
Import Classifier Flow.

Variable server : list Request -> Request -> Result Response.
Variable HandlerState : Type.
Variable analyzeRedirect :
  HandlerState -> Response -> option string -> Result Analysis * HandlerState.

(** The analysis names a next URL and is not a final page. *)
Definition keeps_going (an : Analysis) : bool :=
  match an_type an with
  | FINAL_PAGE | UNKNOWN => false
  | _ => bool_decide (is_Some (an_url an))
  end.

(** The responses a run can meet: the initial one and the answers of the
    remote side. *)
Definition in_sequence (initialResponse r : Response) : Prop :=
  r = initialResponse \/ exists hist rq, server hist rq = Ok r.

(** Every response of the sequence resolves to another call, which the
    remote side answers with a status the client accepts. *)
Definition always_resolves_to_a_redirect (initialResponse : Response) : Prop :=
  (forall h r lu, in_sequence initialResponse r ->
      exists an h', analyzeRedirect h r lu = (Ok an, h') /\ keeps_going an = true)
  /\ (forall hist rq, exists r,
         server hist rq = Ok r /\ validateStatus (status r) = true).

End RedirectLoop.

(** A method that comes back, whatever the object it runs on. *)
Definition returns {A} (m : Flow.M A) : Prop :=
  forall a, exists res a', m a = Some (res, a').

(** ** The order of the patterns *)

Section Patterns.
Import Otp.

Definition is_labeled (p : Kind * regex) : bool :=
  match fst p with
  | Labeled => true
  | _ => false
  end.

Definition is_bare (p : Kind * regex) : bool :=
  match fst p with
  | BareDigits => true
  | _ => false
  end.

(** Whether a labeled pattern stands after a bare-digit one. *)
Fixpoint labeled_after_bare (seen_bare : bool) (ps : list (Kind * regex)) : bool :=
  match ps with
  | [] => false
  | p :: rest =>
      (seen_bare && is_labeled p) || labeled_after_bare (seen_bare || is_bare p) rest
  end.

End Patterns.

(** ** Candidate mails *)

(** Newest first, by a key. *)
Definition descending {A : Type} (key : A -> Z) (a b : A) : Prop := (key b <= key a)%Z.

Section Mails.
Import Otp.

(** The subject holds one of the keywords, whatever the case of its
    letters; the sender address holds one of the provider keywords. *)
Definition subject_has (keywords : list jsstring) (conv : Conversation) : Prop :=
  exists kw, In kw keywords
             /\ includes_units (toLowerCase (default [] (ConversationTopic conv))) kw = true.

Definition sender_has (keywords : list jsstring) (conv : Conversation) : Prop :=
  exists kw, In kw keywords
             /\ includes_units (toLowerCase (default [] (EmailAddress conv))) kw = true.

(** A delivery time, where the mail has one, is at most [age] before [now]. *)
Definition within (now age : Z) (conv : Conversation) : Prop :=
  forall t, LastDeliveryTime conv = Time t -> (now - t <= age)%Z.

End Mails.

End Statements.

(* ====================================================================== *)
(** * Predicates on patterns, texts and mails of the OTP engine *)
(* ====================================================================== *)

Module OtpStatements.
Import Otp.

(** A text of ASCII digits. *)
Definition digits (s : jsstring) : Prop := Forall (fun c => is_digit c = true) s.

(** [d] stands in [text] as one piece. *)
Definition infix (d text : jsstring) : Prop := exists pre post, text = pre ++ d ++ post.

(** [l] is what is left of [text] after some prefix of it. *)
Definition suffix (l text : jsstring) : Prop := exists pre, text = pre ++ l.

(** Whatever [r] consumes is a digit, and [r] holds no group. *)
Fixpoint digit_class (r : regex) : Prop :=
  match r with
  | Eps | WordBoundary => True
  | Chr p => forall c, p c = true -> is_digit c = true
  | Seq r1 r2 => digit_class r1 /\ digit_class r2
  | Opt r1 => digit_class r1
  | Rep p _ _ _ => forall c, p c = true -> is_digit c = true
  | Group _ => False
  end.

(** Every group of [r] consumes digits only. *)
Fixpoint captures_digits (r : regex) : Prop :=
  match r with
  | Group r1 => digit_class r1
  | Seq r1 r2 => captures_digits r1 /\ captures_digits r2
  | Opt r1 => captures_digits r1
  | Eps | WordBoundary | Chr _ | Rep _ _ _ _ => True
  end.

(** What holds of a position while a pattern is matched against [text]. *)
Definition sound_position (text : jsstring) (s : Position) : Prop :=
  suffix (rest s) text
  /\ match capture s with
     | Some d => digits d /\ infix d text
     | None => True
     end.

(** The code a mail yields: that of its preview, when it has one. *)
Definition yields (mail : Conversation) : option jsstring :=
  match Preview mail with
  | Some preview => extractOTPFromPreview preview
  | None => None
  end.

(** The white space of a cleaned text: single plain spaces, none at the
    ends. *)
Fixpoint single_spaced (l : jsstring) : Prop :=
  match l with
  | [] => True
  | c :: t =>
      (is_space c = true -> c = 32%N /\ match t with
                                       | d :: _ => is_space d = false
                                       | [] => True
                                       end)
      /\ single_spaced t
  end.

(** Neither the first nor the last code unit is white space. *)
Definition starts_unspaced (l : jsstring) : Prop :=
  match l with
  | [] => True
  | c :: _ => is_space c = false
  end.

Definition no_space_at_ends (l : jsstring) : Prop :=
  starts_unspaced l /\ starts_unspaced (rev l).

End OtpStatements.

(* ====================================================================== *)
(** * Shapes of the values the URL builder generates *)
(* ====================================================================== *)

Module PkceStatements.
Import Pkce.

Local Open Scope N_scope.

(** A lower-case hexadecimal digit. *)
Definition is_hex_lower (c : ascii) : bool :=
  let n := N_of_ascii c in
  ((48 <=? n) && (n <=? 57)) || ((97 <=? n) && (n <=? 102)).

(** The variant digit of RFC 4122: [8], [9], [a] or [b]. *)
Definition is_variant_digit (c : ascii) : bool :=
  let n := N_of_ascii c in
  (n =? 56) || (n =? 57) || (n =? 97) || (n =? 98).

(** What stands at position [i] of a version-4 GUID in its text form
    [xxxxxxxx-xxxx-4xxx-yxxx-xxxxxxxxxxxx]. *)
Definition guid_char_ok (i : nat) (c : ascii) : bool :=
  if ((i =? 8) || (i =? 13) || (i =? 18) || (i =? 23))%nat then Ascii.eqb c "-"
  else if (i =? 14)%nat then Ascii.eqb c "4"
  else if (i =? 19)%nat then is_variant_digit c
  else is_hex_lower c.

Fixpoint guid_shape (i : nat) (s : string) : bool :=
  match s with
  | EmptyString => (i =? 36)%nat
  | String c r => guid_char_ok i c && guid_shape (S i) r
  end.

Definition is_guid_v4 (s : string) : bool := guid_shape 0 s.

(** The text [JSON.stringify(msalInternalState)] gives. *)
Definition msal_state_text (id interactionType : string) : string :=
  ("{" +:+ dquote +:+ "id" +:+ dquote +:+ ":" +:+ dquote +:+ id +:+ dquote +:+ ","
       +:+ dquote +:+ "meta" +:+ dquote +:+ ":{" +:+ dquote +:+ "interactionType"
       +:+ dquote +:+ ":" +:+ dquote +:+ interactionType +:+ dquote +:+ "}}")%string.

(** A configuration that leaves [prompt] out. *)
Definition bing_config_without_prompt : Config :=
  mkConfig "077c9b95-2f57-4442-8872-134fcc08fcb3"
           "https://login.microsoftonline.com/consumers"
           "https://www.bing.com/identity/idtokenv2"
           None (Some ["email"; "openid"; "profile"; "offline_access"]%string)
           None (Some "form_post"%string) (Some "ID_NET9_0"%string) (Some "8.12.1.0"%string).

(** The eight working variables of FIPS 180-4, in the list the digest of
    the builder keeps them in. *)
Definition variables (v : Fips180.Working) : list N :=
  [Fips180.a v; Fips180.b v; Fips180.c v; Fips180.d v;
   Fips180.e v; Fips180.f v; Fips180.g v; Fips180.h v].

End PkceStatements.

(* ====================================================================== *)
(** * The mailbox client: the stateful part of [OutlookOTPFetcher]

    The object keeps a folder cache and a pending direct result; its
    methods talk to the mailbox service and read the clock.  A run is a
    function on the object, the clock ([Date.now()], in milliseconds) and
    the calls made so far; the service and the timers are parameters. *)
(* ====================================================================== *)

Module Fetcher.
Import Session Otp.

Local Open Scope Z_scope.

Record FolderIds : Type := mkFolderIds {
  searchFolderId : string;
  folderId : string
}.

(** [new OutlookOTPFetcher(accessToken, mailboxValue)]; [directOTPResult]
    is unset until a snapshot yields a code. *)
Record OutlookOTPFetcher : Type := mkFetcher {
  accessToken : json;
  mailboxValue : json;
  folderCache : option FolderIds;
  folderCacheTime : option Z;
  directOTPResult : option OtpResult
}.

Definition new_OutlookOTPFetcher (accessToken mailboxValue : json) : OutlookOTPFetcher :=
  mkFetcher accessToken mailboxValue None None None.

Definition FOLDER_CACHE_DURATION : Z := 300000.

Inductive Call : Type :=
  | StartupDataCall
  | GetFolderCall
  | FindConversationCall (maxEntries : Z)
  | SleepCall (ms : Z).

#[global] Instance Call_eq_dec : EqDecision Call.
Proof. solve_decision. Defined.

(** The object in its surroundings. *)
Record State : Type := mkState {
  self : OutlookOTPFetcher;
  clock : Z;
  calls : list Call
}.

Definition set_self (g : OutlookOTPFetcher -> OutlookOTPFetcher) (st : State) : State :=
  mkState (g (self st)) (clock st) (calls st).

(** A call or a timer that took [duration] milliseconds. *)
Definition after (call : Call) (duration : Z) (st : State) : State :=
  mkState (self st) (clock st + duration) (call :: calls st).

Definition set_cache (ids : FolderIds) (time : Z) (f : OutlookOTPFetcher) :=
  mkFetcher (accessToken f) (mailboxValue f) (Some ids) (Some time) (directOTPResult f).

Definition set_direct (r : option OtpResult) (f : OutlookOTPFetcher) :=
  mkFetcher (accessToken f) (mailboxValue f) (folderCache f) (folderCacheTime f) r.

(** [clearCache()] *)
Definition clearCache (st : State) : State :=
  set_self (fun f => mkFetcher (accessToken f) (mailboxValue f) None None None) st.

(** ** The answer of [startupdata.ashx] *)

(** A [Body] of the answer: its [Conversations], [SearchFolderId?.Id] and
    [FolderId?.Id]; [None] where the property is absent. *)
Record Body : Type := mkBody {
  Conversations : option (list Conversation);
  SearchFolderId_Id : option string;
  FolderId_Id : option string
}.

(** The three places the source looks at: [data?.findConversation?.Body],
    [data?.Body] and [data?.FindConversation?.Body]. *)
Record StartupReply : Type := mkStartupReply {
  findConversation_Body : option Body;
  data_Body : option Body;
  FindConversation_Body : option Body
}.

Definition snapshot_of (reply : StartupReply) : StartupData :=
  mkStartupData (findConversation_Body reply ≫= Conversations)
                (data_Body reply ≫= Conversations)
                (FindConversation_Body reply ≫= Conversations).

(** An id that is truthy. *)
Definition truthy_id (o : option string) : option string :=
  match o with
  | Some "" | None => None
  | Some id => Some id
  end%string.

(** The folder ids of the answer, as [getFolderIds] reads them. *)
Definition folder_ids_of (reply : StartupReply) : option FolderIds :=
  let found :=
    match findConversation_Body reply with
    | Some body =>
        match truthy_id (SearchFolderId_Id body), truthy_id (FolderId_Id body) with
        | Some s, Some f => Some (mkFolderIds s f)
        | _, Some f => Some (mkFolderIds f f)
        | _, None => None
        end
    | None => None
    end in
  match found with
  | Some ids => Some ids
  | None =>
      match truthy_id (data_Body reply ≫= FolderId_Id) with
      | Some f => Some (mkFolderIds f f)
      | None => None
      end
  end.

Section Service.

(** The mailbox service: how long a call made at a given time, after the
    calls before it, takes, and what it brings ([Throw]: the call fails
    or times out).  [GetFolder] brings the id of the inbox, where the
    answer holds one; [FindConversation] brings [data?.Body?.Conversations]. *)
Variable startupdata : list Call -> Z -> Z * Result StartupReply.
Variable GetFolder : list Call -> Z -> Z * Result (option string).
Variable FindConversation : list Call -> Z -> Z -> Z * Result (option (list Conversation)).

(** How long [sleep(ms)] takes. *)
Variable timer : list Call -> Z -> Z -> Z.

(** [sleep(ms)] *)
Definition sleep (ms : Z) (st : State) : State :=
  after (SleepCall ms) (timer (calls st) (clock st) ms) st.

(** [getFolderIdsFromInbox()] *)
Definition getFolderIdsFromInbox (st : State) : option FolderIds * State :=
  let '(duration, answer) := GetFolder (calls st) (clock st) in
  let st1 := after GetFolderCall duration st in
  match answer with
  | Ok inboxId =>
      match truthy_id inboxId with
      | Some id => (Some (mkFolderIds id id), st1)
      | None => (None, st1)
      end
  | Throw _ => (None, st1)
  end.

(** The cached ids, while they are younger than five minutes. *)
Definition cached (st : State) : option FolderIds :=
  match folderCache (self st), folderCacheTime (self st) with
  | Some ids, Some time =>
      if negb (time =? 0) && (clock st - time <? FOLDER_CACHE_DURATION)
      then Some ids else None
  | _, _ => None
  end.

(** [getFolderIds()] *)
Definition getFolderIds (st : State) : option FolderIds * State :=
  match cached st with
  | Some ids => (Some ids, st)
  | None =>
      let '(duration, answer) := startupdata (calls st) (clock st) in
      let st1 := after StartupDataCall duration st in
      match answer with
      | Throw _ => (None, st1)
      | Ok reply =>
          let st2 :=
            match extractOTPFromStartupData (clock st1) (snapshot_of reply) with
            | Some directResult => set_self (set_direct (Some directResult)) st1
            | None => st1
            end in
          match folder_ids_of reply with
          | Some ids => (Some ids, set_self (set_cache ids (clock st2)) st2)
          | None =>
              let '(folderIds, st3) := getFolderIdsFromInbox st2 in
              match folderIds with
              | Some ids => (Some ids, set_self (set_cache ids (clock st3)) st3)
              | None => (None, st3)
              end
          end
      end
  end.

(** [getConversationsSimplified(maxEntries)] *)
Definition getConversationsSimplified (maxEntries : Z) (st : State)
  : option (list Conversation) * State :=
  let '(duration, answer) := FindConversation (calls st) (clock st) maxEntries in
  let st1 := after (FindConversationCall maxEntries) duration st in
  match answer with
  | Ok conversations => (conversations, st1)
  | Throw _ => (None, st1)
  end.

(** [findMicrosoftOTP(options)] *)
Definition findMicrosoftOTP (options : Options) (st : State) : Lookup * State :=
  let '(folderIds, st1) := getFolderIds st in
  match directOTPResult (self st1) with
  | Some result => (Found result, set_self (set_direct None) st1)
  | None =>
      match folderIds with
      | None =>
          (NotFound "Could not obtain folder IDs and no OTP found in startup data", st1)
      | Some _ =>
          let '(conversations, st2) := getConversationsSimplified 15 st1 in
          match conversations with
          | Some ((_ :: _) as listed) =>
              match scan "conversation_api"
                      (search_candidates options (clock st2) listed) with
              | Some result => (Found result, st2)
              | None => (NotFound "No OTP found in available emails", st2)
              end
          | _ => (NotFound "No OTP found in available emails", st2)
          end
      end
  end.

(** The options of [waitForOTP], with the defaults of its destructuring
    assignment filled in. *)
Record WaitOptions : Type := mkWaitOptions {
  timeout : Z;
  pollInterval : Z;
  initialDelay : Z;
  otpOptions : Options
}.

Definition default_WaitOptions (otpOptions : Options) : WaitOptions :=
  mkWaitOptions 120000 5000 2000 otpOptions.

(** What [waitForOTP] returns: the result of the lookup that succeeded, or
    the failure that names the number of attempts. *)
Inductive Waited : Type :=
  | Received (result : OtpResult)
  | TimedOut (attempts : nat).

(** The [while] loop of [waitForOTP]; [None] when [fuel] turns of the loop
    do not end it.  The count of attempts comes with the result. *)
Fixpoint poll (fuel : nat) (options : WaitOptions) (startTime : Z) (attempts : nat)
    (st : State) : option (Waited * nat * State) :=
  if clock st - startTime <? timeout options then
    match fuel with
    | O => None
    | S fuel' =>
        let attempts := S attempts in
        let '(result, st1) := findMicrosoftOTP (otpOptions options) (clearCache st) in
        match result with
        | Found r => Some (Received r, attempts, st1)
        | NotFound _ =>
            let remainingTime := timeout options - (clock st1 - startTime) in
            let nextWait := Z.min (pollInterval options) remainingTime in
            let st2 := if 0 <? nextWait then sleep nextWait st1 else st1 in
            poll fuel' options startTime attempts st2
        end
    end
  else Some (TimedOut attempts, attempts, st).

(** [waitForOTP(options)] *)
Definition waitForOTP (fuel : nat) (options : WaitOptions) (st : State)
  : option (Waited * nat * State) :=
  let st0 := if 0 <? initialDelay options then sleep (initialDelay options) st else st in
  poll fuel options (clock st0) 0 st0.

(** What [testConnection] reports. *)
Inductive Connection : Type :=
  | ConnectedWithOtp (otp : OtpResult)
  | Connected (folderIds : FolderIds)
  | NoFolderData.

(** [testConnection()] *)
Definition testConnection (st : State) : Connection * State :=
  let '(folderIds, st1) := getFolderIds st in
  match directOTPResult (self st1), folderIds with
  | Some r, _ => (ConnectedWithOtp r, st1)
  | None, Some ids => (Connected ids, st1)
  | None, None => (NoFolderData, st1)
  end.

End Service.

(** ** Building a fetcher from a saved session *)

(** [o?.[k]] *)
Definition chain (o : option json) (k : string) : option json :=
  match o with
  | Some (JObj m) => m !! k
  | _ => None
  end.

Section Builders.

(** [JSON.parse], with the [SyntaxError] of a text that is no JSON. *)
Variable JSON_parse : string -> Result json.

(** [createOTPFetcherFromCookieJar(cookieJarString)] on a string. *)
Definition createOTPFetcherFromCookieJar (cookieJarString : string)
  : Result OutlookOTPFetcher :=
  match JSON_parse cookieJarString with
  | Throw error =>
      Throw (PlainError ("Invalid cookie jar format: " +:+ message_of error))
  | Ok data =>
      match prop data "metadata" with
      | Throw e => Throw e
      | Ok metadata =>
          let tokens := chain metadata "outlookTokens" in
          let mailbox := chain metadata "mailboxValue" in
          match chain tokens "access_token", mailbox with
          | Some access_token, Some mailboxValue =>
              if truthy access_token && truthy mailboxValue
              then Ok (new_OutlookOTPFetcher access_token mailboxValue)
              else Throw (PlainError
                            "Missing Outlook tokens or mailbox value in cookie jar")
          | _, _ =>
              Throw (PlainError "Missing Outlook tokens or mailbox value in cookie jar")
          end
      end
  end.

End Builders.

(** [createOTPFetcherFromSession(session)] *)
Definition createOTPFetcherFromSession (session : HttpSession)
  : Result OutlookOTPFetcher :=
  let tokens := getMetadata session "outlookTokens" in
  let mailbox := getMetadata session "mailboxValue" in
  match chain (Some tokens) "access_token" with
  | Some access_token =>
      if truthy access_token && truthy mailbox
      then Ok (new_OutlookOTPFetcher access_token mailbox)
      else Throw (PlainError "Missing Outlook tokens or mailbox value in session")
  | None => Throw (PlainError "Missing Outlook tokens or mailbox value in session")
  end.

End Fetcher.

(* ====================================================================== *)
(** * Measures and sample services for the mailbox client *)
(* ====================================================================== *)

Module FetcherStatements.
Import Otp Fetcher.

Local Open Scope Z_scope.

(** The number of snapshot requests made so far. *)
Definition startup_calls (st : State) : nat :=
  count_occ Call_eq_dec (calls st) StartupDataCall.

(** The requests made so far, the timers left out. *)
Definition requests (st : State) : list Call :=
  List.filter (fun c => match c with
                        | SleepCall _ => false
                        | _ => true
                        end) (calls st).

(** A service that is out of reach: every call fails after [latency]
    milliseconds; and timers that fire on time. *)
Definition unreachable_startupdata (latency : Z) (cs : list Call) (t : Z)
  : Z * Result StartupReply := (latency, Throw (NetworkError "timeout of 15000ms exceeded")).
Definition unreachable_GetFolder (latency : Z) (cs : list Call) (t : Z)
  : Z * Result (option string) := (latency, Throw (NetworkError "timeout of 10000ms exceeded")).
Definition unreachable_FindConversation (latency : Z) (cs : list Call) (t maxEntries : Z)
  : Z * Result (option (list Conversation)) :=
  (latency, Throw (NetworkError "timeout of 15000ms exceeded")).
Definition exact_timer (cs : list Call) (t ms : Z) : Z := ms.

(** A fetcher that has made no call yet, at a given time. *)
Definition fresh_state (now : Z) : State :=
  mkState (new_OutlookOTPFetcher (JStr "EwAoA8l6BAAU") (JStr "0003BFFD@84df9e7f")) now [].

(** A service whose snapshot names the inbox folder and lists no mail. *)
Definition inbox_reply : StartupReply :=
  mkStartupReply (Some (mkBody (Some []) None (Some "AQMkADAwATM0"))) None None.

Definition answering_startupdata (latency : Z) (cs : list Call) (t : Z)
  : Z * Result StartupReply := (latency, Ok inbox_reply).

(** A code that an earlier snapshot left pending. *)
Definition pending_code : OtpResult :=
  mkOtpResult (u "482913") (Some (u "Microsoft account security code"))
    (Some (u "account-security-noreply@accountprotection.microsoft.com"))
    (Time 1762159990000) (u "Security code: 482913") "startup_data_direct".

(** A session that holds Outlook tokens and the mailbox value. *)
Definition outlook_session : Session.HttpSession :=
  Session.with_metadata (Session.new_HttpSession None)
    (JObj (<["outlookTokens" := JObj (<["access_token" := JStr "EwAoA8l6BAAU"]>
                                      (<["expires_in" := JNum 3600]> ∅))]>
          (<["mailboxValue" := JStr "0003BFFD@84df9e7f"]> ∅))).

(** [JSON.parse] of the executable model, with its [SyntaxError]. *)
Definition parse_or_throw (text : string) : Result json :=
  match JsonText.parse text with
  | Some value => Ok value
  | None => Throw (SyntaxError "Unexpected token in JSON")
  end.

(** What a step of the client does to the clock and to the count of
    snapshot requests. *)
Definition moves (added : nat) (st st' : State) : Prop :=
  (clock st <= clock st')%Z /\ startup_calls st' = (startup_calls st + added)%nat.

End FetcherStatements.

(* ====================================================================== *)
(** * Runs of the login flow: measures, doubles and the constructor *)
(* ====================================================================== *)

Module FlowStatements.
Import Session Classifier Flow.

(** A method that comes back after at most [n] further requests. *)
Definition sends_at_most {A} (n : nat) (m : M A) : Prop :=
  forall a, exists res a',
    m a = Some (res, a') /\ (length (sent a') <= length (sent a) + n)%nat.

(** A method whose calls of the session client, when it comes back, are
    at most [n] further ones, put in front of those made before. *)
Definition appends_at_most {A} (n : nat) (m : M A) : Prop :=
  forall a res a', m a = Some (res, a') ->
    exists new, sent a' = new ++ sent a /\ (length new <= n)%nat.

(** A method whose first call of the session client is [rq], with at most
    [n] calls after it. *)
Definition opens_with {A} (rq : Request) (n : nat) (m : M A) : Prop :=
  forall a res a', m a = Some (res, a') ->
    exists later, sent a' = later ++ rq :: sent a /\ (length later <= n)%nat.

Section Reentry.

Variable server : list Request -> Request -> Result Response.
Variable HandlerState : Type.
Variable new_handler : HandlerState.
Variable analyzeRedirect :
  HandlerState -> Response -> option string -> Result Analysis * HandlerState.

(** The silent re-entry of [_getOutlookTokens] by itself: the request to
    the login endpoint and the redirects followed from its response. *)
Definition reentry : M unit :=
  response <- client_get server (Some REENTRY_URL);;
  _followRedirects server new_handler analyzeRedirect response.

End Reentry.

Arguments reentry server {HandlerState} new_handler analyzeRedirect.

(** The requests of [a'] that [a] had not made yet are [new], newest first. *)
Definition sent_since (a a' : MicrosoftAuth) (new : list Request) : Prop :=
  sent a' = new ++ sent a.

(** The states on which [_handleAuthState] gives up with a blocked result. *)
Definition blocking (st : AuthState) : bool :=
  match st with
  | ACCOUNT_LOCKED | REAUTH_NEEDED | PASSKEY_INTERRUPT | NEED_TO_ADD_ALT => true
  | _ => false
  end.

(** The states [_handleAuthState] has no case for. *)
Definition unexpected (st : AuthState) : bool :=
  match st with
  | INVALID_CREDENTIALS | UNKNOWN_STATE | AUTO_SUBMIT_FORM_DETECTED
  | MANUAL_REDIRECT_DETECTED | MICROSOFT_HOME_PAGE | MICROSOFT_UPDATE_TERM => true
  | _ => false
  end.

(** The form [_postKmsi] submits. *)
Definition kmsi_fields (token : string) : list (string * string) :=
  [("LoginOptions", "1"); ("type", "28"); ("ctx", ""); ("hpgrequestid", "");
   ("PPFT", token); ("canary", "")].

(** The call by which [_verifyOutlookTokens] tries an access token. *)
Definition verify_request (access_token : option json) : Request :=
  mkRequest GET (Some "https://outlook.office.com/api/v2.0/me") []
    [("Authorization", "Bearer " +:+ to_js_string_opt access_token);
     ("Accept", "application/json")].

(** A remote side on which the account exists and is locked: the
    credential-type call answers [IfExistsResult: 0], every other form
    submission is answered with the abuse page, every page request with
    the maintenance page. *)
Definition locked_server (hist : list Request) (rq : Request) : Result Response :=
  match method rq with
  | POST =>
      if bool_decide (url rq = Some "https://login.live.com/GetCredentialType.srf")
      then Ok (mkResponse 200 None
                 (JsonText.stringify (JObj (<["IfExistsResult" := JNum 0]> ∅))))
      else Ok (mkResponse 200 None
                 "<html><a href='https://account.live.com/Abuse?mkt=EN-US'>Locked</a></html>")
  | GET => Ok Canned.maintenance_page
  end.

(** The same remote side with the password form answered by a JSON body,
    the empty object. *)
Definition json_answering_server (hist : list Request) (rq : Request) : Result Response :=
  match method rq with
  | POST =>
      if bool_decide (url rq = Some "https://login.live.com/GetCredentialType.srf")
      then locked_server hist rq
      else Ok (mkResponse 200 None "{}")
  | GET => locked_server hist rq
  end.

(** A remote side that refuses every silent authorization and is out of
    reach for the re-entry into the login endpoint. *)
Definition login_down_server (hist : list Request) (rq : Request) : Result Response :=
  if bool_decide (url rq = Some REENTRY_URL)
  then Throw (NetworkError "connect ECONNREFUSED")
  else Canned.refusing_server hist rq.

(** A remote side on which the saved access token is still good. *)
Definition welcoming_server (hist : list Request) (rq : Request) : Result Response :=
  Ok (mkResponse 200 None "{}").

(** A session that holds tokens and a mailbox value. *)
Definition signed_in_auth : MicrosoftAuth :=
  mkAuth "user@hotmail.com" "secret"
    (with_metadata (new_HttpSession None)
       (JObj (<["outlookTokens" := JObj (<["access_token" := JStr "EwAoA8l6BAAU"]> ∅)]>
             (<["mailboxValue" := JStr "0003BFFD@84df9e7f"]> ∅))))
    None None None None None [].

(** An instance that has reached the keep-me-signed-in page. *)
Definition kmsi_auth : MicrosoftAuth :=
  set_session (set_flow (Some "-DqhsT7Vf2kbL") (Some "https://login.live.com/ppsecure/post.srf"))
    (new_MicrosoftAuth "user@hotmail.com" "secret" None).

Section Constructor.

Variable importCookieJar : string -> option CookieJar.

(** [new MicrosoftAuth(credentials, options)]: the jar of
    [options.cookieJar], when that is a text that imports, a new one
    otherwise. *)
Definition new_MicrosoftAuth_with (email password : string) (cookieJar : option string)
  : MicrosoftAuth :=
  let jar :=
    match cookieJar with
    | Some text => if String.eqb text "" then None else importCookieJar text
    | None => None
    end in
  new_MicrosoftAuth email password jar.

End Constructor.

End FlowStatements.

(* ====================================================================== *)
(** * Properties of the session store *)
(* ====================================================================== *)

Module SessionFacts.
Import Session Samples.

Lemma or_else_truthy (o : option json) (d : json) :
  truthy d = true -> truthy (or_else o d) = true.
Proof.
  intros Hd. unfold or_else. destruct o as [v|]; [|exact Hd].
  destruct (truthy v) eqn:E; [exact E | exact Hd].
Qed.

Lemma or_else_falsy (v : json) :
  truthy v = false -> or_else (Some v) JNull = JNull.
Proof. intros H. unfold or_else. now rewrite H. Qed.

(** The constructor leaves a truthy [_metadata] on the jar, and
    [setMetadata] keeps one there. *)
Lemma new_HttpSession_metadata (cookieJar : option CookieJar) :
  truthy_opt (_metadata (jar (new_HttpSession cookieJar))) = true.
Proof.
  unfold new_HttpSession. cbn.
  destruct (truthy_opt (_metadata (default new_CookieJar cookieJar))) eqn:E;
    [exact E | reflexivity].
Qed.

(** What [setMetadata] leaves under a key other than [__proto__]: the
    value as an own property. *)
Lemma setMetadata_metadata (s s' : HttpSession) (k : string) (v : json) :
  k <> "__proto__" ->
  setMetadata s k v = Ok s' ->
  exists m, _metadata (jar s') = Some (JObj (<[k := v]> m)).
Proof.
  intros Hk. unfold setMetadata.
  destruct (if truthy_opt (_metadata (jar s)) then _ else _) as [md proto].
  destruct md as [| | | | |m|]; try discriminate.
  unfold object_set. apply String.eqb_neq in Hk. rewrite Hk. cbn [andb].
  intros [= <-]. now exists m.
Qed.

(** On a freshly constructed session every write under such a key
    succeeds. *)
Lemma setMetadata_fresh (k : string) (v : json) :
  k <> "__proto__" ->
  setMetadata (new_HttpSession None) k v
  = Ok (with_metadata (new_HttpSession None) (JObj (<[k := v]> ∅))).
Proof.
  intros Hk. unfold setMetadata, object_set. cbn.
  apply String.eqb_neq in Hk. now rewrite Hk.
Qed.

Lemma object_get_own (m : gmap string json) (proto : Prototype) (k : string) (v : json) :
  object_get (<[k := v]> m) proto k = Some v.
Proof. unfold object_get. now rewrite lookup_insert_eq. Qed.

Lemma object_get_removed (m : gmap string json) (proto : Prototype) (k : string) :
  k <> "__proto__" ->
  object_get (delete k m) proto k = inherited_member proto k.
Proof.
  intros Hk. unfold object_get. rewrite lookup_delete_eq.
  apply String.eqb_neq in Hk. rewrite Hk. cbn [andb].
  now destruct (inherited_member proto k).
Qed.




(** A truthy value is read back as it was stored. *)
Lemma truthy_metadata_reads_back (s s' : HttpSession) (k : string) (v : json) :
  k <> "__proto__" ->
  truthy v = true -> setMetadata s k v = Ok s' -> getMetadata s' k = v.
Proof.
  intros Hk Hv Hset.
  destruct (setMetadata_metadata _ _ _ _ Hk Hset) as (m & Hmd).
  unfold getMetadata. rewrite Hmd, object_get_own. cbn. now rewrite Hv.
Qed.

Section RoundTrip.

Variable JSON_stringify : json -> string.
Variable JSON_parse : string -> option json.
Variable jar_toJSON : list Cookie -> json.
Variable jar_fromJSON : json -> option (list Cookie).

Local Abbreviation export_document := (Session.export_document jar_toJSON).
Local Abbreviation exportCookieJar := (Session.exportCookieJar JSON_stringify jar_toJSON).
Local Abbreviation import_data := (Session.import_data jar_fromJSON).
Local Abbreviation importCookieJar := (Session.importCookieJar JSON_parse jar_fromJSON).

Lemma select_shape_export (s : HttpSession) (t : string) :
  truthy (jar_toJSON (jar_cookies (jar s))) = true ->
  select_shape (export_document s t)
  = Ok (jar_toJSON (jar_cookies (jar s)), getAllMetadata s).
Proof.
  intros Hc. unfold select_shape, Session.export_document, getAllMetadata. cbn.
  rewrite lookup_insert_eq.
  rewrite lookup_insert_ne by discriminate. rewrite lookup_insert_eq.
  rewrite Hc, or_else_truthy by reflexivity. reflexivity.
Qed.

Lemma import_of_export (s : HttpSession) (t : string) :
  truthy (jar_toJSON (jar_cookies (jar s))) = true ->
  jar_fromJSON (jar_toJSON (jar_cookies (jar s))) = Some (jar_cookies (jar s)) ->
  JSON_parse (JSON_stringify (export_document s t)) = Some (export_document s t) ->
  importCookieJar (exportCookieJar s t)
  = Some (mkJar (jar_cookies (jar s)) (Some (getAllMetadata s))).
Proof.
  intros Hobj Hjar Hjson.
  unfold Session.importCookieJar, Session.exportCookieJar. rewrite Hjson.
  unfold Session.import_data. rewrite (select_shape_export s t Hobj), Hjar.
  reflexivity.
Qed.

(** On a session whose [_metadata] is truthy, which the constructor
    guarantees, and has the prototype it was made with, the imported jar
    is the session's own jar. *)
Corollary import_export_same_jar (s : HttpSession) (t : string) :
  truthy_opt (_metadata (jar s)) = true ->
  _metadata_prototype (jar s) = Standard ->
  truthy (jar_toJSON (jar_cookies (jar s))) = true ->
  jar_fromJSON (jar_toJSON (jar_cookies (jar s))) = Some (jar_cookies (jar s)) ->
  JSON_parse (JSON_stringify (export_document s t)) = Some (export_document s t) ->
  importCookieJar (exportCookieJar s t) = Some (jar s).
Proof.
  intros Hmd Hproto Hobj Hjar Hjson.
  rewrite (import_of_export s t Hobj Hjar Hjson).
  unfold getAllMetadata, or_else. destruct s as [[cs md proto] ft lu]. cbn in *.
  subst proto. destruct md as [v|]; cbn in *; [|discriminate]. now rewrite Hmd.
Qed.


(** Shape (a): the current wrapper, with truthy [cookies] and [metadata]. *)
Lemma import_current_wrapper (cookies metadata : json) :
  truthy cookies = true -> truthy metadata = true ->
  import_data (current_wrapper cookies metadata)
  = match jar_fromJSON cookies with
    | Some cs => Some (mkJar cs (Some metadata))
    | None => None
    end.
Proof.
  intros Hc Hm. unfold Session.import_data, select_shape, current_wrapper. cbn.
  rewrite lookup_insert_eq.
  rewrite lookup_insert_ne by discriminate. rewrite lookup_insert_eq.
  now rewrite Hc, Hm.
Qed.

(** Shape (b): a raw jar, a document without a [metadata] property. *)
Lemma import_raw_jar (m : gmap string json) :
  m !! "metadata" = None ->
  import_data (JObj m)
  = match jar_fromJSON (JObj m) with
    | Some cs => Some (mkJar cs (Some (JObj ∅)))
    | None => None
    end.
Proof.
  intros Hm. unfold Session.import_data, select_shape. cbn. rewrite Hm.
  destruct (m !! "cookies"); reflexivity.
Qed.

(** C3 (shape (c)). A wrapper wrapped once more is not unwrapped: the
    whole outer object goes to [CookieJar.fromJSON] and the metadata of
    the result is the empty object, never the inner metadata. *)
Theorem double_wrapped_is_not_unwrapped (cookies metadata : json) :
  import_data (double_wrapped cookies metadata)
  = match jar_fromJSON (double_wrapped cookies metadata) with
    | Some cs => Some (mkJar cs (Some (JObj ∅)))
    | None => None
    end.
Proof. unfold double_wrapped. apply import_raw_jar. reflexivity. Qed.

End RoundTrip.

(** tough-cookie reads back the jar it serialized, and serializes to an
    object. *)
Lemma tough_cookie_fromJSON_toJSON (cs : list Cookie) :
  ToughCookie.fromJSON (ToughCookie.toJSON cs) = Some cs.
Proof.
  unfold ToughCookie.fromJSON, ToughCookie.toJSON.
  repeat (rewrite lookup_insert_ne by discriminate). rewrite lookup_insert_eq.
  f_equal. induction cs as [|[k v d p sc h] cs IH]; [reflexivity|].
  change (map ToughCookie.cookie_toJSON (mkCookie k v d p sc h :: cs))
    with (ToughCookie.cookie_toJSON (mkCookie k v d p sc h)
          :: map ToughCookie.cookie_toJSON cs).
  change (omap ToughCookie.cookie_fromJSON (?x :: ?l))
    with (match ToughCookie.cookie_fromJSON x with
          | Some y => y :: omap ToughCookie.cookie_fromJSON l
          | None => omap ToughCookie.cookie_fromJSON l
          end).
  rewrite IH. reflexivity.
Qed.

Lemma tough_cookie_toJSON_truthy (cs : list Cookie) :
  truthy (ToughCookie.toJSON cs) = true.
Proof. reflexivity. Qed.


(** The exported text of the sample session, and what importing it gives. *)
Example sample_session_roundtrip :
  Session.importCookieJar JsonText.parse ToughCookie.fromJSON
    (Session.exportCookieJar JsonText.stringify ToughCookie.toJSON
       sample_session "2026-11-03T09:00:00.000Z")
  = Some (jar sample_session).
Proof. vm_compute. reflexivity. Qed.

(** The failing input of C3 run through the models of the two libraries:
    the double-wrapped text is rejected, while the sibling importer of
    Rewardsgrind.js recovers the jar from a wrapper that lost its metadata. *)
Example double_wrapped_text_is_rejected :
  Session.importCookieJar JsonText.parse ToughCookie.fromJSON double_wrapped_text
  = None.
Proof. vm_compute. reflexivity. Qed.

Example sibling_importer_unwraps :
  Rewardsgrind._importCookieJar JsonText.parse ToughCookie.fromJSON wrapped_raw_jar_text
  = Some (jar_cookies (jar sample_session))
  /\ Session.importCookieJar JsonText.parse ToughCookie.fromJSON wrapped_raw_jar_text
     = None.
Proof. split; vm_compute; reflexivity. Qed.

End SessionFacts.

(* ====================================================================== *)
(** * Properties of the authorization URL builder *)
(* ====================================================================== *)

Module PkceFacts.
Import Pkce Statements PkceStatements.

Local Open Scope N_scope.

(** A property of the 64 sextets is checked on each of them. *)
Lemma sextet_check (p : N -> bool) :
  forallb p (map N.of_nat (seq 0 64)) = true ->
  forall x, p (N.land x 63) = true.
Proof.
  intros H x. rewrite forallb_forall in H. apply H.
  apply in_map_iff. exists (N.to_nat (N.land x 63)). split.
  - apply N2Nat.id.
  - apply in_seq. split; [lia|].
    assert (N.land x 63 < 64); [|lia].
    change 63 with (N.ones 6). rewrite N.land_ones.
    apply N.mod_lt. discriminate.
Qed.

Lemma base64_char_url_variant (x : N) :
  url_variant (base64_char (N.land x 63)) = base64url_char (N.land x 63)
  /\ Ascii.eqb (url_variant (base64_char (N.land x 63))) "=" = false
  /\ is_base64url_char (base64url_char (N.land x 63)) = true.
Proof.
  pose proof (sextet_check
    (fun i => Ascii.eqb (url_variant (base64_char i)) (base64url_char i)
              && negb (Ascii.eqb (url_variant (base64_char i)) "=")
              && is_base64url_char (base64url_char i)) eq_refl x) as H.
  cbv beta in H. apply andb_true_iff in H as [H H3].
  apply andb_true_iff in H as [H1 H2].
  apply Ascii.eqb_eq in H1. apply negb_true_iff in H2. auto.
Qed.

Lemma url_form_sextet (x : N) (s : string) :
  url_form (String (base64_char (N.land x 63)) s)
  = String (base64url_char (N.land x 63)) (url_form s).
Proof.
  destruct (base64_char_url_variant x) as (H1 & H2 & _).
  unfold url_form. cbn [replace_all remove_all].
  fold (url_variant (base64_char (N.land x 63))).
  now rewrite H2, H1.
Qed.

Section ByThrees.

Variable P : list N -> Prop.
Hypothesis P0 : P [].
Hypothesis P1 : forall a, P [a].
Hypothesis P2 : forall a b, P [a; b].
Hypothesis P3 : forall a b c rest, P rest -> P (a :: b :: c :: rest).

Lemma by_threes (l : list N) : P l.
Proof.
  revert l. fix IH 1. intros [|a [|b [|c rest]]].
  - exact P0.
  - exact (P1 a).
  - exact (P2 a b).
  - exact (P3 a b c rest (IH rest)).
Qed.

End ByThrees.

(** The encoder of the source, standard base64 followed by the three
    replacements, is base64url without padding. *)
Lemma base64UrlEncode_is_base64url (bytes : list N) :
  base64UrlEncode bytes = base64url_unpadded bytes.
Proof.
  unfold base64UrlEncode. fold (url_form (base64 bytes)).
  induction bytes as [| a | a b | a b c rest IH] using by_threes;
    cbn [base64 base64url_unpadded]; unfold sextet1, sextet2, sextet3, sextet4;
    rewrite ?url_form_sextet; try rewrite IH; reflexivity.
Qed.

Lemma base64url_unpadded_alphabet (bytes : list N) :
  all_chars is_base64url_char (base64url_unpadded bytes) = true.
Proof.
  induction bytes as [| a | a b | a b c rest IH] using by_threes;
    cbn [base64url_unpadded all_chars]; unfold sextet1, sextet2, sextet3, sextet4;
    rewrite ?(proj2 (proj2 (base64_char_url_variant _))); try rewrite IH; reflexivity.
Qed.

Lemma base64url_unpadded_32 (bytes : list N) :
  length bytes = 32%nat -> String.length (base64url_unpadded bytes) = 43%nat.
Proof.
  intros H.
  do 32 (destruct bytes as [|? bytes]; [discriminate|]).
  destruct bytes; [reflexivity | discriminate].
Qed.

(** ** The digest of the builder is SHA-256 *)

Lemma land_mask32 (x : N) : N.land x mask32 = Fips180.word x.
Proof. unfold Fips180.word. change mask32 with (N.ones 32). apply N.land_ones. Qed.

Lemma add32_word (x y : N) : add32 x y = Fips180.word (x + y).
Proof. apply land_mask32. Qed.

Lemma word_add_l (x y : N) : Fips180.word (Fips180.word x + y) = Fips180.word (x + y).
Proof. unfold Fips180.word. apply N.Div0.add_mod_idemp_l. Qed.

Lemma word_add_r (x y : N) : Fips180.word (x + Fips180.word y) = Fips180.word (x + y).
Proof. unfold Fips180.word. apply N.Div0.add_mod_idemp_r. Qed.

Lemma rotr_ROTR (n x : N) : rotr n x = Fips180.ROTR n x.
Proof. unfold rotr, Fips180.ROTR. now rewrite land_mask32. Qed.

Lemma Ch_spec (x y z : N) : Ch x y z = Fips180.Ch x y z.
Proof. reflexivity. Qed.

Lemma Maj_spec (x y z : N) : Maj x y z = Fips180.Maj x y z.
Proof. reflexivity. Qed.

Lemma Sigma0_spec (x : N) : Sigma0 x = Fips180.Sigma0 x.
Proof. unfold Sigma0, Fips180.Sigma0. now rewrite !rotr_ROTR. Qed.

Lemma Sigma1_spec (x : N) : Sigma1 x = Fips180.Sigma1 x.
Proof. unfold Sigma1, Fips180.Sigma1. now rewrite !rotr_ROTR. Qed.

Lemma sigma0_spec (x : N) : sigma0 x = Fips180.sigma0 x.
Proof. unfold sigma0, Fips180.sigma0. now rewrite !rotr_ROTR. Qed.

Lemma sigma1_spec (x : N) : sigma1 x = Fips180.sigma1 x.
Proof. unfold sigma1, Fips180.sigma1. now rewrite !rotr_ROTR. Qed.

Lemma K256_spec : K256 = Fips180.K.
Proof. reflexivity. Qed.

Lemma H256_spec : H256 = Fips180.H0.
Proof. reflexivity. Qed.

(** *** The message schedule *)

Lemma schedule_length (M : list N) (t : nat) : length (Fips180.schedule M t) = t.
Proof.
  induction t as [|t IH]; [reflexivity|].
  cbn [Fips180.schedule]. rewrite length_app, IH. cbn. lia.
Qed.

Lemma firstn_succ (l : list N) (t : nat) :
  (t < length l)%nat -> firstn (S t) l = firstn t l ++ [nth t l 0].
Proof.
  revert t. induction l as [|x l IH]; intros t Ht; [cbn in Ht; lia|].
  destruct t as [|t]; [reflexivity|].
  cbn [firstn nth app]. cbn in Ht. now rewrite <- IH by lia.
Qed.

Lemma schedule_first (M : list N) (t : nat) :
  (t <= 16)%nat -> (t <= length M)%nat -> Fips180.schedule M t = firstn t M.
Proof.
  induction t as [|t IH]; intros H16 Hlen; [reflexivity|].
  cbn [Fips180.schedule]. rewrite IH by lia.
  destruct (Nat.ltb_spec t 16) as [_|]; [|lia].
  rewrite firstn_succ by lia. reflexivity.
Qed.

Lemma schedule_next (M : list N) (n : nat) :
  forall t, (16 <= t)%nat ->
  schedule n (rev (Fips180.schedule M t)) = rev (Fips180.schedule M (t + n)).
Proof.
  induction n as [|n IH]; intros t Ht.
  - now rewrite Nat.add_0_r.
  - cbn [schedule].
    replace (t + S n)%nat with (S t + n)%nat by lia.
    rewrite <- IH by lia. f_equal.
    cbn [Fips180.schedule]. rewrite rev_app_distr. cbn [rev app].
    destruct (Nat.ltb_spec t 16) as [|_]; [lia|].
    f_equal.
    rewrite !rev_nth by (rewrite schedule_length; lia).
    rewrite schedule_length.
    rewrite !add32_word, word_add_l, word_add_r, sigma0_spec, sigma1_spec.
    f_equal.
    rewrite N.add_assoc. reflexivity.
Qed.

Lemma schedule_of_block (M : list N) (n : nat) :
  length M = 16%nat -> rev (schedule n (rev M)) = Fips180.schedule M (16 + n).
Proof.
  intros H.
  assert (E : M = Fips180.schedule M 16).
  { rewrite schedule_first by lia. rewrite <- H. symmetry. apply firstn_all. }
  rewrite E at 1.
  rewrite schedule_next by lia. apply rev_involutive.
Qed.

(** *** The rounds *)

Lemma word_sum3 (x y z : N) :
  Fips180.word (Fips180.word x + Fips180.word y + z) = Fips180.word (x + y + z).
Proof.
  rewrite <- N.add_assoc, word_add_l, N.add_assoc, (N.add_comm x), <- N.add_assoc,
    word_add_l.
  f_equal. lia.
Qed.

Lemma round_spec (v : Fips180.Working) (k w : N) :
  round (variables v) (k, w) = variables (Fips180.round v k w).
Proof.
  destruct v as [a b c d e f g h]. unfold round, variables, Fips180.round.
  cbn [fst snd Fips180.a Fips180.b Fips180.c Fips180.d Fips180.e Fips180.f
       Fips180.g Fips180.h].
  rewrite Sigma0_spec, Sigma1_spec, Ch_spec, Maj_spec.
  assert (T1 : add32 (add32 (add32 h (Fips180.Sigma1 e)) (add32 (Fips180.Ch e f g) k)) w
               = Fips180.word (h + Fips180.Sigma1 e + Fips180.Ch e f g + k + w)).
  { rewrite !add32_word, word_add_l, word_sum3. f_equal. lia. }
  rewrite T1, !add32_word. reflexivity.
Qed.

Lemma rounds_spec (W : list N) (v : Fips180.Working) (t : nat) :
  (t <= 64)%nat -> length W = 64%nat ->
  fold_left round (firstn t (combine Fips180.K W)) (variables v)
  = variables (Fips180.rounds t W v).
Proof.
  intros Ht HW. induction t as [|t IH]; [reflexivity|].
  assert (Hlen : length (combine Fips180.K W) = 64%nat).
  { rewrite length_combine, HW. reflexivity. }
  assert (Hnth : firstn (S t) (combine Fips180.K W)
                 = firstn t (combine Fips180.K W)
                   ++ [(nth t Fips180.K 0, nth t W 0)]).
  { rewrite <- (combine_nth Fips180.K W t 0 0) by (now rewrite HW).
    generalize (combine Fips180.K W) Hlen. intros l Hl.
    assert (Hlt : (t < length l)%nat) by lia. clear - Hlt.
    revert t Hlt. induction l as [|x l IHl]; intros t Ht; [cbn in Ht; lia|].
    destruct t as [|t]; [reflexivity|].
    cbn [firstn nth app]. cbn in Ht. now rewrite <- IHl by lia. }
  rewrite Hnth, fold_left_app, IH by lia. cbn [fold_left Fips180.rounds].
  apply round_spec.
Qed.

Lemma compress_spec (H M : list N) :
  length H = 8%nat -> length M = 16%nat ->
  compress H M = Fips180.next_hash H M.
Proof.
  intros HH HM. unfold compress, Fips180.next_hash.
  rewrite schedule_of_block by exact HM. rewrite K256_spec.
  change (16 + 48)%nat with 64%nat.
  do 8 (destruct H as [|? H]; [discriminate|]). destruct H; [|discriminate].
  set (W := Fips180.schedule M 64).
  assert (HW : length W = 64%nat) by apply schedule_length.
  pose proof (rounds_spec W (Fips180.mkWorking n n0 n1 n2 n3 n4 n5 n6) 64
                ltac:(lia) HW) as Hr.
  rewrite firstn_all2 in Hr by (rewrite length_combine, HW; cbn; lia).
  change (variables (Fips180.mkWorking n n0 n1 n2 n3 n4 n5 n6))
    with [n; n0; n1; n2; n3; n4; n5; n6] in Hr.
  cbn [nth]. rewrite Hr.
  generalize (Fips180.rounds 64 W (Fips180.mkWorking n n0 n1 n2 n3 n4 n5 n6)).
  intros v. unfold variables. cbn [combine map fst snd].
  rewrite !add32_word.
  now rewrite (N.add_comm n), (N.add_comm n0), (N.add_comm n1), (N.add_comm n2),
    (N.add_comm n3), (N.add_comm n4), (N.add_comm n5), (N.add_comm n6).
Qed.

Lemma compress_length (H M : list N) :
  length H = 8%nat -> length (Fips180.next_hash H M) = 8%nat.
Proof. reflexivity. Qed.


(** *** Padding *)

Lemma be_bytes_spec (width : nat) (x : N) :
  be_bytes width x = Fips180.big_endian width x.
Proof.
  unfold be_bytes. induction width as [|n IH]; [reflexivity|].
  rewrite seq_S, rev_app_distr. cbn [rev app map Fips180.big_endian Nat.add].
  rewrite IH. f_equal.
  change 255 with (N.ones 8). rewrite N.land_ones, N.shiftr_div_pow2, N.pow_mul_r.
  reflexivity.
Qed.

Lemma big_endian_length (width : nat) (x : N) :
  length (Fips180.big_endian width x) = width.
Proof. induction width as [|n IH]; [reflexivity|]. cbn [Fips180.big_endian length]. now rewrite IH. Qed.

Lemma find_same {A : Type} (p q : A -> bool) (l : list A) :
  (forall x, p x = q x) -> List.find p l = List.find q l.
Proof.
  intros H. induction l as [|x l IH]; [reflexivity|].
  cbn [List.find]. now rewrite H, IH.
Qed.

Lemma zero_bytes_spec (len : nat) :
  Fips180.zero_bytes len = Nat.modulo (119 - Nat.modulo len 64) 64.
Proof.
  assert (E : forall r, (r < 64)%nat ->
              Fips180.zero_bytes r = Nat.modulo (119 - r) 64).
  { assert (H : forallb (fun r => Nat.eqb (Fips180.zero_bytes r) (Nat.modulo (119 - r) 64))
                  (seq 0 64) = true) by (vm_compute; reflexivity).
    rewrite forallb_forall in H. intros r Hr.
    apply Nat.eqb_eq, H, in_seq. lia. }
  rewrite <- E by (apply Nat.mod_upper_bound; discriminate).
  unfold Fips180.zero_bytes. f_equal. apply find_same. intros z.
  now rewrite <- !Nat.add_assoc, Nat.Div0.add_mod_idemp_l.
Qed.

Lemma pad_spec (message : list N) : pad message = Fips180.padded message.
Proof.
  unfold pad, Fips180.padded. now rewrite zero_bytes_spec, be_bytes_spec.
Qed.

Lemma padded_length (message : list N) :
  exists k, length (Fips180.padded message) = (64 * k)%nat.
Proof.
  unfold Fips180.padded.
  rewrite !length_app, repeat_length, big_endian_length, zero_bytes_spec.
  cbn [length].
  set (r := Nat.modulo (length message) 64).
  assert (Hr : (r < 64)%nat) by (apply Nat.mod_upper_bound; discriminate).
  assert (E : Nat.modulo (r + 9 + Nat.modulo (119 - r) 64) 64 = 0%nat).
  { assert (H : forallb (fun r => Nat.eqb (Nat.modulo (r + 9 + Nat.modulo (119 - r) 64) 64) 0)
                  (seq 0 64) = true) by (vm_compute; reflexivity).
    rewrite forallb_forall in H. apply Nat.eqb_eq, H, in_seq. lia. }
  pose proof (Nat.div_mod_eq (r + 9 + Nat.modulo (119 - r) 64) 64) as D.
  pose proof (Nat.div_mod_eq (length message) 64) as L. fold r in L.
  rewrite E in D.
  exists (length message / 64 + (r + 9 + Nat.modulo (119 - r) 64) / 64)%nat.
  lia.
Qed.

(** *** Parsing *)

Lemma words_length (n : nat) :
  forall (fuel : nat) (bytes : list N),
  length bytes = (4 * n)%nat -> (n <= fuel)%nat -> length (words_of fuel bytes) = n.
Proof.
  induction n as [|n IH]; intros fuel bytes Hb Hf.
  - destruct bytes; [|discriminate]. now destruct fuel.
  - destruct fuel as [|fuel]; [lia|].
    do 4 (destruct bytes as [|? bytes]; [cbn [length] in Hb; lia|]).
    cbn [words_of length]. f_equal. apply IH; [cbn [length] in Hb|]; lia.
Qed.

Lemma parse_step (fw fb : nat) (bytes : list N) :
  (64 <= length bytes)%nat ->
  blocks_of (S fb) (words_of (16 + fw) bytes)
  = Fips180.block_words bytes 0 :: blocks_of fb (words_of fw (skipn 64 bytes)).
Proof.
  intros H.
  do 64 (destruct bytes as [|? bytes]; [exfalso; cbn [length] in H; lia|]).
  reflexivity.
Qed.

Lemma block_words_skip (bytes : list N) (i : nat) :
  Fips180.block_words bytes (S i) = Fips180.block_words (skipn 64 bytes) i.
Proof.
  unfold Fips180.block_words. apply map_ext. intros j.
  rewrite skipn_skipn. do 3 f_equal. lia.
Qed.

Lemma parse_spec (k : nat) :
  forall (fw fb : nat) (bytes : list N),
  length bytes = (64 * k)%nat -> (16 * k <= fw)%nat -> (k <= fb)%nat ->
  blocks_of fb (words_of fw bytes) = map (Fips180.block_words bytes) (seq 0 k).
Proof.
  induction k as [|k IH]; intros fw fb bytes Hb Hw Hf.
  - destruct bytes; [|discriminate]. now destruct fw, fb.
  - destruct fb as [|fb]; [lia|].
    replace fw with (16 + (fw - 16))%nat by lia.
    rewrite parse_step by lia.
    cbn [seq map]. f_equal.
    rewrite <- seq_shift, map_map.
    rewrite IH by (rewrite ?length_skipn; lia).
    apply map_ext. intros i. symmetry. apply block_words_skip.
Qed.

Lemma block_words_length (bytes : list N) (i : nat) :
  length (Fips180.block_words bytes i) = 16%nat.
Proof. unfold Fips180.block_words. now rewrite length_map, length_seq. Qed.

(** *** The digest *)

Lemma fold_compress_spec (blocks : list (list N)) :
  forall H : list N,
  length H = 8%nat -> Forall (fun M => length M = 16%nat) blocks ->
  fold_left compress blocks H = fold_left Fips180.next_hash blocks H.
Proof.
  induction blocks as [|M blocks IH]; intros H HH Hb; [reflexivity|].
  inversion Hb as [|? ? HM Hrest]; subst. cbn [fold_left].
  rewrite compress_spec by assumption.
  apply IH; [reflexivity | assumption].
Qed.

Theorem sha256_is_SHA256 (message : list N) :
  sha256 message = Fips180.SHA256 message.
Proof.
  unfold sha256, Fips180.SHA256. cbv zeta. rewrite pad_spec.
  destruct (padded_length message) as [k Hk].
  assert (Hparse : blocks_of (length (words_of (length (Fips180.padded message))
                                       (Fips180.padded message)))
                     (words_of (length (Fips180.padded message)) (Fips180.padded message))
                   = Fips180.parsed (Fips180.padded message)).
  { unfold Fips180.parsed. rewrite Hk at 3.
    rewrite Nat.mul_comm, Nat.div_mul by discriminate.
    apply parse_spec; [lia | lia |].
    rewrite (words_length (16 * k)); lia. }
  rewrite Hparse, H256_spec, fold_compress_spec.
  - f_equal. apply map_ext. intros x. apply be_bytes_spec.
  - reflexivity.
  - unfold Fips180.parsed. apply List.Forall_forall. intros M HM.
    apply in_map_iff in HM as (i & <- & _). apply block_words_length.
Qed.


Lemma code_challenge_param (config : Config) (random : Entropy) :
  params_get (params (snd (createMicrosoftAuthUrl config random))) "code_challenge"
  = Some (base64UrlEncode
            (sha256 (bytes_of (codeVerifier (snd (createMicrosoftAuthUrl config random))))))
  /\ params_get (params (snd (createMicrosoftAuthUrl config random))) "code_challenge_method"
     = Some "S256"%string.
Proof.
  unfold createMicrosoftAuthUrl. cbn [snd params codeVerifier].
  generalize (base64UrlEncode (sha256 (bytes_of (base64UrlEncode (randomBytes random 48 32))))).
  intros challenge. split; reflexivity.
Qed.

Lemma randomBytes_length (random : Entropy) (drawn size : nat) :
  length (randomBytes random drawn size) = size.
Proof. unfold randomBytes. now rewrite length_map, length_seq. Qed.

Lemma randomBytes_are_bytes (random : Entropy) (drawn size : nat) :
  Forall (fun b => b < 256) (randomBytes random drawn size).
Proof.
  unfold randomBytes. apply List.Forall_forall. intros b Hb.
  apply in_map_iff in Hb as (i & <- & _).
  change 255 with (N.ones 8). rewrite N.land_ones. now apply N.mod_lt.
Qed.

(** C5. The builder asks [crypto.randomBytes] for 32 bytes, the fourth
    draw after the three of 16 bytes for the GUIDs; the code verifier is
    the unpadded base64url text of these 32 bytes, 43 characters of the
    base64url alphabet; and the code challenge, sent with the method S256,
    is the unpadded base64url text of the SHA-256 hash, as FIPS 180-4
    defines it, of the verifier string. *)
Theorem pkce_challenge_matches_verifier (config : Config) (random : Entropy) :
  verifier_bytes random = map (fun i => N.land (random i) 255) (seq 48 32)
  /\ length (verifier_bytes random) = 32%nat
  /\ codeVerifier (snd (createMicrosoftAuthUrl config random))
     = base64url_unpadded (verifier_bytes random)
  /\ String.length (codeVerifier (snd (createMicrosoftAuthUrl config random))) = 43%nat
  /\ all_chars is_base64url_char (codeVerifier (snd (createMicrosoftAuthUrl config random)))
     = true
  /\ params_get (params (snd (createMicrosoftAuthUrl config random))) "code_challenge"
     = Some (base64url_unpadded
               (Fips180.SHA256
                  (bytes_of (codeVerifier (snd (createMicrosoftAuthUrl config random))))))
  /\ params_get (params (snd (createMicrosoftAuthUrl config random))) "code_challenge_method"
     = Some "S256"%string.
Proof.
  destruct (code_challenge_param config random) as [Hchallenge Hmethod].
  rewrite Hchallenge, Hmethod, base64UrlEncode_is_base64url, sha256_is_SHA256.
  cbn [createMicrosoftAuthUrl snd codeVerifier].
  rewrite !base64UrlEncode_is_base64url.
  split; [reflexivity|]. split; [apply randomBytes_length|].
  split; [reflexivity|].
  split; [apply base64url_unpadded_32, randomBytes_length|].
  split; [apply base64url_unpadded_alphabet|].
  split; reflexivity.
Qed.

(** The specification and the digest of the builder on the test vectors
    of FIPS 180-4. *)
Example SHA256_abc :
  hex (Fips180.SHA256 (bytes_of "abc"))
  = "ba7816bf8f01cfea414140de5dae2223b00361a396177a9cb410ff61f20015ad"%string.
Proof. vm_compute. reflexivity. Qed.

Example SHA256_two_blocks :
  hex (Fips180.SHA256
         (bytes_of "abcdbcdecdefdefgefghfghighijhijkijkljklmklmnlmnomnopnopq"))
  = "248d6a61d20638b8e5c026930c3e6039a33ce45964ff2167f6ecedd419db06c1"%string.
Proof. vm_compute. reflexivity. Qed.

Example SHA256_empty :
  hex (Fips180.SHA256 [])
  = "e3b0c44298fc1c149afbf4c8996fb92427ae41e4649b934ca495991b7852b855"%string.
Proof. vm_compute. reflexivity. Qed.

(** The hash is SHA-256 on the test vectors of FIPS 180-4, and the
    builder reproduces the verifier and challenge of RFC 7636. *)
Example sha256_abc :
  hex (sha256 (bytes_of "abc"))
  = "ba7816bf8f01cfea414140de5dae2223b00361a396177a9cb410ff61f20015ad"%string.
Proof. vm_compute. reflexivity. Qed.

Example sha256_two_blocks :
  hex (sha256 (bytes_of "abcdbcdecdefdefgefghfghighijhijkijkljklmklmnlmnomnopnopq"))
  = "248d6a61d20638b8e5c026930c3e6039a33ce45964ff2167f6ecedd419db06c1"%string.
Proof. vm_compute. reflexivity. Qed.

Example rfc7636_appendix_B :
  let context := snd (createMicrosoftAuthUrl outlook_config sample_entropy) in
  codeVerifier context = "dBjftJeZ4CVP-mB92K27uhbUJU1p1r_wW1gFWFOEjXk"%string
  /\ params_get (params context) "code_challenge"
     = Some "E9Melhoa2OwvFrEMTJguCHaoeK1t8URWbuGJSstw-cM"%string
  /\ includes (fst (createMicrosoftAuthUrl outlook_config sample_entropy))
       "&code_challenge=E9Melhoa2OwvFrEMTJguCHaoeK1t8URWbuGJSstw-cM&code_challenge_method=S256&"
     = true.
Proof. repeat split; vm_compute; reflexivity. Qed.

(** Without a login hint the URL carries neither [login_hint] nor the
    anchor mailbox. *)
Example no_login_hint_in_url :
  includes (fst (createMicrosoftAuthUrl outlook_config sample_entropy)) "login_hint" = false
  /\ includes (fst (createMicrosoftAuthUrl outlook_config sample_entropy)) "X-AnchorMailbox"
     = false.
Proof. split; vm_compute; reflexivity. Qed.

End PkceFacts.

(* ====================================================================== *)
(** * Properties of the response classifier *)
(* ====================================================================== *)

Module ClassifierFacts.
Import Classifier Samples.

Lemma marker_redirect_sound (a : ResponseAnalyzer) (b : bool) :
  redirects_to_account a = Ok b -> marker_redirect a = b.
Proof.
  unfold redirects_to_account, marker_redirect.
  destruct (status (responce a) =? 302); cbn.
  - destruct (location (responce a)); [now intros [= ->] | discriminate].
  - now intros [= <-].
Qed.

Lemma marker_error_text_sound (a : ResponseAnalyzer) (b : bool) :
  error_text_incorrect a = Ok b -> marker_error_text a = b.
Proof. unfold marker_error_text. now intros ->. Qed.

(** Whatever [getAuthState] returns is the state of the first marker of
    the table that holds. *)
Lemma getAuthState_returns_first_match (a : ResponseAnalyzer) (st : AuthState) :
  getAuthState a = Ok st -> st = first_match markers a.
Proof.
  unfold getAuthState.
  destruct (redirects_to_account a) as [b1|e1] eqn:E1; [|discriminate].
  apply marker_redirect_sound in E1.
  destruct (error_text_incorrect a) as [b2|e2] eqn:E2.
  - apply marker_error_text_sound in E2.
    cbn [markers first_match]. rewrite E1, E2.
    destruct b1; [now intros [= <-]|].
    destruct b2; [now intros [= <-]|].
    repeat match goal with
           | |- context [if ?c then _ else _] => destruct c; [now intros [= <-]|]
           end.
    now intros [= <-].
  - cbn [markers first_match]. rewrite E1.
    destruct b1; [now intros [= <-] | discriminate].
Qed.

(** C1 (amended). When the marker tests return, [getAuthState] returns the
    state of the first marker that holds, in the order: 302 redirect to
    account.live.com, error text with "incorrect", abuse flow, identity
    confirmation, passkey interrupt, add recovery proof, terms acceptance,
    privacy-notice form, signed-in user name, flow token, account-home
    title; [unknown] when none holds. *)
Theorem getAuthState_first_match (a : ResponseAnalyzer) :
  tests_return a = true ->
  getAuthState a = Ok (first_match markers a).
Proof.
  unfold tests_return. intros H.
  destruct (redirects_to_account a) as [b1|] eqn:E1; [|discriminate].
  destruct (error_text_incorrect a) as [b2|] eqn:E2; [|discriminate].
  destruct (getAuthState a) as [st|e] eqn:G.
  - now rewrite (getAuthState_returns_first_match a st G).
  - unfold getAuthState in G. rewrite E1, E2 in G.
    destruct b1; [discriminate|]. destruct b2; [discriminate|].
    repeat match type of G with
           | context [if ?c then _ else _] => destruct c; [discriminate|]
           end.
    discriminate.
Qed.

(** A marker that holds while all the markers listed before it fail
    decides the state, whatever the later markers say. *)
Lemma first_match_earliest
    (before after : list ((ResponseAnalyzer -> bool) * AuthState))
    (m : ResponseAnalyzer -> bool) (st : AuthState) (a : ResponseAnalyzer) :
  forallb (fun p => negb (fst p a)) before = true ->
  m a = true ->
  first_match (before ++ (m, st) :: after) a = st.
Proof.
  induction before as [|[m0 st0] before IH]; cbn; intros Hb Hm.
  - now rewrite Hm.
  - apply andb_true_iff in Hb as [H0 Hb]. apply negb_true_iff in H0.
    rewrite H0. now apply IH.
Qed.

(** No marker at all: [unknown]. *)
Lemma first_match_none (table : list ((ResponseAnalyzer -> bool) * AuthState))
    (a : ResponseAnalyzer) :
  forallb (fun p => negb (fst p a)) table = true ->
  first_match table a = UNKNOWN_STATE.
Proof.
  induction table as [|[m0 st0] table IH]; cbn; [reflexivity|]. intros Hb.
  apply andb_true_iff in Hb as [H0 Hb]. apply negb_true_iff in H0.
  rewrite H0. now apply IH.
Qed.

Lemma getAuthState_first_match_witness :
  getAuthState locked_kmsi_page = Ok ACCOUNT_LOCKED.
Proof.
  exact (getAuthState_first_match locked_kmsi_page eq_refl).
Defined.

(** C1 (as stated). A 301 redirect to the account home is a 30x redirect
    to it, yet the classifier does not report it as already authenticated. *)
Lemma getAuthState_30x_counterexample :
  first_match markers_as_specified moved_permanently = MICROSOFT_HOME_PAGE
  /\ getAuthState moved_permanently = Ok UNKNOWN_STATE.
Proof. split; reflexivity. Qed.

(** A 302 without a [location] header makes the classifier throw. *)
Example getAuthState_302_without_location :
  getAuthState (mkAnalyzer (mkResponse 302 None "") None None "")
  = Throw (TypeError "Cannot read properties of undefined (reading 'includes')").
Proof. reflexivity. Qed.

End ClassifierFacts.

(* ====================================================================== *)
(** * Properties of the login flow *)
(* ====================================================================== *)

Module FlowFacts.
Import Session Classifier Flow Canned Statements.

Lemma bind_Some {A B} (m : M A) (k : A -> M B) (a a1 : MicrosoftAuth) (x : A) :
  m a = Some (Ok x, a1) -> bind m k a = k x a1.
Proof. unfold bind. now intros ->. Qed.

Lemma bind_Throw {A B} (m : M A) (k : A -> M B) (a a1 : MicrosoftAuth) (e : Error) :
  m a = Some (Throw e, a1) -> bind m k a = Some (Throw e, a1).
Proof. unfold bind. now intros ->. Qed.

(** A [try] whose handler returns never throws. *)
Lemma try_catch_ret_never_throws {A} (m : M A) (d : A) (a a' : MicrosoftAuth) (e : Error) :
  try_catch m (fun _ => ret d) a <> Some (Throw e, a').
Proof.
  unfold try_catch, ret.
  destruct (m a) as [[[x|e0] a0]|]; intros H; discriminate.
Qed.

Section RedirectLoop.

Variable server : list Request -> Request -> Result Response.
Variable HandlerState : Type.
Variable new_handler : HandlerState.
Variable analyzeRedirect :
  HandlerState -> Response -> option string -> Result Analysis * HandlerState.

Local Abbreviation request := (Flow.request server).
Local Abbreviation redirect_loop := (Flow.redirect_loop server analyzeRedirect).
Local Abbreviation _followRedirects_upto :=
  (Flow._followRedirects_upto server new_handler analyzeRedirect).
Local Abbreviation _followRedirects :=
  (Flow._followRedirects server new_handler analyzeRedirect).
Local Abbreviation in_sequence := (Statements.in_sequence server).
Local Abbreviation always_resolves_to_a_redirect :=
  (Statements.always_resolves_to_a_redirect server HandlerState analyzeRedirect).

(** A call returns or throws, and records at most one request. *)
Lemma request_sent (validate : Z -> bool) (rq : Request) (a : MicrosoftAuth) :
  exists res a', request validate rq a = Some (res, a')
                 /\ (length (sent a') <= S (length (sent a)))%nat
                 /\ lastUrl a' = lastUrl a.
Proof.
  unfold Flow.request. destruct (url rq).
  - destruct (server (sent a) rq) as [r|e].
    + destruct (validate (status r)); do 2 eexists;
        (split; [reflexivity|]); cbn; (split; [lia | reflexivity]).
    + do 2 eexists. split; [reflexivity|]. cbn. split; [lia | reflexivity].
  - do 2 eexists. split; [reflexivity|]. split; [lia | reflexivity].
Qed.

(** The loop with [n] iterations left comes back, after at most [n]
    requests. *)
Lemma redirect_loop_bound (n : nat) :
  forall (h : HandlerState) (r : Response) (a : MicrosoftAuth),
  exists res a', redirect_loop n h r a = Some (res, a')
                 /\ (length (sent a') <= length (sent a) + n)%nat.
Proof.
  induction n as [|n IH]; intros h r a.
  - do 2 eexists. split; [reflexivity | lia].
  - cbn [Flow.redirect_loop]. unfold bind at 1. cbn [get].
    destruct (analyzeRedirect h r (lastUrl a)) as [[an|e] h'].
    2: { do 2 eexists. split; [reflexivity | lia]. }
    assert (Hstep : forall rq (b : MicrosoftAuth),
               length (sent b) = length (sent a) ->
               exists res a', bind (request validateStatus rq)
                                   (fun r0 => redirect_loop n h' r0) b = Some (res, a')
                              /\ (length (sent a') <= length (sent a) + S n)%nat).
    { intros rq b Hb.
      destruct (request_sent validateStatus rq b) as (res & b' & Hrq & Hlen & _).
      unfold bind. rewrite Hrq. destruct res as [r0|e].
      - destruct (IH h' r0 b') as (res' & a' & Hloop & Hlen').
        exists res', a'. split; [exact Hloop | lia].
      - do 2 eexists. split; [reflexivity | lia]. }
    destruct (an_type an).
    1-4: unfold bind at 1, modify; apply Hstep; reflexivity.
    + apply Hstep; reflexivity.
    + do 2 eexists. split; [reflexivity | cbn; lia].
    + do 2 eexists. split; [reflexivity | cbn; lia].
Qed.

Lemma request_answered (r0 : Response) (rq : Request) (a : MicrosoftAuth) :
  always_resolves_to_a_redirect r0 -> is_Some (url rq) ->
  exists r, request validateStatus rq a = Some (Ok r, record_sent rq a)
            /\ in_sequence r0 r.
Proof.
  intros [_ Hs] [u Hu]. unfold Flow.request. rewrite Hu.
  destruct (Hs (sent a) rq) as (r & Hr & Hv). rewrite Hr, Hv.
  exists r. split; [reflexivity|]. right. now exists (sent a), rq.
Qed.

Lemma redirect_loop_exhausts (r0 : Response) (n : nat) :
  always_resolves_to_a_redirect r0 ->
  forall (h : HandlerState) (r : Response) (a : MicrosoftAuth),
  in_sequence r0 r ->
  exists a', redirect_loop n h r a
             = Some (Throw (AuthError "Exceeded maximum redirects" "REDIRECTS"), a')
             /\ length (sent a') = (length (sent a) + n)%nat.
Proof.
  intros Hall. induction n as [|n IH]; intros h r a Hr.
  - eexists. split; [reflexivity | lia].
  - cbn [Flow.redirect_loop]. unfold bind at 1. cbn [get].
    destruct (proj1 Hall h r (lastUrl a) Hr) as (an & h' & -> & Hgo).
    unfold keeps_going in Hgo.
    assert (Hstep : forall rq (b : MicrosoftAuth),
               is_Some (url rq) -> length (sent b) = length (sent a) ->
               exists a', bind (request validateStatus rq)
                               (fun r1 => redirect_loop n h' r1) b
                          = Some (Throw (AuthError "Exceeded maximum redirects" "REDIRECTS"), a')
                          /\ length (sent a') = (length (sent a) + S n)%nat).
    { intros rq b Hu Hb.
      destruct (request_answered r0 rq b Hall Hu) as (r1 & Hrq & Hseq).
      unfold bind. rewrite Hrq.
      destruct (IH h' r1 (record_sent rq b) Hseq) as (a' & Hloop & Hlen).
      exists a'. split; [exact Hloop|]. rewrite Hlen. cbn. lia. }
    destruct (an_type an); try discriminate;
      apply bool_decide_eq_true_1 in Hgo.
    1-4: unfold bind at 1, modify; apply Hstep; [exact Hgo | reflexivity].
    apply Hstep; [exact Hgo | reflexivity].
Qed.

(** C4. [_followRedirects] comes back on every input after at most 20
    dispatched calls; when every response resolves to another redirect it
    throws "Exceeded maximum redirects" after exactly 20 of them. *)
Theorem followRedirects_bound (initialResponse : Response) (a : MicrosoftAuth) :
  (exists res a', _followRedirects initialResponse a = Some (res, a')
                  /\ (length (sent a') <= length (sent a) + 20)%nat)
  /\ (always_resolves_to_a_redirect initialResponse ->
      exists a', _followRedirects initialResponse a
                 = Some (Throw (AuthError "Exceeded maximum redirects" "REDIRECTS"), a')
                 /\ length (sent a') = (length (sent a) + 20)%nat).
Proof.
  split.
  - apply redirect_loop_bound.
  - intros Hall. apply (redirect_loop_exhausts initialResponse); [exact Hall|].
    now left.
Qed.

End RedirectLoop.

Lemma bouncing_always_redirects :
  always_resolves_to_a_redirect bouncing_server unit plain_resolver first_bounce.
Proof.
  split.
  - intros h r lu [->|(hist & rq & [= <-])]; do 2 eexists; split; reflexivity.
  - intros hist rq. eexists. split; reflexivity.
Qed.

Lemma followRedirects_bound_witness :
  exists a',
    Flow._followRedirects bouncing_server tt plain_resolver first_bounce
      (new_MicrosoftAuth "user@hotmail.com" "secret" None)
    = Some (Throw (AuthError "Exceeded maximum redirects" "REDIRECTS"), a')
    /\ length (sent a') = 20%nat.
Proof.
  exact (proj2 (followRedirects_bound bouncing_server unit tt plain_resolver
                  first_bounce (new_MicrosoftAuth "user@hotmail.com" "secret" None))
               bouncing_always_redirects).
Defined.


(** ** Errors of the initial page *)

Section InitialPage.

Variable server : list Request -> Request -> Result Response.
Variable JSON_parse : string -> option json.
Variable page_features :
  string -> option (gmap string json) * option (option string) * string.
Variable hidden_inputs : string -> list (string * string).
Variable PPFT_value : string -> option string.
Variable extractUcisData : string -> option (gmap string string).
Variable URL_searchParams : string -> Result (string -> option string).
Variable HandlerState : Type.
Variable new_handler : HandlerState.
Variable analyzeRedirect :
  HandlerState -> Response -> option string -> Result Analysis * HandlerState.

Local Abbreviation _getInitialPage :=
  (Flow._getInitialPage server JSON_parse page_features hidden_inputs PPFT_value
     extractUcisData URL_searchParams new_handler analyzeRedirect).

(** Whatever is thrown inside [_getInitialPage] is caught there: the
    method never throws, on any remote side. *)
Lemma getInitialPage_never_throws (fuel : nat) (a a' : MicrosoftAuth) (e : Error) :
  _getInitialPage fuel a <> Some (Throw e, a').
Proof.
  destruct fuel as [|fuel]; [discriminate|].
  cbn [Flow._getInitialPage]. apply try_catch_ret_never_throws.
Qed.

(** An initial page in an unexpected state leaves [undefined] as the
    result, and the flow token and post URL as they were. *)
Lemma getInitialPage_unexpected_state
    (fuel : nat) (a : MicrosoftAuth) (r : Response) (analyzer : ResponseAnalyzer)
    (st : AuthState) :
  Flow.client_get server (loginUrl (session a)) a = Some (Ok r, record_sent
      (mkRequest GET (loginUrl (session a)) [] []) a) ->
  Flow.new_ResponseAnalyzer JSON_parse page_features r = Ok analyzer ->
  getAuthState analyzer = Ok st ->
  st <> MICROSOFT_HOME_PAGE -> st <> MICROSOFT_UPDATE_TERM ->
  st <> PRIVACY_NOTICE -> st <> INITIAL_PAGE_OK ->
  _getInitialPage (S fuel) a
  = Some (Ok None, record_sent (mkRequest GET (loginUrl (session a)) [] []) a).
Proof.
  intros Hget Han Hst H1 H2 H3 H4.
  cbn [Flow._getInitialPage]. unfold try_catch, bind at 1. cbn [get].
  unfold bind at 1. rewrite Hget.
  unfold bind at 1, lift. rewrite Han.
  unfold bind at 1. rewrite Hst.
  rewrite !decide_False by assumption.
  destruct st; try contradiction; reflexivity.
Qed.

End InitialPage.

(** C6 (the failing input). The login page is a maintenance page, which
    the classifier reports as unknown: [_getInitialPage] returns
    [undefined] instead of throwing "Unexpected initial state", the flow
    goes on to submit the user name with no flow token, and the caller of
    [login] is told "Account does not exist". *)
Theorem initial_page_error_is_swallowed :
  match Flow.new_ResponseAnalyzer JsonText.parse bare_page_features maintenance_page with
  | Ok analyzer => getAuthState analyzer
  | Throw e => Throw e
  end = Ok UNKNOWN_STATE
  /\ (exists a', getInitialPage_on maintenance_server 1 fresh_auth = Some (Ok None, a'))
  /\ (exists a', login_on maintenance_server 3 ["ALL"] fresh_auth
                 = Some (Ok (LoginFailed "Account does not exist" "POST_USERNAME"), a')
                 /\ map method (sent a') = [POST; GET]).
Proof.
  split; [reflexivity|]. split.
  - eexists. vm_compute. reflexivity.
  - eexists. split; vm_compute; reflexivity.
Qed.

(** ** The token acquirer *)

Lemma returns_ret {A} (x : A) : returns (ret x).
Proof. intros a. now do 2 eexists. Qed.

Lemma returns_throw {A} (e : Error) : returns (@throw A e).
Proof. intros a. now do 2 eexists. Qed.

Lemma returns_lift {A} (r : Result A) : returns (lift r).
Proof. intros a. now do 2 eexists. Qed.

Lemma returns_get : returns get.
Proof. intros a. now do 2 eexists. Qed.

Lemma returns_modify (f : MicrosoftAuth -> MicrosoftAuth) : returns (modify f).
Proof. intros a. now do 2 eexists. Qed.

Lemma returns_bind {A B} (m : M A) (k : A -> M B) :
  returns m -> (forall x, returns (k x)) -> returns (bind m k).
Proof.
  intros Hm Hk a. destruct (Hm a) as ([x|e] & a1 & H); unfold bind; rewrite H.
  - apply Hk.
  - now do 2 eexists.
Qed.

Lemma returns_try_catch {A} (m : M A) (h : Error -> M A) :
  returns m -> (forall e, returns (h e)) -> returns (try_catch m h).
Proof.
  intros Hm Hh a. destruct (Hm a) as ([x|e] & a1 & H); unfold try_catch; rewrite H.
  - now do 2 eexists.
  - apply Hh.
Qed.

Create HintDb returns.

#[local] Hint Resolve returns_ret returns_throw returns_lift returns_get
  returns_modify : returns.

Section Acquire.
Import FlowStatements.

Variable server : list Request -> Request -> Result Response.
Variable JSON_parse : string -> option json.
Variable URL_searchParams : string -> Result (string -> option string).
Variable resolve_url : string -> string -> Result string.
Variable HandlerState : Type.
Variable new_handler : HandlerState.
Variable analyzeRedirect :
  HandlerState -> Response -> option string -> Result Analysis * HandlerState.
Variable createMicrosoftAuthUrl : bool -> AuthRequest.
Variable _decodeJwtPayload : option json -> option json.
Variable now : Z.

Local Abbreviation request := (Flow.request server).
Local Abbreviation oauth_hops := (Flow.oauth_hops server resolve_url).
Local Abbreviation _followRedirects :=
  (Flow._followRedirects server new_handler analyzeRedirect).
Local Abbreviation silent_reentry :=
  (Flow.silent_reentry server new_handler analyzeRedirect).
Local Abbreviation exchange_code :=
  (Flow.exchange_code server JSON_parse _decodeJwtPayload now).
Local Abbreviation acquire_body :=
  (Flow.acquire_body server JSON_parse URL_searchParams resolve_url
     new_handler analyzeRedirect createMicrosoftAuthUrl _decodeJwtPayload now).
Local Abbreviation acquire :=
  (Flow.acquire server JSON_parse URL_searchParams resolve_url
     new_handler analyzeRedirect createMicrosoftAuthUrl _decodeJwtPayload now).
Local Abbreviation _getOutlookTokens :=
  (Flow._getOutlookTokens server JSON_parse URL_searchParams resolve_url
     new_handler analyzeRedirect createMicrosoftAuthUrl _decodeJwtPayload now).

Lemma returns_request (validate : Z -> bool) (rq : Request) :
  returns (request validate rq).
Proof.
  intros a. destruct (request_sent server validate rq a) as (res & a' & H & _).
  now exists res, a'.
Qed.

Lemma returns_followRedirects (r : Response) : returns (_followRedirects r).
Proof.
  intros a.
  destruct (redirect_loop_bound server HandlerState analyzeRedirect 20 new_handler r a)
    as (res & a' & H & _).
  now exists res, a'.
Qed.

Lemma returns_oauth_hops (n : nat) : forall u, returns (oauth_hops n u).
Proof.
  induction n as [|n IH]; intros u; cbn [Flow.oauth_hops]; auto with returns.
  apply returns_bind; [apply returns_request|]. intros r.
  destruct (location r); auto with returns.
  destruct (_ && _); auto with returns.
  apply returns_bind; auto with returns.
Qed.

Lemma returns_session_setMetadata (k : string) (v : json) :
  returns (Flow.session_setMetadata k v).
Proof.
  unfold Flow.session_setMetadata. apply returns_bind; auto with returns.
  intros a. destruct (setMetadata (session a) k v); auto with returns.
Qed.

Lemma returns_derive_mailbox (t : option json) :
  returns (Flow.derive_mailbox _decodeJwtPayload t).
Proof.
  unfold Flow.derive_mailbox. destruct (_decodeJwtPayload t); auto with returns.
  repeat (apply returns_bind; auto with returns; intros).
Qed.

Lemma returns_exchange_code (rq : AuthRequest) (code : string) :
  returns (exchange_code rq code).
Proof.
  unfold Flow.exchange_code.
  repeat (first [ apply returns_request
                | apply returns_session_setMetadata
                | apply returns_derive_mailbox
                | solve [auto with returns]
                | apply returns_try_catch; [|intros]
                | apply returns_bind; [|intros] ]).
Qed.

Lemma returns_silent_reentry (self : M bool) :
  returns self -> returns (silent_reentry self).
Proof.
  intros Hs. unfold Flow.silent_reentry.
  apply returns_bind; [apply returns_request|]. intros r.
  apply returns_bind; [apply returns_followRedirects|]. intros _. exact Hs.
Qed.

(** With [retry = true] the call to itself is out of reach. *)
Lemma acquire_body_retry_is_final (self self' : M bool) (a : MicrosoftAuth) :
  acquire_body true self a = acquire_body true self' a.
Proof.
  unfold Flow.acquire_body. unfold bind at 1 3.
  destruct (oauth_hops 2 _ a) as [[[final|e] a1]|]; [|reflexivity..].
  destruct final as [r|]; [|reflexivity].
  destruct (location r) as [l|]; [|reflexivity].
  unfold bind, lift. destruct (URL_searchParams (replace_hash l)); [|reflexivity].
  destruct (falsy_string _); reflexivity.
Qed.

Lemma acquire_retry_is_final (self self' : M bool) (a : MicrosoftAuth) :
  acquire true self a = acquire true self' a.
Proof.
  unfold Flow.acquire, try_catch.
  now rewrite (acquire_body_retry_is_final self self').
Qed.

Lemma returns_acquire_body (retry : bool) (self : M bool) :
  (retry = false -> returns self) -> returns (acquire_body retry self).
Proof.
  intros Hs. unfold Flow.acquire_body.
  apply returns_bind; [apply returns_oauth_hops|]. intros [r|]; auto with returns.
  destruct (location r); auto with returns.
  apply returns_bind; auto with returns. intros sp.
  destruct (falsy_string (sp "code")); [|apply returns_exchange_code].
  destruct retry; cbn [negb andb]; auto with returns.
  destruct (negb (falsy_string (sp "error"))); auto with returns.
  apply returns_silent_reentry. now apply Hs.
Qed.

(** One run returns a boolean: it neither throws nor stays away. *)
Lemma acquire_returns_bool (retry : bool) (self : M bool) (a : MicrosoftAuth) :
  (retry = false -> returns self) ->
  exists b a', acquire retry self a = Some (Ok b, a').
Proof.
  intros Hs.
  destruct (returns_try_catch (acquire_body retry self) (fun _ => ret false)
              (returns_acquire_body retry self Hs) (fun _ => returns_ret false) a)
    as ([b|e] & a' & H).
  - now exists b, a'.
  - exfalso. exact (try_catch_ret_never_throws _ _ _ _ _ H).
Qed.

(** Two levels of recursion are all [_getOutlookTokens] ever uses: with
    them it returns a boolean on every remote side. *)
Lemma getOutlookTokens_returns_bool (n : nat) (retry : bool) (a : MicrosoftAuth) :
  exists b a', _getOutlookTokens (S (S n)) retry a = Some (Ok b, a').
Proof.
  cbn [Flow._getOutlookTokens]. apply acquire_returns_bool. intros _ a1.
  destruct (acquire_returns_bool true (_getOutlookTokens n true) a1) as (b & a2 & H);
    [discriminate|].
  now exists (Ok b), a2.
Qed.

Lemma silent_reentry_ext (s1 s2 : M bool) :
  (forall a, s1 a = s2 a) -> forall a, silent_reentry s1 a = silent_reentry s2 a.
Proof.
  intros H a. unfold Flow.silent_reentry, bind.
  destruct (Flow.client_get server (Some REENTRY_URL) a) as [[[r|e] a1]|]; [|reflexivity..].
  destruct (_followRedirects r a1) as [[[u|e] a2]|]; [apply H|reflexivity..].
Qed.

(** A retried attempt whose final redirect carries no code answers
    [false]. *)
Lemma retried_attempt_without_code
    (self : M bool) (a a1 : MicrosoftAuth) (finalResponse : Response) (l : string)
    (searchParams : string -> option string) :
  oauth_hops 2 (redirectUrl (createMicrosoftAuthUrl true)) a
    = Some (Ok (Some finalResponse), a1) ->
  location finalResponse = Some l ->
  URL_searchParams (replace_hash l) = Ok searchParams ->
  falsy_string (searchParams "code") = true ->
  acquire true self a = Some (Ok false, a1).
Proof.
  intros Hhops Hl Hsp Hcode.
  unfold Flow.acquire, try_catch, Flow.acquire_body, bind at 1.
  rewrite Hhops, Hl. unfold bind, lift. rewrite Hsp, Hcode. reflexivity.
Qed.

(** ** What one attempt adds to the calls made *)

Lemma appends_ret {A} (x : A) : appends_at_most 0 (ret x).
Proof. intros a res a' [= <- <-]. now exists []. Qed.

Lemma appends_throw {A} (e : Error) : appends_at_most 0 (@throw A e).
Proof. intros a res a' [= <- <-]. now exists []. Qed.

Lemma appends_lift {A} (r : Result A) : appends_at_most 0 (lift r).
Proof. intros a res a' [= <- <-]. now exists []. Qed.

Lemma appends_modify (f : MicrosoftAuth -> MicrosoftAuth) :
  (forall a, sent (f a) = sent a) -> appends_at_most 0 (modify f).
Proof. intros Hf a res a' [= <- <-]. exists []. now rewrite Hf. Qed.

Lemma appends_more {A} (n n' : nat) (m : M A) :
  (n <= n')%nat -> appends_at_most n m -> appends_at_most n' m.
Proof.
  intros Hn Hm a res a' H. destruct (Hm a res a' H) as (new & Hs & Hlen).
  exists new. split; [exact Hs | lia].
Qed.

Lemma appends_bind {A B} (n k : nat) (m : M A) (f : A -> M B) :
  appends_at_most n m -> (forall x, appends_at_most k (f x)) ->
  appends_at_most (n + k) (bind m f).
Proof.
  intros Hm Hf a res a'. unfold bind.
  destruct (m a) as [[[x|e] a1]|] eqn:E; [| |discriminate].
  - intros H. destruct (Hm a _ _ E) as (new1 & Hs1 & Hl1).
    destruct (Hf x a1 _ _ H) as (new2 & Hs2 & Hl2).
    exists (new2 ++ new1). rewrite Hs2, Hs1, <- app_assoc, length_app.
    split; [reflexivity | lia].
  - intros [= <- <-]. destruct (Hm a _ _ E) as (new1 & Hs1 & Hl1).
    exists new1. split; [exact Hs1 | lia].
Qed.

Lemma appends_try_catch {A} (n k : nat) (m : M A) (h : Error -> M A) :
  appends_at_most n m -> (forall e, appends_at_most k (h e)) ->
  appends_at_most (n + k) (try_catch m h).
Proof.
  intros Hm Hh a res a'. unfold try_catch.
  destruct (m a) as [[[x|e] a1]|] eqn:E; [| |discriminate].
  - intros [= <- <-]. destruct (Hm a _ _ E) as (new1 & Hs1 & Hl1).
    exists new1. split; [exact Hs1 | lia].
  - intros H. destruct (Hm a _ _ E) as (new1 & Hs1 & Hl1).
    destruct (Hh e a1 _ _ H) as (new2 & Hs2 & Hl2).
    exists (new2 ++ new1). rewrite Hs2, Hs1, <- app_assoc, length_app.
    split; [reflexivity | lia].
Qed.

(** A call with a URL is recorded whatever comes of it. *)
Lemma request_recorded (validate : Z -> bool) (rq : Request)
    (a a' : MicrosoftAuth) (res : Result Response) :
  is_Some (url rq) -> request validate rq a = Some (res, a') -> a' = record_sent rq a.
Proof.
  intros [u Hu]. unfold Flow.request. rewrite Hu.
  destruct (server (sent a) rq) as [r|e]; [destruct (validate (status r))|];
    now intros [= _ <-].
Qed.

Lemma appends_request (validate : Z -> bool) (rq : Request) :
  appends_at_most 1 (request validate rq).
Proof.
  intros a res a'. unfold Flow.request.
  destruct (url rq); [|intros [= <- <-]; exists []; split; [reflexivity | cbn; lia]].
  destruct (server (sent a) rq) as [r|e]; [destruct (validate (status r))|];
    intros [= <- <-]; now exists [rq].
Qed.

Lemma appends_session_setMetadata (k : string) (v : json) :
  appends_at_most 0 (Flow.session_setMetadata k v).
Proof.
  intros a res a'. unfold Flow.session_setMetadata, bind. cbn [get].
  destruct (setMetadata (session a) k v) as [s'|e]; intros [= <- <-]; now exists [].
Qed.

Lemma appends_derive_mailbox (t : option json) :
  appends_at_most 0 (Flow.derive_mailbox _decodeJwtPayload t).
Proof.
  unfold Flow.derive_mailbox. destruct (_decodeJwtPayload t); [|apply appends_throw].
  change 0%nat with (0 + (0 + 0))%nat.
  apply appends_bind; [apply appends_lift|]. intros puid.
  apply appends_bind; [now apply appends_modify | intros; apply appends_ret].
Qed.

Lemma appends_exchange_code (rq : AuthRequest) (code : string) :
  appends_at_most 2 (exchange_code rq code).
Proof.
  unfold Flow.exchange_code.
  change 2%nat with (1 + (0 + (0 + (0 + (0 + ((1 + 0 + 0) + (0 + (0 + (0 + (0 + 0))))))))))%nat.
  apply appends_bind; [apply appends_request|]. intros r1.
  apply appends_bind; [now apply appends_modify|]. intros _.
  apply appends_bind; [apply appends_lift|]. intros id_token.
  apply appends_bind; [apply appends_derive_mailbox|]. intros mailbox.
  apply appends_bind; [apply appends_lift|]. intros access_token.
  apply appends_bind.
  { apply appends_try_catch; [|intros; apply appends_ret].
    apply appends_bind; [apply appends_request | intros; apply appends_ret]. }
  intros _.
  apply appends_bind; [now apply appends_modify|]. intros _.
  apply appends_bind; [apply appends_session_setMetadata|]. intros _.
  apply appends_bind; [apply appends_session_setMetadata|]. intros _.
  apply appends_bind; [apply appends_session_setMetadata|]. intros _.
  apply appends_ret.
Qed.

Lemma appends_oauth_hops (n : nat) : forall u, appends_at_most n (oauth_hops n u).
Proof.
  induction n as [|n IH]; intros u; cbn [Flow.oauth_hops]; [apply appends_ret|].
  change (S n) with (1 + n)%nat.
  apply appends_bind; [apply appends_request|]. intros r.
  destruct (location r); [|apply (appends_more 0); [lia | apply appends_ret]].
  destruct (_ && _); [|apply (appends_more 0); [lia | apply appends_ret]].
  change n with (0 + n)%nat. apply appends_bind; [apply appends_lift | apply IH].
Qed.

Lemma opens_bind {A B} (rq : Request) (n k : nat) (m : M A) (f : A -> M B) :
  opens_with rq n m -> (forall x, appends_at_most k (f x)) ->
  opens_with rq (n + k) (bind m f).
Proof.
  intros Hm Hf a res a'. unfold bind.
  destruct (m a) as [[[x|e] a1]|] eqn:E; [| |discriminate].
  - intros H. destruct (Hm a _ _ E) as (later & Hs1 & Hl1).
    destruct (Hf x a1 _ _ H) as (new2 & Hs2 & Hl2).
    exists (new2 ++ later). rewrite Hs2, Hs1, <- app_assoc, length_app.
    split; [reflexivity | lia].
  - intros [= <- <-]. destruct (Hm a _ _ E) as (later & Hs1 & Hl1).
    exists later. split; [exact Hs1 | lia].
Qed.

Lemma opens_try_catch {A} (rq : Request) (n k : nat) (m : M A) (h : Error -> M A) :
  opens_with rq n m -> (forall e, appends_at_most k (h e)) ->
  opens_with rq (n + k) (try_catch m h).
Proof.
  intros Hm Hh a res a'. unfold try_catch.
  destruct (m a) as [[[x|e] a1]|] eqn:E; [| |discriminate].
  - intros [= <- <-]. destruct (Hm a _ _ E) as (later & Hs1 & Hl1).
    exists later. split; [exact Hs1 | lia].
  - intros H. destruct (Hm a _ _ E) as (later & Hs1 & Hl1).
    destruct (Hh e a1 _ _ H) as (new2 & Hs2 & Hl2).
    exists (new2 ++ later). rewrite Hs2, Hs1, <- app_assoc, length_app.
    split; [reflexivity | lia].
Qed.

(** The hops of an attempt open with the authorization request. *)
Lemma oauth_hops_opens (n : nat) (u : string) :
  opens_with (mkRequest GET (Some u) [] iframe_headers) n (oauth_hops (S n) u).
Proof.
  cbn [Flow.oauth_hops]. change n with (0 + n)%nat at 1.
  apply opens_bind.
  - intros a res a' H. apply request_recorded in H as ->; [|now eexists].
    exists []. split; [reflexivity | cbn; lia].
  - intros r.
    destruct (location r); [|apply (appends_more 0); [lia | apply appends_ret]].
    destruct (_ && _); [|apply (appends_more 0); [lia | apply appends_ret]].
    change n with (0 + n)%nat.
    apply appends_bind; [apply appends_lift | apply appends_oauth_hops].
Qed.

(** One retried attempt: it opens with its authorization request and
    makes at most three calls after it (a second hop and the two of the
    code exchange). *)
Lemma retried_attempt_calls (self : M bool) :
  opens_with (mkRequest GET (Some (redirectUrl (createMicrosoftAuthUrl true))) []
                iframe_headers) 3 (acquire true self).
Proof.
  unfold Flow.acquire. change 3%nat with ((1 + 2) + 0)%nat.
  apply opens_try_catch; [|intros; apply appends_ret].
  unfold Flow.acquire_body.
  apply opens_bind; [apply oauth_hops_opens|]. intros [r|].
  2: { apply (appends_more 0); [lia | apply appends_throw]. }
  destruct (location r); [|apply (appends_more 0); [lia | apply appends_throw]].
  change 2%nat with (0 + 2)%nat.
  apply appends_bind; [apply appends_lift|]. intros sp. cbv zeta.
  destruct (falsy_string (sp "code")); [|apply appends_exchange_code].
  cbn [negb andb]. apply (appends_more 0); [lia | apply appends_throw].
Qed.

Local Abbreviation reentry := (FlowStatements.reentry server new_handler analyzeRedirect).

Lemma silent_reentry_after_reentry (self : M bool) (a : MicrosoftAuth) :
  silent_reentry self a = bind reentry (fun _ => self) a.
Proof.
  unfold Flow.silent_reentry, FlowStatements.reentry, bind.
  destruct (Flow.client_get server (Some REENTRY_URL) a) as [[[r|e] a1]|]; [|reflexivity..].
  destruct (_followRedirects r a1) as [[[u|e] a2]|]; reflexivity.
Qed.

Lemma returns_reentry : returns reentry.
Proof.
  unfold FlowStatements.reentry.
  apply returns_bind; [apply returns_request | intros r; apply returns_followRedirects].
Qed.


End Acquire.


(** The other way out: the login endpoint is out of reach for the
    re-entry, and the call ends with [false] after the first authorization
    request and the failed re-entry, without a retried attempt. *)
Example getOutlookTokens_without_reentry :
  exists a',
    Flow._getOutlookTokens FlowStatements.login_down_server JsonText.parse Canned.URL_searchParams
      Canned.resolve_url tt plain_resolver authorize_request no_jwt 1762160000000
      2 false fresh_auth = Some (Ok false, a')
    /\ map url (sent a')
       = [Some REENTRY_URL; Some (redirectUrl (authorize_request false))].
Proof. eexists. split; vm_compute; reflexivity. Qed.


End FlowFacts.

(* ====================================================================== *)
(** * Properties of the OTP retrieval engine *)
(* ====================================================================== *)

Module OtpFacts.
Import Otp Samples Statements.

(** ** Extraction from a preview *)

(** The three extractions of the specification. *)
Example extract_security_code_is :
  extractOTPFromPreview (u "Your Microsoft account security code is: 482913")
  = Some (u "482913").
Proof. vm_compute. reflexivity. Qed.

Example extract_no_codes_here :
  extractOTPFromPreview (u "no codes here") = None.
Proof. vm_compute. reflexivity. Qed.

Example extract_use_code :
  extractOTPFromPreview (u "Use code 073215 to verify") = Some (u "073215").
Proof. vm_compute. reflexivity. Qed.

(** An English label wins over a run of digits that stands before it. *)
Example english_label_wins :
  extractOTPFromPreview (u "Ref 123456. Security code: 789012") = Some (u "789012").
Proof. vm_compute. reflexivity. Qed.

(** The code returned is the one of the first pattern of the list that
    yields one. *)
Lemma first_code_is_first_match (text : jsstring) (ps : list (Kind * regex))
    (code : jsstring) :
  first_code text ps = Some code ->
  exists earlier kind pattern later,
    ps = earlier ++ (kind, pattern) :: later
    /\ try_pattern text pattern = Some code
    /\ Forall (fun p => try_pattern text (snd p) = None) earlier.
Proof.
  induction ps as [|[k r] ps IH]; cbn; [discriminate|].
  destruct (try_pattern text r) as [c|] eqn:E.
  - intros [= <-]. exists [], k, r, ps. repeat split; [exact E | constructor].
  - intros H. destruct (IH H) as (earlier & k' & r' & later & -> & Hm & Hall).
    exists ((k, r) :: earlier), k', r', later. repeat split; [exact Hm|].
    constructor; [exact E | exact Hall].
Qed.

Lemma first_code_none (text : jsstring) (ps : list (Kind * regex)) :
  first_code text ps = None <->
  Forall (fun p => try_pattern text (snd p) = None) ps.
Proof.
  induction ps as [|[k r] ps IH]; cbn.
  - split; [constructor | reflexivity].
  - destruct (try_pattern text r) eqn:E; split.
    + discriminate.
    + intros H. inversion H; subst. cbn in *. congruence.
    + intros H. constructor; [exact E | now apply IH].
    + intros H. inversion H; subst. now apply IH.
Qed.

(** The twenty-two English labeled patterns come first, followed by the
    five bare-digit patterns. *)
Lemma english_labels_before_bare_digits :
  forallb is_labeled (firstn 22 patterns) = true
  /\ forallb is_bare (firstn 5 (skipn 22 patterns)) = true
  /\ labeled_after_bare false (firstn 30 patterns) = false.
Proof. repeat split. Qed.

(** C7 (the failing input). The labeled patterns of the other languages
    stand after the bare-digit patterns: on a German mail the bare run of
    six digits is returned, not the code that follows the label. *)
Theorem foreign_label_loses_to_bare_digits :
  labeled_after_bare false patterns = true
  /\ nth_error patterns 36 = Some (Labeled, labeled (u "Kode:"))
  /\ try_pattern (clean (u "Kode: 4321 ref 123456")) (labeled (u "Kode:"))
     = Some (u "4321")
  /\ extractOTPFromPreview (u "Kode: 4321 ref 123456") = Some (u "123456").
Proof. repeat split; vm_compute; reflexivity. Qed.

(** ** Candidate mails *)

Section SortFacts.

Context {A : Type}.
Variable compare : A -> A -> option Z.
Variable key : A -> Z.
Variable good : A -> Prop.
Hypothesis compare_is_difference :
  forall a b, good a -> good b -> compare a b = Some (key b - key a)%Z.

Lemma insert_sorted_Permutation (x : A) (l : list A) :
  Permutation (insert_sorted compare x l) (x :: l).
Proof.
  induction l as [|y l IH]; cbn; [reflexivity|].
  destruct (comes_after compare x y); [|reflexivity].
  rewrite IH. apply perm_swap.
Qed.

Lemma sort_Permutation (l : list A) : Permutation (sort compare l) l.
Proof.
  induction l as [|x l IH]; cbn; [reflexivity|].
  rewrite insert_sorted_Permutation. now constructor.
Qed.

Lemma sort_In (l : list A) (x : A) : In x (sort compare l) <-> In x l.
Proof.
  split; apply Permutation_in; [|symmetry]; apply sort_Permutation.
Qed.

Lemma insert_sorted_descending (x : A) (l : list A) :
  good x -> Forall good l ->
  StronglySorted (descending key) l ->
  StronglySorted (descending key) (insert_sorted compare x l).
Proof.
  intros Hx Hl Hs. induction Hs as [|y l Hs IH Hy]; cbn.
  - repeat constructor.
  - inversion Hl as [|? ? Gy Gl]; subst.
    unfold comes_after. rewrite (compare_is_difference x y Hx Gy).
    destruct (0 <? key y - key x)%Z eqn:E.
    + apply Z.ltb_lt in E. constructor; [now apply IH|].
      apply (Permutation_Forall (Permutation_sym (insert_sorted_Permutation x l))).
      constructor; [unfold descending; lia | exact Hy].
    + apply Z.ltb_ge in E. constructor; [now constructor|].
      constructor; [unfold descending; lia|].
      rewrite Forall_forall in Hy |- *. intros z Hz.
      specialize (Hy z Hz). unfold descending in *. lia.
Qed.

Lemma sort_descending (l : list A) :
  Forall good l -> StronglySorted (descending key) (sort compare l).
Proof.
  induction l as [|x l IH]; cbn; intros Hl; [constructor|].
  inversion Hl; subst. apply insert_sorted_descending; auto.
  apply (Permutation_Forall (Permutation_sym (sort_Permutation l))). assumption.
Qed.

End SortFacts.

Lemma hasSecuritySubject_keyword (conv : Conversation) :
  hasSecuritySubject conv = true -> subject_has security_keywords conv.
Proof.
  unfold hasSecuritySubject, subject_has, security_keywords, lowered. intros H.
  repeat (apply orb_true_iff in H as [H|H]);
    eexists; (split; [|exact H]); cbn; auto.
Qed.

Lemma isMicrosoft_keyword (conv : Conversation) :
  isMicrosoft conv = true -> sender_has provider_keywords conv.
Proof.
  unfold isMicrosoft, sender_has, provider_keywords, lowered. intros H.
  repeat (apply orb_true_iff in H as [H|H]);
    eexists; (split; [|exact H]); cbn; auto.
Qed.

Lemma subjectMatches_keyword (options : Options) (conv : Conversation) :
  subjectMatches options conv = true ->
  subject_has (map toLowerCase (subjectFilters options)) conv.
Proof.
  unfold subjectMatches, subject_has, lowered. intros H.
  apply existsb_exists in H as (f & Hf & H).
  exists (toLowerCase f). split; [now apply in_map | exact H].
Qed.

Lemma senderMatches_keyword (options : Options) (conv : Conversation) :
  senderMatches options conv = true ->
  sender_has (map toLowerCase (senderFilters options) ++ [u "microsoft"]) conv.
Proof.
  unfold senderMatches, sender_has, lowered. intros H.
  apply orb_true_iff in H as [H|H].
  - apply existsb_exists in H as (f & Hf & H).
    exists (toLowerCase f). split; [|exact H].
    apply in_or_app. left. now apply in_map.
  - exists (u "microsoft"). split; [|exact H].
    apply in_or_app. right. now left.
Qed.

(** The default filters are lower-case already, and every default sender
    filter names the provider. *)
Lemma default_filters_lower :
  map toLowerCase default_subjectFilters = default_subjectFilters
  /\ map toLowerCase default_senderFilters = default_senderFilters
  /\ forallb (fun f => includes_units f (u "microsoft")) default_senderFilters = true.
Proof. repeat split; vm_compute; reflexivity. Qed.

Lemma isRecent_within (now age : Z) (conv : Conversation) :
  isRecent now age conv = true ->
  LastDeliveryTime conv <> BadTime /\ within now age conv.
Proof.
  unfold isRecent, within. destruct (LastDeliveryTime conv) as [| |t0].
  - intros _. split; [discriminate|]. discriminate.
  - discriminate.
  - intros H. apply Z.leb_le in H. split; [discriminate|]. now intros t [= <-].
Qed.

Lemma startup_compare_difference (a b : Conversation) :
  LastDeliveryTime a <> BadTime -> LastDeliveryTime b <> BadTime ->
  startup_compare a b = Some (epoch_key b - epoch_key a)%Z.
Proof.
  unfold startup_compare, epoch_key, time_or_epoch.
  destruct (LastDeliveryTime a), (LastDeliveryTime b); intros Ha Hb;
    try contradiction; reflexivity.
Qed.

Lemma search_compare_difference (a b : Conversation) :
  (exists t, LastDeliveryTime a = Time t) -> (exists t, LastDeliveryTime b = Time t) ->
  search_compare a b = Some (time_key b - time_key a)%Z.
Proof.
  intros [ta Ha] [tb Hb]. unfold search_compare, time_key, time_of.
  now rewrite Ha, Hb.
Qed.

(** C8 (amended). On both paths an accepted mail is one of the listing
    whose subject holds a subject keyword and whose sender holds a provider
    keyword; on the conversation search a delivery time, where the mail
    has one, lies within the caller's [maxAge] of now.  The mails of the
    snapshot come out sorted by delivery time, newest first (a missing time
    counting as the epoch), and so do those of the search when every mail
    of the listing has a delivery time. *)
Theorem candidates_filtered_and_sorted
    (options : Options) (now : Z) (conversations : list Conversation) :
  (forall c, In c (startup_candidates now conversations) ->
     In c conversations
     /\ subject_has security_keywords c
     /\ sender_has provider_keywords c)
  /\ (forall c, In c (search_candidates options now conversations) ->
        In c conversations
        /\ subject_has (map toLowerCase (subjectFilters options)) c
        /\ sender_has (map toLowerCase (senderFilters options) ++ [u "microsoft"]) c
        /\ within now (maxAge options) c)
  /\ StronglySorted (descending epoch_key) (startup_candidates now conversations)
  /\ (Forall (fun c => LastDeliveryTime c <> NoTime) conversations ->
      StronglySorted (descending time_key)
                     (search_candidates options now conversations)).
Proof.
  split; [|split; [|split]].
  - intros c Hc. unfold startup_candidates, search_candidates in Hc.
    apply sort_In in Hc. apply filter_In in Hc as [Hin Hf].
    unfold startup_filter in Hf.
    apply andb_true_iff in Hf as [Hf _]. apply andb_true_iff in Hf as [Hs Hm].
    auto using hasSecuritySubject_keyword, isMicrosoft_keyword.
  - intros c Hc. unfold startup_candidates, search_candidates in Hc.
    apply sort_In in Hc. apply filter_In in Hc as [Hin Hf].
    unfold search_filter in Hf.
    apply andb_true_iff in Hf as [Hf Hr]. apply andb_true_iff in Hf as [Hs Hm].
    repeat split; auto using subjectMatches_keyword, senderMatches_keyword.
    now apply isRecent_within in Hr.
  - apply sort_descending with (good := fun c => LastDeliveryTime c <> BadTime).
    + apply startup_compare_difference.
    + apply List.Forall_forall. intros c Hc. apply filter_In in Hc as [_ Hf].
      unfold startup_filter in Hf. apply andb_true_iff in Hf as [_ Hr].
      now apply isRecent_within in Hr.
  - intros Hall.
    apply sort_descending with (good := fun c => exists t, LastDeliveryTime c = Time t).
    + apply search_compare_difference.
    + apply List.Forall_forall. intros c Hc. apply filter_In in Hc as [Hin Hf].
      rewrite List.Forall_forall in Hall. specialize (Hall c Hin).
      unfold search_filter in Hf. apply andb_true_iff in Hf as [_ Hr].
      apply isRecent_within in Hr as [Hbad _].
      destruct (LastDeliveryTime c) as [| |t]; try contradiction. now exists t.
Qed.

Lemma candidates_filtered_and_sorted_witness :
  let older := security_mail (Time 1762159900000) "Security code: 111111" in
  let newer := security_mail (Time 1762159990000) "Security code: 222222" in
  within 1762160000000 300000 newer
  /\ StronglySorted (descending time_key)
       (search_candidates (with_defaults (Some 300000%Z)) 1762160000000 [older; newer]).
Proof.
  intros older newer.
  destruct (candidates_filtered_and_sorted
              (with_defaults (Some 300000%Z)) 1762160000000 [older; newer])
    as (_ & Hsearch & _ & Hsorted).
  split.
  - apply (Hsearch newer).
    replace (search_candidates (with_defaults (Some 300000%Z)) 1762160000000 [older; newer])
      with [newer; older] by (vm_compute; reflexivity).
    left. reflexivity.
  - apply Hsorted. repeat constructor; discriminate.
Defined.

(** The snapshot path keeps its own window of ten minutes. *)
Lemma startup_window (now : Z) (conversations : list Conversation) (c : Conversation) :
  In c (startup_candidates now conversations) -> within now 600000 c.
Proof.
  intros Hc. unfold startup_candidates in Hc.
  apply sort_In in Hc. apply filter_In in Hc as [_ Hf].
  unfold startup_filter in Hf. apply andb_true_iff in Hf as [_ Hr].
  now apply isRecent_within in Hr.
Qed.

(** C8 (as stated). A mail that carries no delivery time is accepted on
    both paths, so acceptance does not require a delivery time within
    [maxAge]. *)
Lemma undated_mail_counterexample :
  startup_candidates 1762160000000 [security_mail NoTime "Security code: 482913"]
  = [security_mail NoTime "Security code: 482913"]
  /\ search_candidates (with_defaults (Some 300000%Z)) 1762160000000
       [security_mail NoTime "Security code: 482913"]
     = [security_mail NoTime "Security code: 482913"].
Proof. split; vm_compute; reflexivity. Qed.

(** With the five minutes the redirect handler asks for, a mail seven
    minutes old is refused by the search and accepted by the snapshot
    path, which the same lookup tries first. *)
Example snapshot_ignores_maxAge :
  let old := security_mail (Time (1762160000000 - 420000)) "Security code: 482913" in
  search_candidates (with_defaults (Some 300000%Z)) 1762160000000 [old] = []
  /\ startup_candidates 1762160000000 [old] = [old]
  /\ (exists r,
        findMicrosoftOTP (with_defaults (Some 300000%Z)) 1762160000000 1762160000000
          (mkMailbox (Some (mkStartupData (Some [old]) None None)) true (Some [old]))
        = Found r /\ otp r = u "482913").
Proof.
  cbv zeta. split; [vm_compute; reflexivity|]. split; [vm_compute; reflexivity|].
  eexists. split; vm_compute; reflexivity.
Qed.

(** Two dated mails come out newest first on both paths. *)
Example newest_first :
  let older := security_mail (Time 1762159900000) "Security code: 111111" in
  let newer := security_mail (Time 1762159990000) "Security code: 222222" in
  startup_candidates 1762160000000 [older; newer] = [newer; older]
  /\ search_candidates (with_defaults None) 1762160000000 [older; newer] = [newer; older].
Proof. cbv zeta. split; vm_compute; reflexivity. Qed.

End OtpFacts.

(* ====================================================================== *)
(** * Properties of the OTP engine: extraction, cleaning, the snapshot *)
(* ====================================================================== *)

Module OtpEngineFacts.
Import Otp OtpStatements Statements Samples.

(** ** What a pattern can capture *)

Local Open Scope N_scope.

Section Capture.

Variable text : jsstring.

Lemma rep_consumes {A} (p : N -> bool) least most greedy
    (l : list N) count prev cap (k : Position -> option A) (x : A) :
  rep p least most greedy count prev l cap k = Some x ->
  exists prev' w l', l = w ++ l' /\ Forall (fun c => p c = true) w
                     /\ k (mkPosition prev' l' cap) = Some x.
Proof.
  revert count prev. induction l as [|c t IH]; intros count prev; cbn [rep].
  - destruct (least <=? count)%nat; [|discriminate]. intros H.
    exists prev, [], []. auto.
  - assert (Hstop : (if (least <=? count)%nat then k (mkPosition prev (c :: t) cap) else None)
                    = Some x ->
                    exists prev' w l', c :: t = w ++ l' /\ Forall (fun c => p c = true) w
                                       /\ k (mkPosition prev' l' cap) = Some x).
    { destruct (least <=? count)%nat; [|discriminate]. intros H.
      exists prev, [], (c :: t). auto. }
    destruct (p c && match most with
                     | Some m => (count <? m)%nat
                     | None => true
                     end) eqn:Hc; [|exact Hstop].
    apply andb_true_iff in Hc as [Hc _].
    assert (Hgo : rep p least most greedy (S count) (Some c) t cap k = Some x ->
                  exists prev' w l', c :: t = w ++ l' /\ Forall (fun c => p c = true) w
                                     /\ k (mkPosition prev' l' cap) = Some x).
    { intros H. destruct (IH _ _ H) as (prev' & w & l' & -> & Hw & Hk).
      exists prev', (c :: w), l'. auto. }
    destruct greedy.
    + destruct (rep p least most true (S count) (Some c) t cap k) eqn:E.
      * intros [= ->]. now apply Hgo.
      * exact Hstop.
    + destruct (if (least <=? count)%nat then k (mkPosition prev (c :: t) cap) else None) eqn:E.
      * intros [= ->]. now apply Hstop.
      * exact Hgo.
Qed.

Lemma matches_digit_class (r : regex) :
  digit_class r ->
  forall A (s : Position) (k : Position -> option A) (x : A),
  matches r s k = Some x ->
  exists s' w, rest s = w ++ rest s' /\ digits w /\ capture s' = capture s
               /\ k s' = Some x.
Proof.
  induction r as [|p|r1 IH1 r2 IH2|r1 IH1|p least most greedy|r1 IH1|];
    cbn [digit_class matches]; intros Hr A s k x H.
  - exists s, []. repeat split; [constructor | exact H].
  - destruct (rest s) as [|c t] eqn:E; [discriminate|].
    destruct (p c) eqn:Hc; [|discriminate].
    exists (mkPosition (Some c) t (capture s)), [c]. cbn. repeat split; [|exact H].
    constructor; [now apply Hr | constructor].
  - destruct Hr as [H1 H2].
    destruct (IH1 H1 _ _ _ _ H) as (s1 & w1 & E1 & D1 & C1 & K1).
    destruct (IH2 H2 _ _ _ _ K1) as (s2 & w2 & E2 & D2 & C2 & K2).
    exists s2, (w1 ++ w2). repeat split.
    + now rewrite E1, E2, app_assoc.
    + now apply Forall_app.
    + congruence.
    + exact K2.
  - destruct (matches r1 s k) eqn:E.
    + injection H as ->. now apply IH1.
    + exists s, []. repeat split; [constructor | exact H].
  - destruct (rep_consumes _ _ _ _ _ _ _ _ _ _ H) as (prev' & w & l' & E & Hw & Hk).
    exists (mkPosition prev' l' (capture s)), w. cbn. repeat split; [exact E | | exact Hk].
    unfold digits. rewrite List.Forall_forall in Hw |- *. auto.
  - contradiction.
  - destruct (xorb (word_before s) (word_after s)); [|discriminate].
    exists s, []. repeat split; [constructor | exact H].
Qed.

Lemma firstn_consumed (w l : jsstring) :
  firstn (length (w ++ l) - length l) (w ++ l) = w.
Proof.
  rewrite List.length_app, Nat.add_sub, List.firstn_app, Nat.sub_diag, List.firstn_all.
  cbn. apply app_nil_r.
Qed.

Lemma matches_sound (r : regex) :
  captures_digits r ->
  forall A (s : Position) (k : Position -> option A) (x : A),
  sound_position text s -> matches r s k = Some x ->
  exists s', sound_position text s' /\ k s' = Some x.
Proof.
  induction r as [|p|r1 IH1 r2 IH2|r1 IH1|p least most greedy|r1 IH1|];
    cbn [captures_digits matches]; intros Hr A s k x Hs H.
  - now exists s.
  - destruct (rest s) as [|c t] eqn:E; [discriminate|].
    destruct (p c); [|discriminate].
    eexists. split; [|exact H].
    destruct Hs as [[pre Hpre] Hcap]. split; cbn; [|exact Hcap].
    exists (pre ++ [c]). rewrite Hpre, E, <- app_assoc. reflexivity.
  - destruct Hr as [H1 H2].
    destruct (IH1 H1 _ _ _ _ Hs H) as (s1 & Hs1 & K1).
    exact (IH2 H2 _ _ _ _ Hs1 K1).
  - destruct (matches r1 s k) eqn:E.
    + injection H as ->. exact (IH1 Hr _ _ _ _ Hs E).
    + now exists s.
  - destruct (rep_consumes _ _ _ _ _ _ _ _ _ _ H) as (prev' & w & l' & E & _ & Hk).
    eexists. split; [|exact Hk].
    destruct Hs as [[pre Hpre] Hcap]. split; cbn; [|exact Hcap].
    exists (pre ++ w). rewrite Hpre, E, <- app_assoc. reflexivity.
  - destruct (matches_digit_class _ Hr _ _ _ _ H) as (s1 & w & E & Dw & _ & K).
    eexists. split; [|exact K].
    destruct Hs as [[pre Hpre] _]. rewrite E, firstn_consumed.
    split; cbn.
    + exists (pre ++ w). rewrite Hpre, E, <- app_assoc. reflexivity.
    + split; [exact Dw|]. exists pre, (rest s1). now rewrite Hpre, E.
  - destruct (xorb (word_before s) (word_after s)); [|discriminate].
    now exists s.
Qed.

Lemma search_from_sound (r : regex) (l : jsstring) (prev : option N)
    (cap : option jsstring) :
  captures_digits r -> suffix l text ->
  search_from r prev l = Some cap ->
  match cap with
  | Some d => digits d /\ infix d text
  | None => True
  end.
Proof.
  intros Hr. revert prev.
  assert (Hhere : forall prev l o, suffix l text ->
            matches r (mkPosition prev l None) (fun s => Some (capture s)) = Some o ->
            match o with
            | Some d => digits d /\ infix d text
            | None => True
            end).
  { intros prev l0 o Hl E.
    assert (Hs : sound_position text (mkPosition prev l0 None)) by (split; [exact Hl | exact I]).
    destruct (matches_sound r Hr _ _ _ _ Hs E) as (s' & [_ Hcap] & [= <-]).
    exact Hcap. }
  induction l as [|c t IH]; intros prev Hl; cbn [search_from].
  - destruct (matches r (mkPosition prev [] None) (fun s => Some (capture s))) eqn:E;
      [|discriminate].
    intros [= <-]. exact (Hhere _ _ _ Hl E).
  - destruct (matches r (mkPosition prev (c :: t) None) (fun s => Some (capture s))) eqn:E.
    + intros [= <-]. exact (Hhere _ _ _ Hl E).
    + apply IH. destruct Hl as [pre Hpre]. exists (pre ++ [c]).
      now rewrite Hpre, <- app_assoc.
Qed.

End Capture.

Lemma patterns_capture_digits :
  Forall (fun p => captures_digits (snd p)) patterns.
Proof.
  unfold patterns. repeat constructor; cbn; tauto.
Qed.

Lemma first_code_sound (text code : jsstring) (ps : list (Kind * regex)) :
  Forall (fun p => captures_digits (snd p)) ps ->
  first_code text ps = Some code ->
  (4 <= length code <= 8)%nat /\ digits code /\ infix code text.
Proof.
  induction 1 as [|[kind r] ps Hr _ IH]; cbn [first_code]; [discriminate|].
  destruct (try_pattern text r) as [c|] eqn:E; [|exact IH].
  intros [= ->]. unfold try_pattern in E.
  destruct (search r text) as [[d|]|] eqn:Es; try discriminate.
  destruct (negb (length d =? 0)%nat && (4 <=? length d)%nat && (length d <=? 8)%nat) eqn:El;
    [|discriminate].
  injection E as ->.
  apply andb_true_iff in El as [El L8]. apply andb_true_iff in El as [_ L4].
  apply Nat.leb_le in L4, L8.
  pose proof (search_from_sound text r text None (Some code) Hr
                (ex_intro _ [] eq_refl) Es) as [Hd Hi].
  auto.
Qed.

(** X1. Whatever [extractOTPFromPreview] returns is a run of four to
    eight ASCII digits that stands in the cleaned preview. *)
Theorem extractOTPFromPreview_digits (preview code : jsstring) :
  extractOTPFromPreview preview = Some code ->
  (4 <= length code <= 8)%nat /\ digits code /\ infix code (clean preview).
Proof.
  unfold extractOTPFromPreview. destruct preview as [|c t]; [discriminate|].
  apply first_code_sound, patterns_capture_digits.
Qed.

Lemma extractOTPFromPreview_digits_witness :
  (4 <= length (u "482913") <= 8)%nat
  /\ digits (u "482913")
  /\ infix (u "482913") (clean (u "Your Microsoft account security code is: 482913")).
Proof.
  apply extractOTPFromPreview_digits. vm_compute. reflexivity.
Defined.


(** ** Cleaning *)

Lemma collapse_spaces_single (b : bool) (l : jsstring) :
  single_spaced (collapse_spaces b l)
  /\ (b = true -> starts_unspaced (collapse_spaces b l)).
Proof.
  revert b. induction l as [|c t IH]; intros b; cbn [collapse_spaces].
  - split; cbn; auto.
  - destruct (is_space c) eqn:Hc.
    + destruct b.
      * apply IH.
      * split; [|discriminate]. cbn [single_spaced]. split; [|apply IH].
        intros _. split; [reflexivity|].
        destruct (IH true) as [_ Hs]. specialize (Hs eq_refl).
        destruct (collapse_spaces true t); [exact I | exact Hs].
    + split; [|intros _; exact Hc]. cbn [single_spaced]. split; [|apply IH].
      rewrite Hc. discriminate.
Qed.

Lemma single_spaced_app (l1 l2 : jsstring) :
  single_spaced (l1 ++ l2) -> single_spaced l1 /\ single_spaced l2.
Proof.
  induction l1 as [|c t IH]; cbn [app single_spaced]; [auto|].
  intros [Hc Ht]. destruct (IH Ht) as [H1 H2]. repeat split; auto.
  - now apply Hc.
  - destruct (Hc H) as [_ Hn]. destruct t as [|d t']; [exact I | exact Hn].
Qed.

Lemma drop_spaces_spec (l : jsstring) :
  exists sp, l = sp ++ drop_spaces l
             /\ Forall (fun c => is_space c = true) sp
             /\ starts_unspaced (drop_spaces l).
Proof.
  induction l as [|c t (sp & E & Hsp & Hd)]; cbn [drop_spaces].
  - exists []. repeat split; constructor.
  - destruct (is_space c) eqn:Hc.
    + exists (c :: sp). cbn. rewrite <- E. repeat split; auto.
    + exists []. repeat split; [constructor | exact Hc].
Qed.

Lemma trim_spec (l : jsstring) :
  exists sp1 sp2, l = sp1 ++ trim l ++ sp2 /\ no_space_at_ends (trim l).
Proof.
  unfold trim.
  destruct (drop_spaces_spec l) as (sp1 & E1 & _ & H1).
  destruct (drop_spaces_spec (rev (drop_spaces l))) as (sp2 & E2 & Hsp2 & H2).
  set (m := drop_spaces l) in *. set (n := drop_spaces (rev m)) in *.
  assert (Em : m = rev n ++ rev sp2).
  { rewrite <- (rev_involutive m), E2, rev_app_distr. reflexivity. }
  exists sp1, (rev sp2). split; [now rewrite <- Em|].
  split; [|now rewrite rev_involutive].
  destruct n as [|d n']; [exact I|].
  cbn [rev] in *. destruct (rev n') as [|e r]; cbn in *.
  - exact H2.
  - rewrite Em in H1. exact H1.
Qed.

Lemma replace_crlf_id (l : jsstring) :
  Forall (fun c => c <> 13) l -> replace_crlf l = l.
Proof.
  induction 1 as [|c t Hc _ IH]; [reflexivity|].
  cbn [replace_crlf]. destruct t as [|d t']; [reflexivity|].
  apply N.eqb_neq in Hc. rewrite Hc. cbn [andb]. now rewrite IH.
Qed.

Lemma replace_lf_id (l : jsstring) :
  Forall (fun c => c <> 10) l -> replace_lf l = l.
Proof.
  induction 1 as [|c t Hc _ IH]; [reflexivity|].
  unfold replace_lf in *. cbn [map]. apply N.eqb_neq in Hc. now rewrite Hc, IH.
Qed.

Lemma single_spaced_plain (l : jsstring) (c : N) :
  single_spaced l -> In c l -> is_space c = true -> c = 32.
Proof.
  induction l as [|d t IH]; cbn [single_spaced In]; [contradiction|].
  intros [Hd Ht] [->|Hin] Hc; [now apply Hd | now apply IH].
Qed.

Lemma collapse_spaces_id (b : bool) (l : jsstring) :
  single_spaced l -> (b = true -> starts_unspaced l) ->
  collapse_spaces b l = l.
Proof.
  revert b. induction l as [|c t IH]; intros b Hl Hb; [reflexivity|].
  cbn [collapse_spaces single_spaced] in *. destruct Hl as [Hc Ht].
  destruct (is_space c) eqn:E.
  - destruct b; [specialize (Hb eq_refl); cbn in Hb; congruence|].
    destruct (Hc eq_refl) as [-> Hn]. f_equal. apply IH; [exact Ht|].
    intros _. destruct t; [exact I | exact Hn].
  - f_equal. apply IH; [exact Ht | discriminate].
Qed.

Lemma drop_spaces_id (l : jsstring) : starts_unspaced l -> drop_spaces l = l.
Proof. destruct l as [|c t]; [reflexivity|]. cbn. now intros ->. Qed.

Lemma trim_id (l : jsstring) : no_space_at_ends l -> trim l = l.
Proof.
  intros [H1 H2]. unfold trim.
  now rewrite (drop_spaces_id l H1), (drop_spaces_id _ H2), rev_involutive.
Qed.

(** X2. The cleaned preview holds no white space but single plain
    spaces, none of them at its ends, and cleaning it again changes
    nothing. *)
Theorem clean_normal_form (preview : jsstring) :
  single_spaced (clean preview)
  /\ no_space_at_ends (clean preview)
  /\ clean (clean preview) = clean preview.
Proof.
  assert (Hs : single_spaced (clean preview)).
  { unfold clean.
    destruct (trim_spec (collapse_spaces false (replace_lf (replace_crlf preview))))
      as (sp1 & sp2 & E & _).
    pose proof (proj1 (collapse_spaces_single false (replace_lf (replace_crlf preview)))) as H.
    rewrite E in H. apply single_spaced_app in H as [_ H].
    now apply single_spaced_app in H as [H _]. }
  assert (He : no_space_at_ends (clean preview)).
  { unfold clean.
    destruct (trim_spec (collapse_spaces false (replace_lf (replace_crlf preview))))
      as (sp1 & sp2 & _ & H). exact H. }
  split; [exact Hs|]. split; [exact He|].
  set (t := clean preview) in *. unfold clean.
  assert (Hplain : forall c, In c t -> is_space c = true -> c = 32)
    by (intros c; now apply single_spaced_plain).
  rewrite replace_crlf_id.
  - rewrite replace_lf_id.
    + rewrite collapse_spaces_id; [now apply trim_id | exact Hs | discriminate].
    + apply List.Forall_forall. intros c Hc ->. now specialize (Hplain _ Hc eq_refl).
  - apply List.Forall_forall. intros c Hc ->. now specialize (Hplain _ Hc eq_refl).
Qed.

Local Close Scope N_scope.
Local Open Scope Z_scope.

(** ** The loop over the mails *)

Lemma yields_scan (mail : Conversation) (how : string) (others : list Conversation) :
  scan how (mail :: others)
  = match yields mail with
    | Some code =>
        Some (mkOtpResult code (ConversationTopic mail) (EmailAddress mail)
                (LastDeliveryTime mail) (firstn 200 (default [] (Preview mail))) how)
    | None => scan how others
    end.
Proof.
  cbn [scan]. unfold yields, default.
  destruct (Preview mail) as [[|c t]|]; cbn [from_option id]; reflexivity.
Qed.

(** The loop over the mails stops at the first one that yields a code. *)
Lemma scan_first (how : string) (mails : list Conversation) (r : OtpResult) :
  scan how mails = Some r ->
  exists earlier mail later,
    mails = earlier ++ mail :: later
    /\ Forall (fun m => yields m = None) earlier
    /\ yields mail = Some (otp r)
    /\ r = mkOtpResult (otp r) (ConversationTopic mail) (EmailAddress mail)
             (LastDeliveryTime mail) (firstn 200 (default [] (Preview mail))) how.
Proof.
  induction mails as [|m ms IH]; [discriminate|].
  rewrite yields_scan. destruct (yields m) as [code|] eqn:E.
  - intros [= <-]. exists [], m, ms. repeat split; [constructor | exact E].
  - intros H. destruct (IH H) as (earlier & mail & later & -> & He & Hy & Hr).
    exists (m :: earlier), mail, later. repeat split; auto.
Qed.

Lemma scan_none (how : string) (mails : list Conversation) :
  scan how mails = None -> Forall (fun m => yields m = None) mails.
Proof.
  induction mails as [|m ms IH]; [constructor|].
  rewrite yields_scan. destruct (yields m) eqn:E; [discriminate|]. auto.
Qed.

Lemma sorted_middle {A} (R : A -> A -> Prop) (l1 l2 : list A) (x : A) :
  StronglySorted R (l1 ++ x :: l2) -> Forall (R x) l2.
Proof.
  induction l1 as [|y l1 IH]; cbn; intros H; inversion H; subst; auto.
Qed.

Lemma startup_candidates_sorted (now : Z) (conversations : list Conversation) :
  StronglySorted (descending epoch_key) (startup_candidates now conversations).
Proof.
  apply OtpFacts.sort_descending with (good := fun c => LastDeliveryTime c <> BadTime).
  - apply OtpFacts.startup_compare_difference.
  - apply List.Forall_forall. intros c Hc. apply filter_In in Hc as [_ Hf].
    unfold startup_filter in Hf. apply andb_true_iff in Hf as [_ Hr].
    now apply OtpFacts.isRecent_within in Hr.
Qed.

(** X3. A code found in the mailbox snapshot is the one of an accepted
    mail, and no accepted mail delivered later yields a code; when nothing
    is found no accepted mail yields one. *)
Theorem snapshot_code_is_newest (now : Z) (sd : StartupData) :
  (forall r, extractOTPFromStartupData now sd = Some r ->
     exists conversations mail,
       startup_conversations sd = Some conversations
       /\ In mail conversations /\ startup_filter now mail = true
       /\ yields mail = Some (otp r)
       /\ email_deliveryTime r = LastDeliveryTime mail
       /\ method r = "startup_data_direct"%string
       /\ forall other, In other conversations -> startup_filter now other = true ->
            epoch_key mail < epoch_key other -> yields other = None)
  /\ (forall conversations mail,
        extractOTPFromStartupData now sd = None ->
        startup_conversations sd = Some conversations ->
        In mail conversations -> startup_filter now mail = true ->
        yields mail = None).
Proof.
  unfold extractOTPFromStartupData. split.
  - intros r H. destruct (startup_conversations sd) as [conversations|]; [|discriminate].
    destruct (scan_first _ _ _ H) as (earlier & mail & later & E & He & Hy & Hr).
    exists conversations, mail.
    assert (Hin : In mail (startup_candidates now conversations))
      by (rewrite E; apply in_elt).
    apply OtpFacts.sort_In, filter_In in Hin as [Hin Hf].
    repeat split; auto; try (rewrite Hr; reflexivity).
    intros other Ho Hfo Hlt.
    assert (Hc : In other (startup_candidates now conversations))
      by (apply OtpFacts.sort_In, filter_In; auto).
    rewrite E in Hc. apply in_app_or in Hc as [Hc|[<-|Hc]].
    + rewrite List.Forall_forall in He. now apply He.
    + lia.
    + pose proof (startup_candidates_sorted now conversations) as Hs.
      rewrite E in Hs. apply sorted_middle in Hs.
      rewrite List.Forall_forall in Hs. specialize (Hs _ Hc).
      unfold descending in Hs. lia.
  - intros conversations mail H Hc Hin Hf. rewrite Hc in H.
    apply scan_none in H. rewrite List.Forall_forall in H. apply H.
    apply OtpFacts.sort_In, filter_In. auto.
Qed.

Lemma snapshot_code_is_newest_witness :
  let older := security_mail (Time 1762159900000) "Security code: 111111" in
  let newer := security_mail (Time 1762159990000) "Security code: 222222" in
  exists conversations mail,
    Some [older; newer] = Some conversations
    /\ In mail conversations /\ startup_filter 1762160000000 mail = true
    /\ yields mail = Some (u "222222")
    /\ LastDeliveryTime newer = LastDeliveryTime mail
    /\ "startup_data_direct"%string = "startup_data_direct"%string
    /\ forall other, In other conversations -> startup_filter 1762160000000 other = true ->
         epoch_key mail < epoch_key other -> yields other = None.
Proof.
  intros older newer.
  refine (proj1 (snapshot_code_is_newest 1762160000000
                   (mkStartupData (Some [older; newer]) None None))
            (mkOtpResult (u "222222") (ConversationTopic newer) (EmailAddress newer)
               (LastDeliveryTime newer) (firstn 200 (u "Security code: 222222"))
               "startup_data_direct") _).
  vm_compute. reflexivity.
Defined.


End OtpEngineFacts.

(* ====================================================================== *)
(** * Properties of the mailbox client *)
(* ====================================================================== *)

Module FetcherFacts.
Import Session Otp Fetcher FetcherStatements.

Local Open Scope Z_scope.

(** ** Polling *)

Section Polling.

Variable startupdata : list Call -> Z -> Z * Result StartupReply.
Variable GetFolder : list Call -> Z -> Z * Result (option string).
Variable FindConversation : list Call -> Z -> Z -> Z * Result (option (list Conversation)).
Variable timer : list Call -> Z -> Z -> Z.

Hypothesis startupdata_takes_time : forall cs t, 0 <= fst (startupdata cs t).
Hypothesis GetFolder_takes_time : forall cs t, 0 <= fst (GetFolder cs t).
Hypothesis FindConversation_takes_time : forall cs t n, 0 <= fst (FindConversation cs t n).
Hypothesis timer_not_early : forall cs t ms, ms <= timer cs t ms.

Local Abbreviation getFolderIdsFromInbox := (Fetcher.getFolderIdsFromInbox GetFolder).
Local Abbreviation getFolderIds := (Fetcher.getFolderIds startupdata GetFolder).
Local Abbreviation getConversationsSimplified :=
  (Fetcher.getConversationsSimplified FindConversation).
Local Abbreviation findMicrosoftOTP :=
  (Fetcher.findMicrosoftOTP startupdata GetFolder FindConversation).
Local Abbreviation sleep := (Fetcher.sleep timer).
Local Abbreviation poll := (Fetcher.poll startupdata GetFolder FindConversation timer).
Local Abbreviation waitForOTP :=
  (Fetcher.waitForOTP startupdata GetFolder FindConversation timer).

Lemma moves_refl (st : State) : moves 0 st st.
Proof. split; [lia | unfold startup_calls; lia]. Qed.

Lemma moves_trans (n m : nat) (st1 st2 st3 : State) :
  moves n st1 st2 -> moves m st2 st3 -> moves (n + m) st1 st3.
Proof. intros [H1 H2] [H3 H4]. split; [lia | rewrite H4, H2; lia]. Qed.

Lemma moves_set_self (g : OutlookOTPFetcher -> OutlookOTPFetcher) (st : State) :
  moves 0 st (set_self g st).
Proof. split; cbn; [lia | unfold startup_calls; cbn; lia]. Qed.

Lemma getFolderIdsFromInbox_moves (st : State) :
  moves 0 st (snd (getFolderIdsFromInbox st)).
Proof.
  unfold Fetcher.getFolderIdsFromInbox.
  pose proof (GetFolder_takes_time (calls st) (clock st)) as Ht.
  destruct (GetFolder (calls st) (clock st)) as [d answer]. cbn [fst] in Ht.
  assert (Hm : moves 0 st (after GetFolderCall d st)).
  { split; cbn; [lia | unfold startup_calls; cbn; lia]. }
  destruct answer as [[id|]|e]; cbn [truthy_id]; try exact Hm.
  destruct id; exact Hm.
Qed.

Lemma getFolderIds_fetches (st : State) :
  cached st = None -> moves 1 st (snd (getFolderIds st)).
Proof.
  intros Hc. unfold Fetcher.getFolderIds. rewrite Hc.
  pose proof (startupdata_takes_time (calls st) (clock st)) as Ht.
  destruct (startupdata (calls st) (clock st)) as [d answer]. cbn [fst] in Ht.
  set (st1 := after StartupDataCall d st).
  assert (H1 : moves 1 st st1).
  { split; cbn; [lia | unfold startup_calls; cbn; lia]. }
  destruct answer as [reply|e]; [|exact H1].
  set (st2 := match extractOTPFromStartupData (clock st1) (snapshot_of reply) with
              | Some directResult => set_self (set_direct (Some directResult)) st1
              | None => st1
              end).
  assert (H2 : moves 1 st st2).
  { subst st2. destruct (extractOTPFromStartupData _ _); [|exact H1].
    apply (moves_trans 1 0 _ _ _ H1), moves_set_self. }
  destruct (folder_ids_of reply) as [ids|].
  - apply (moves_trans 1 0 _ _ _ H2), moves_set_self.
  - pose proof (getFolderIdsFromInbox_moves st2) as H3.
    destruct (getFolderIdsFromInbox st2) as [[ids|] st3]; cbn [snd] in *.
    + apply (moves_trans 1 0 _ _ _ H2), (moves_trans 0 0 _ _ _ H3), moves_set_self.
    + apply (moves_trans 1 0 _ _ _ H2 H3).
Qed.

Lemma getConversationsSimplified_moves (n : Z) (st : State) :
  moves 0 st (snd (getConversationsSimplified n st)).
Proof.
  unfold Fetcher.getConversationsSimplified.
  pose proof (FindConversation_takes_time (calls st) (clock st) n) as Ht.
  destruct (FindConversation (calls st) (clock st) n) as [d answer]. cbn [fst] in Ht.
  assert (Hm : moves 0 st (after (FindConversationCall n) d st)).
  { split; cbn; [lia | unfold startup_calls; cbn; lia]. }
  destruct answer; exact Hm.
Qed.

(** After [clearCache] a lookup always asks for a new snapshot, once. *)
Lemma findMicrosoftOTP_fresh (options : Options) (st : State) :
  moves 1 st (snd (findMicrosoftOTP options (clearCache st))).
Proof.
  unfold Fetcher.findMicrosoftOTP.
  assert (H0 : moves 0 st (clearCache st)) by apply moves_set_self.
  pose proof (getFolderIds_fetches (clearCache st) eq_refl) as H1.
  destruct (getFolderIds (clearCache st)) as [folderIds st1]. cbn [snd] in H1.
  pose proof (moves_trans 0 1 _ _ _ H0 H1) as H01. cbn in H01.
  destruct (directOTPResult (self st1)); cbn [snd].
  - apply (moves_trans 1 0 _ _ _ H01), moves_set_self.
  - destruct folderIds as [ids|]; [|exact H01].
    pose proof (getConversationsSimplified_moves 15 st1) as H2.
    destruct (getConversationsSimplified 15 st1) as [conversations st2]. cbn [snd] in H2.
    pose proof (moves_trans 1 0 _ _ _ H01 H2) as H3.
    destruct conversations as [[|c l]|]; try exact H3.
    destruct (scan _ _); exact H3.
Qed.

Lemma sleep_moves (ms : Z) (st : State) :
  0 <= ms -> moves 0 st (sleep ms st) /\ clock st + ms <= clock (sleep ms st).
Proof.
  intros Hms. pose proof (timer_not_early (calls st) (clock st) ms) as Ht.
  unfold Fetcher.sleep, moves, startup_calls. cbn. repeat split; lia.
Qed.

Lemma poll_bounded (options : WaitOptions) (startTime : Z) :
  0 < pollInterval options ->
  forall (fuel attempts : nat) (st : State),
  (Z.of_nat attempts * pollInterval options <= clock st - startTime
   \/ timeout options <= clock st - startTime) ->
  timeout options - Z.of_nat attempts * pollInterval options
    <= Z.of_nat fuel * pollInterval options ->
  exists waited n st',
    poll fuel options startTime attempts st = Some (waited, n, st')
    /\ (attempts <= n)%nat
    /\ (n = attempts \/ (Z.of_nat n - 1) * pollInterval options < timeout options)
    /\ moves (n - attempts) st st'
    /\ match waited with
       | TimedOut m => m = n /\ timeout options <= clock st' - startTime
       | Received _ => True
       end.
Proof.
  intros HP. induction fuel as [|fuel IH]; intros attempts st Hinv Hfuel.
  - cbn [Fetcher.poll]. destruct (clock st - startTime <? timeout options) eqn:E.
    + apply Z.ltb_lt in E. nia.
    + apply Z.ltb_ge in E. exists (TimedOut attempts), attempts, st.
      rewrite Nat.sub_diag.
      split; [reflexivity|]. split; [lia|]. split; [now left|].
      split; [apply moves_refl|]. split; [reflexivity | exact E].
  - cbn [Fetcher.poll]. destruct (clock st - startTime <? timeout options) eqn:E.
    + apply Z.ltb_lt in E.
      pose proof (findMicrosoftOTP_fresh (otpOptions options) st) as H1.
      destruct (findMicrosoftOTP (otpOptions options) (clearCache st)) as [result st1].
      cbn [snd] in H1.
      destruct result as [r|msg].
      * exists (Received r), (S attempts), st1.
        replace (S attempts - attempts)%nat with 1%nat by lia.
        split; [reflexivity|]. split; [lia|]. split; [right; nia|].
        split; [exact H1 | exact I].
      * set (remainingTime := timeout options - (clock st1 - startTime)).
        set (nextWait := Z.min (pollInterval options) remainingTime).
        set (st2 := if 0 <? nextWait then sleep nextWait st1 else st1).
        assert (H2 : moves 0 st1 st2
                      /\ (Z.of_nat (S attempts) * pollInterval options <= clock st2 - startTime
                          \/ timeout options <= clock st2 - startTime)).
        { subst st2. destruct H1 as [Hc1 _].
          destruct (0 <? nextWait) eqn:En.
          - apply Z.ltb_lt in En.
            destruct (sleep_moves nextWait st1) as [Hm Hc]; [lia|].
            split; [exact Hm|]. subst nextWait remainingTime. lia.
          - apply Z.ltb_ge in En. split; [apply moves_refl|].
            subst nextWait remainingTime. lia. }
        destruct H2 as [H2 Hinv'].
        destruct (IH (S attempts) st2 Hinv') as (waited & n & st' & Hp & Hn & Hb & Hm & Hw);
          [lia|].
        exists waited, n, st'.
        split; [exact Hp|]. split; [lia|].
        split; [destruct Hb as [->|Hb]; [right; nia | now right]|].
        split; [|exact Hw].
        replace (n - attempts)%nat with (1 + 0 + (n - S attempts))%nat by lia.
        exact (moves_trans _ _ _ _ _ (moves_trans _ _ _ _ _ H1 H2) Hm).
    + apply Z.ltb_ge in E. exists (TimedOut attempts), attempts, st.
      rewrite Nat.sub_diag.
      split; [reflexivity|]. split; [lia|]. split; [now left|].
      split; [apply moves_refl|]. split; [reflexivity | exact E].
Qed.

(** X4. With a positive polling interval, timers that never fire early
    and calls that take no negative time, [waitForOTP] comes back: it makes
    at most one attempt per polling interval of the timeout, each attempt
    asks the service for a new snapshot, and it reports a timeout only
    once the initial delay and the timeout have passed. *)
Theorem waitForOTP_bounded (options : WaitOptions) (fuel : nat) (st : State) :
  0 < pollInterval options ->
  timeout options <= Z.of_nat fuel * pollInterval options ->
  exists waited attempts st',
    waitForOTP fuel options st = Some (waited, attempts, st')
    /\ (attempts = 0%nat
        \/ (Z.of_nat attempts - 1) * pollInterval options < timeout options)
    /\ startup_calls st' = (startup_calls st + attempts)%nat
    /\ match waited with
       | TimedOut n =>
           n = attempts
           /\ clock st + Z.max 0 (initialDelay options) + timeout options <= clock st'
       | Received _ => True
       end.
Proof.
  intros HP Hfuel. unfold Fetcher.waitForOTP.
  set (st0 := if 0 <? initialDelay options then sleep (initialDelay options) st else st).
  assert (H0 : moves 0 st st0 /\ clock st + Z.max 0 (initialDelay options) <= clock st0).
  { subst st0. destruct (0 <? initialDelay options) eqn:E.
    - apply Z.ltb_lt in E. destruct (sleep_moves (initialDelay options) st); [lia|].
      split; [assumption | lia].
    - apply Z.ltb_ge in E. split; [apply moves_refl | lia]. }
  destruct H0 as [[_ H0] Hc0].
  destruct (poll_bounded options (clock st0) HP fuel 0 st0) as
    (waited & n & st' & Hp & _ & Hb & [_ Hm] & Hw); [lia | lia |].
  exists waited, n, st'. split; [exact Hp|]. split; [exact Hb|].
  split; [rewrite Hm, H0; lia|].
  destruct waited as [r|m]; [exact I|]. destruct Hw as [-> Hw]. split; [reflexivity | lia].
Qed.

End Polling.

Lemma waitForOTP_bounded_witness :
  let options := default_WaitOptions (with_defaults (Some 300000)) in
  let st := fresh_state 1762160000000 in
  exists waited attempts st',
    Fetcher.waitForOTP (unreachable_startupdata 250) (unreachable_GetFolder 250)
      (unreachable_FindConversation 250) exact_timer 24 options st
    = Some (waited, attempts, st')
    /\ (attempts = 0%nat
        \/ (Z.of_nat attempts - 1) * pollInterval options < timeout options)
    /\ startup_calls st' = (startup_calls st + attempts)%nat
    /\ match waited with
       | TimedOut n =>
           n = attempts
           /\ clock st + Z.max 0 (initialDelay options) + timeout options <= clock st'
       | Received _ => True
       end.
Proof.
  intros options st.
  apply (waitForOTP_bounded (unreachable_startupdata 250) (unreachable_GetFolder 250)
           (unreachable_FindConversation 250) exact_timer).
  - intros cs t. cbn. lia.
  - intros cs t. cbn. lia.
  - intros cs t n. cbn. lia.
  - intros cs t ms. unfold exact_timer. lia.
  - cbn. lia.
  - cbn. lia.
Defined.

(** Out of reach for two minutes: 23 attempts, 250 ms each, five seconds
    apart. *)
Example waitForOTP_unreachable :
  exists st',
    Fetcher.waitForOTP (unreachable_startupdata 250) (unreachable_GetFolder 250)
      (unreachable_FindConversation 250) exact_timer 24
      (default_WaitOptions (with_defaults (Some 300000))) (fresh_state 1762160000000)
    = Some (TimedOut 23, 23%nat, st')
    /\ clock st' = 1762160000000 + 2000 + 120000.
Proof. eexists. split; vm_compute; reflexivity. Qed.


(** ** The folder cache and the pending result *)

Section Cache.

Variable startupdata : list Call -> Z -> Z * Result StartupReply.
Variable GetFolder : list Call -> Z -> Z * Result (option string).
Variable FindConversation : list Call -> Z -> Z -> Z * Result (option (list Conversation)).

Local Abbreviation getFolderIds := (Fetcher.getFolderIds startupdata GetFolder).
Local Abbreviation findMicrosoftOTP :=
  (Fetcher.findMicrosoftOTP startupdata GetFolder FindConversation).

Lemma cached_set_cache (ids : FolderIds) (st st' : State) (d : Z) :
  clock st <> 0 -> 0 <= d < FOLDER_CACHE_DURATION ->
  folderCache (self st') = Some ids -> folderCacheTime (self st') = Some (clock st) ->
  clock st' = clock st + d ->
  cached st' = Some ids.
Proof.
  intros Hc Hd H1 H2 H3. unfold cached. rewrite H1, H2, H3.
  apply Z.eqb_neq in Hc. rewrite Hc. cbn [negb andb].
  replace (clock st + d - clock st) with d by lia.
  destruct (Z.ltb_spec d FOLDER_CACHE_DURATION); [reflexivity | lia].
Qed.

(** What a fetch leaves in the object. *)
Lemma getFolderIds_stamps (st st1 : State) (ids : FolderIds) :
  cached st = None -> getFolderIds st = (Some ids, st1) ->
  folderCache (self st1) = Some ids /\ folderCacheTime (self st1) = Some (clock st1).
Proof.
  intros Hc. unfold Fetcher.getFolderIds. rewrite Hc.
  destruct (startupdata (calls st) (clock st)) as [d [reply|e]]; [|discriminate].
  set (st2 := match extractOTPFromStartupData _ _ with
              | Some directResult => _
              | None => _
              end).
  destruct (folder_ids_of reply) as [i|].
  - intros [= <- <-]. split; reflexivity.
  - destruct (Fetcher.getFolderIdsFromInbox GetFolder st2) as [[i|] st3]; [|discriminate].
    intros [= <- <-]. split; reflexivity.
Qed.

(** X5. Folder ids that [getFolderIds] fetched are answered from the
    cache, without any call, while less than five minutes have passed
    since the fetch; from then on the next [getFolderIds] asks for a new
    snapshot. *)
Theorem folder_ids_are_cached (st st1 : State) (ids : FolderIds) :
  getFolderIds st = (Some ids, st1) -> clock st1 <> 0 ->
  cached st = None ->
  forall st2,
    self st2 = self st1 -> clock st1 <= clock st2 ->
    (clock st2 - clock st1 < FOLDER_CACHE_DURATION -> getFolderIds st2 = (Some ids, st2))
    /\ (FOLDER_CACHE_DURATION <= clock st2 - clock st1 ->
        startup_calls (snd (getFolderIds st2)) = S (startup_calls st2)).
Proof.
  intros Hg Hclock Hc st2 Hself Hlater.
  destruct (getFolderIds_stamps st st1 ids Hc Hg) as [Hids Htime].
  split; intros Hd.
  - unfold Fetcher.getFolderIds.
    rewrite (cached_set_cache ids st1 st2 (clock st2 - clock st1)); auto; try lia.
    + now rewrite Hself.
    + now rewrite Hself.
  - assert (Hc2 : cached st2 = None).
    { unfold cached. rewrite Hself, Hids, Htime.
      destruct (Z.ltb_spec (clock st2 - clock st1) FOLDER_CACHE_DURATION); [lia|].
      now rewrite andb_false_r. }
    unfold Fetcher.getFolderIds. rewrite Hc2.
    destruct (startupdata (calls st2) (clock st2)) as [d [reply|e]]; [|reflexivity].
    set (stA := after StartupDataCall d st2).
    assert (HA : startup_calls stA = S (startup_calls st2)) by reflexivity.
    set (stB := match extractOTPFromStartupData _ _ with
                | Some directResult => set_self (set_direct (Some directResult)) stA
                | None => stA
                end).
    assert (HB : startup_calls stB = S (startup_calls st2)).
    { subst stB. now destruct (extractOTPFromStartupData _ _). }
    destruct (folder_ids_of reply) as [i|]; [exact HB|].
    unfold Fetcher.getFolderIdsFromInbox.
    destruct (GetFolder (calls stB) (clock stB)) as [d' [[id|]|e]]; cbn [truthy_id];
      try exact HB.
    destruct id; exact HB.
Qed.

(** [getFolderIds] never drops a pending direct result. *)
Lemma getFolderIds_keeps_direct (st : State) (r : OtpResult) :
  directOTPResult (self st) = Some r ->
  exists r', directOTPResult (self (snd (getFolderIds st))) = Some r'
             /\ (cached st <> None -> r' = r /\ snd (getFolderIds st) = st).
Proof.
  intros Hr. unfold Fetcher.getFolderIds. destruct (cached st) as [ids|].
  - exists r. split; [exact Hr | auto].
  - assert (Hskip : forall A (x : A), (@None FolderIds <> None -> x = x) ) by reflexivity.
    destruct (startupdata (calls st) (clock st)) as [d [reply|e]].
    + cbn [snd].
      destruct (extractOTPFromStartupData _ (snapshot_of reply)) as [r1|].
      * destruct (folder_ids_of reply) as [i|].
        -- exists r1. split; [reflexivity | congruence].
        -- unfold Fetcher.getFolderIdsFromInbox.
           destruct (GetFolder _ _) as [d' [[id|]|e]]; cbn [truthy_id];
             try (exists r1; split; [reflexivity | congruence]).
           destruct id; exists r1; (split; [reflexivity | congruence]).
      * destruct (folder_ids_of reply) as [i|].
        -- exists r. split; [exact Hr | congruence].
        -- unfold Fetcher.getFolderIdsFromInbox.
           destruct (GetFolder _ _) as [d' [[id|]|e]]; cbn [truthy_id];
             try (exists r; split; [exact Hr | congruence]).
           destruct id; exists r; (split; [exact Hr | congruence]).
    + exists r. split; [exact Hr | congruence].
Qed.

(** X6. A pending direct result makes the next [findMicrosoftOTP]
    succeed, whatever the service answers, and is cleared by it; while the
    folder cache is fresh it is returned as it is, without any call. *)
Theorem pending_direct_result_is_returned (options : Options) (st : State) (r : OtpResult) :
  directOTPResult (self st) = Some r ->
  exists r' st',
    findMicrosoftOTP options st = (Found r', st')
    /\ directOTPResult (self st') = None
    /\ (cached st <> None -> r' = r /\ calls st' = calls st /\ clock st' = clock st).
Proof.
  intros Hr. destruct (getFolderIds_keeps_direct st r Hr) as (r' & Hd & Hsame).
  unfold Fetcher.findMicrosoftOTP.
  destruct (getFolderIds st) as [folderIds st1]. cbn [snd] in *.
  rewrite Hd. exists r', (set_self (set_direct None) st1).
  split; [reflexivity|]. split; [reflexivity|].
  intros Hc. destruct (Hsame Hc) as [-> ->]. auto.
Qed.

End Cache.

Lemma folder_ids_are_cached_witness :
  let st1 := snd (Fetcher.getFolderIds (answering_startupdata 250) (unreachable_GetFolder 250)
                    (fresh_state 1762160000000)) in
  let st2 := mkState (self st1) (clock st1 + 299999) (SleepCall 299999 :: calls st1) in
  Fetcher.getFolderIds (answering_startupdata 250) (unreachable_GetFolder 250) st2
  = (Some (mkFolderIds "AQMkADAwATM0" "AQMkADAwATM0"), st2).
Proof.
  intros st1 st2.
  refine (proj1 (folder_ids_are_cached (answering_startupdata 250) (unreachable_GetFolder 250)
                   (fresh_state 1762160000000) st1
                   (mkFolderIds "AQMkADAwATM0" "AQMkADAwATM0") _ _ _ st2 _ _) _).
  - reflexivity.
  - vm_compute. discriminate.
  - reflexivity.
  - reflexivity.
  - unfold st2. cbn [clock]. lia.
  - unfold st2. cbn [clock]. unfold FOLDER_CACHE_DURATION. lia.
Defined.

Lemma pending_direct_result_witness :
  let st := set_self (set_direct (Some pending_code)) (fresh_state 1762160000000) in
  exists r' st',
    Fetcher.findMicrosoftOTP (unreachable_startupdata 250) (unreachable_GetFolder 250)
      (unreachable_FindConversation 250) (with_defaults None) st = (Found r', st')
    /\ directOTPResult (self st') = None
    /\ (cached st <> None -> r' = pending_code /\ calls st' = calls st /\ clock st' = clock st).
Proof.
  intros st.
  apply (pending_direct_result_is_returned (unreachable_startupdata 250)
           (unreachable_GetFolder 250) (unreachable_FindConversation 250)).
  reflexivity.
Defined.


(** ** Building a fetcher *)

Lemma or_else_null_chain (o : option json) (k : string) :
  chain (Some (or_else o JNull)) k = chain o k.
Proof.
  unfold or_else. destruct o as [v|]; [|reflexivity].
  destruct v as [|b|z|s| | |]; cbn; try reflexivity.
  - now destruct b.
  - now destruct (z =? 0).
  - now destruct (String.eqb s "").
Qed.

(** X7. On the text a session exports, [createOTPFetcherFromCookieJar]
    builds a fetcher exactly when [createOTPFetcherFromSession] builds it
    from the session, and it is the same fetcher; the session is one whose
    metadata object has the prototype it was made with, so that all its
    metadata are its own properties, which the export writes down. *)
Theorem fetcher_from_export_is_fetcher_from_session
    (JSON_stringify : json -> string) (JSON_parse : string -> Result json)
    (jar_toJSON : list Cookie -> json)
    (s : HttpSession) (exportedAt : string) (fetcher : OutlookOTPFetcher) :
  _metadata_prototype (jar s) = Standard ->
  JSON_parse (exportCookieJar JSON_stringify jar_toJSON s exportedAt)
  = Ok (export_document jar_toJSON s exportedAt) ->
  createOTPFetcherFromCookieJar JSON_parse
    (exportCookieJar JSON_stringify jar_toJSON s exportedAt) = Ok fetcher
  <-> createOTPFetcherFromSession s = Ok fetcher.
Proof.
  intros Hproto Hparse. unfold createOTPFetcherFromCookieJar, createOTPFetcherFromSession.
  rewrite Hparse. unfold export_document. cbn [prop].
  rewrite lookup_insert_ne by discriminate. rewrite lookup_insert_eq.
  unfold getMetadata. rewrite Hproto.
  destruct (_metadata (jar s)) as [md|]; [|cbn; split; discriminate].
  destruct md as [|b|z|str|l|m|n].
  - cbn. split; discriminate.
  - destruct b; cbn; split; discriminate.
  - cbn. destruct (z =? 0); cbn; split; discriminate.
  - cbn. destruct (String.eqb str ""); cbn; split; discriminate.
  - cbn. split; discriminate.
  - cbn [or_else truthy].
    assert (Hget : forall k, Object_prototype_member k = None ->
                             String.eqb k "__proto__" = false ->
                             object_get m Standard k = m !! k).
    { intros k H1 H2. unfold object_get. cbn [inherited_member].
      rewrite H1, H2. now destruct (m !! k). }
    rewrite !Hget by reflexivity.
    rewrite or_else_null_chain.
    change (chain (Some (JObj m)) "outlookTokens") with (m !! "outlookTokens").
    change (chain (Some (JObj m)) "mailboxValue") with (m !! "mailboxValue").
    destruct (chain (m !! "outlookTokens") "access_token") as [a|]; [|split; discriminate].
    unfold or_else.
    destruct (m !! "mailboxValue") as [w|]; cbn [truthy].
    + destruct (truthy w) eqn:Hw.
      * rewrite Hw. destruct (truthy a); cbn; [reflexivity | split; discriminate].
      * cbn [truthy]. rewrite !andb_false_r. split; discriminate.
    + cbn [truthy]. rewrite !andb_false_r. split; discriminate.
  - cbn. split; discriminate.
Qed.

(** A session whose metadata object was given another prototype keeps
    finding the tokens that prototype holds, while the text it exports,
    which writes own properties only, has lost them. *)
Example fetcher_from_export_of_inherited_tokens :
  exists s,
    setMetadata (new_HttpSession None) "__proto__" (getAllMetadata outlook_session) = Ok s
    /\ createOTPFetcherFromSession s
       = Ok (new_OutlookOTPFetcher (JStr "EwAoA8l6BAAU") (JStr "0003BFFD@84df9e7f"))
    /\ createOTPFetcherFromCookieJar parse_or_throw
         (exportCookieJar JsonText.stringify ToughCookie.toJSON s "2026-11-03T09:00:00.000Z")
       = Throw (PlainError "Missing Outlook tokens or mailbox value in cookie jar").
Proof. eexists. repeat split; vm_compute; reflexivity. Qed.

Lemma fetcher_from_export_witness :
  createOTPFetcherFromCookieJar parse_or_throw
    (exportCookieJar JsonText.stringify ToughCookie.toJSON outlook_session
       "2026-11-03T09:00:00.000Z")
  = Ok (new_OutlookOTPFetcher (JStr "EwAoA8l6BAAU") (JStr "0003BFFD@84df9e7f"))
  <-> createOTPFetcherFromSession outlook_session
      = Ok (new_OutlookOTPFetcher (JStr "EwAoA8l6BAAU") (JStr "0003BFFD@84df9e7f")).
Proof.
  apply fetcher_from_export_is_fetcher_from_session; [reflexivity|].
  vm_compute. reflexivity.
Defined.

(** A text that is no JSON, and a jar without tokens. *)
Example fetcher_from_broken_text :
  createOTPFetcherFromCookieJar parse_or_throw "{cookies"
  = Throw (PlainError "Invalid cookie jar format: Unexpected token in JSON")
  /\ createOTPFetcherFromSession (new_HttpSession None)
     = Throw (PlainError "Missing Outlook tokens or mailbox value in session").
Proof. split; vm_compute; reflexivity. Qed.

End FetcherFacts.

(* ====================================================================== *)
(** * Properties of the values the URL builder generates *)
(* ====================================================================== *)

Module UrlBuilderFacts.
Import Pkce PkceStatements.

Local Open Scope N_scope.

(** A property of the sixteen nibbles is checked on each of them. *)
Lemma nibble_check (p : N -> bool) :
  forallb p (map N.of_nat (seq 0 16)) = true ->
  forall x, p (N.land x 15) = true.
Proof.
  intros H x. rewrite forallb_forall in H. apply H.
  apply in_map_iff. exists (N.to_nat (N.land x 15)). split.
  - apply N2Nat.id.
  - apply in_seq.
    assert (N.land x 15 < 16); [|lia].
    change 15 with (N.ones 4). rewrite N.land_ones.
    apply N.mod_lt. discriminate.
Qed.

Lemma hex_char_lower (x : N) : is_hex_lower (hex_char (N.land x 15)) = true.
Proof. apply (nibble_check (fun n => is_hex_lower (hex_char n))). reflexivity. Qed.

Lemma version_nibble (b : N) :
  hex_char (N.land (N.shiftr (N.lor (N.land b 15) 64) 4) 15) = "4"%char.
Proof.
  pose proof (nibble_check
    (fun n => Ascii.eqb (hex_char (N.land (N.shiftr (N.lor n 64) 4) 15)) "4") eq_refl b) as H.
  now apply Ascii.eqb_eq in H.
Qed.

Lemma variant_nibble (b : N) :
  is_variant_digit (hex_char (N.land (N.shiftr (N.lor (N.land b 63) 128) 4) 15)) = true.
Proof.
  apply (PkceFacts.sextet_check
           (fun n => is_variant_digit (hex_char (N.land (N.shiftr (N.lor n 128) 4) 15)))).
  reflexivity.
Qed.

(** X8. On sixteen random bytes [createNewGuid] gives a version-4 GUID:
    36 characters, hyphens after 8, 13, 18 and 23 of them, the version
    digit [4], a variant digit among [8], [9], [a], [b], lower-case
    hexadecimal digits elsewhere. *)
Theorem createNewGuid_is_version_4 (random : list N) :
  length random = 16%nat -> is_guid_v4 (createNewGuid random) = true.
Proof.
  intros H.
  do 16 (destruct random as [|? random]; [discriminate|]).
  destruct random; [|discriminate]. clear H.
  unfold createNewGuid, set_nth. cbn [lookup list_lookup insert list_insert hex].
  unfold slice, is_guid_v4.
  cbn [String.substring Nat.sub]. cbv [String.append].
  cbn [guid_shape guid_char_ok Nat.eqb orb].
  rewrite version_nibble, variant_nibble, !hex_char_lower. reflexivity.
Qed.

Lemma createNewGuid_witness :
  is_guid_v4 (createNewGuid (map N.of_nat (seq 0 16))) = true.
Proof. apply createNewGuid_is_version_4. reflexivity. Defined.

Example createNewGuid_of_counting_bytes :
  createNewGuid (map N.of_nat (seq 0 16)) = "00010203-0405-4607-8809-0a0b0c0d0e0f"%string.
Proof. vm_compute. reflexivity. Qed.


(** X9. When the configuration leaves [prompt] out, the URL asks for
    [prompt=none], the silent request, while the [state] it carries is the
    base64 text of an MSAL state whose interaction type is [redirect]. *)
Theorem omitted_prompt_is_sent_as_none (config : Config) (random : Entropy) :
  prompt config = None ->
  let context := snd (createMicrosoftAuthUrl config random) in
  params_get (params context) "prompt" = Some "none"%string
  /\ params_get (params context) "state" = Some (state context)
  /\ state context
     = base64 (bytes_of (msal_state_text (createNewGuid (state_bytes random)) "redirect")).
Proof.
  intros Hprompt context. subst context.
  unfold createMicrosoftAuthUrl. rewrite Hprompt. cbn [snd params state str_or].
  change (randomBytes random 32 16) with (state_bytes random).
  fold (msal_state_text (createNewGuid (state_bytes random)) "redirect").
  generalize (base64 (bytes_of (msal_state_text (createNewGuid (state_bytes random))
                                  "redirect"))).
  intros st. repeat split; reflexivity.
Qed.

Lemma omitted_prompt_witness :
  let context := snd (createMicrosoftAuthUrl bing_config_without_prompt sample_entropy) in
  params_get (params context) "prompt" = Some "none"%string
  /\ params_get (params context) "state" = Some (state context)
  /\ state context
     = base64 (bytes_of (msal_state_text (createNewGuid (state_bytes sample_entropy))
                           "redirect")).
Proof.
  exact (omitted_prompt_is_sent_as_none bing_config_without_prompt sample_entropy eq_refl).
Defined.

End UrlBuilderFacts.

(* ====================================================================== *)
(** * Further properties of the login flow *)
(* ====================================================================== *)

Module FlowMoreFacts.
Import Session Classifier Flow Canned Statements Samples FlowStatements.

(** ** Requests sent *)

Lemma sends_ret {A} (x : A) : sends_at_most 0 (ret x).
Proof. intros a. exists (Ok x), a. split; [reflexivity | lia]. Qed.

Lemma sends_throw {A} (e : Error) : sends_at_most 0 (@throw A e).
Proof. intros a. exists (Throw e), a. split; [reflexivity | lia]. Qed.

Lemma sends_lift {A} (r : Result A) : sends_at_most 0 (lift r).
Proof. intros a. exists r, a. split; [reflexivity | lia]. Qed.

Lemma sends_get : sends_at_most 0 get.
Proof. intros a. exists (Ok a), a. split; [reflexivity | lia]. Qed.

Lemma sends_modify (f : MicrosoftAuth -> MicrosoftAuth) :
  (forall a, sent (f a) = sent a) -> sends_at_most 0 (modify f).
Proof. intros Hf a. exists (Ok tt), (f a). split; [reflexivity | rewrite Hf; lia]. Qed.

Lemma sends_more {A} (n n' : nat) (m : M A) :
  (n <= n')%nat -> sends_at_most n m -> sends_at_most n' m.
Proof.
  intros Hn Hm a. destruct (Hm a) as (res & a' & H & Hlen).
  exists res, a'. split; [exact H | lia].
Qed.

Lemma sends_bind {A B} (n k : nat) (m : M A) (f : A -> M B) :
  sends_at_most n m -> (forall x, sends_at_most k (f x)) ->
  sends_at_most (n + k) (bind m f).
Proof.
  intros Hm Hf a. destruct (Hm a) as ([x|e] & a1 & H & Hlen); unfold bind; rewrite H.
  - destruct (Hf x a1) as (res & a2 & H2 & Hlen2). exists res, a2. split; [exact H2 | lia].
  - exists (Throw e), a1. split; [reflexivity | lia].
Qed.

Lemma sends_try_catch {A} (n k : nat) (m : M A) (h : Error -> M A) :
  sends_at_most n m -> (forall e, sends_at_most k (h e)) ->
  sends_at_most (n + k) (try_catch m h).
Proof.
  intros Hm Hh a. destruct (Hm a) as ([x|e] & a1 & H & Hlen); unfold try_catch; rewrite H.
  - exists (Ok x), a1. split; [reflexivity | lia].
  - destruct (Hh e a1) as (res & a2 & H2 & Hlen2). exists res, a2. split; [exact H2 | lia].
Qed.

Section Budget.

Variable server : list Request -> Request -> Result Response.
Variable JSON_parse : string -> option json.
Variable URL_searchParams : string -> Result (string -> option string).
Variable resolve_url : string -> string -> Result string.
Variable HandlerState : Type.
Variable new_handler : HandlerState.
Variable analyzeRedirect :
  HandlerState -> Response -> option string -> Result Analysis * HandlerState.
Variable createMicrosoftAuthUrl : bool -> AuthRequest.
Variable _decodeJwtPayload : option json -> option json.
Variable now : Z.

Local Abbreviation request := (Flow.request server).
Local Abbreviation oauth_hops := (Flow.oauth_hops server resolve_url).
Local Abbreviation _followRedirects :=
  (Flow._followRedirects server new_handler analyzeRedirect).
Local Abbreviation silent_reentry :=
  (Flow.silent_reentry server new_handler analyzeRedirect).
Local Abbreviation exchange_code :=
  (Flow.exchange_code server JSON_parse _decodeJwtPayload now).
Local Abbreviation acquire_body :=
  (Flow.acquire_body server JSON_parse URL_searchParams resolve_url
     new_handler analyzeRedirect createMicrosoftAuthUrl _decodeJwtPayload now).
Local Abbreviation acquire :=
  (Flow.acquire server JSON_parse URL_searchParams resolve_url
     new_handler analyzeRedirect createMicrosoftAuthUrl _decodeJwtPayload now).
Local Abbreviation _getOutlookTokens :=
  (Flow._getOutlookTokens server JSON_parse URL_searchParams resolve_url
     new_handler analyzeRedirect createMicrosoftAuthUrl _decodeJwtPayload now).

Lemma sends_request (validate : Z -> bool) (rq : Request) :
  sends_at_most 1 (request validate rq).
Proof.
  intros a. destruct (FlowFacts.request_sent server validate rq a) as (res & a' & H & Hlen & _).
  exists res, a'. split; [exact H | lia].
Qed.

Lemma sends_followRedirects (r : Response) : sends_at_most 20 (_followRedirects r).
Proof.
  intros a.
  exact (FlowFacts.redirect_loop_bound server HandlerState analyzeRedirect 20 new_handler r a).
Qed.

Lemma sends_oauth_hops (n : nat) : forall u, sends_at_most n (oauth_hops n u).
Proof.
  induction n as [|n IH]; intros u; cbn [Flow.oauth_hops]; [apply sends_ret|].
  change (S n) with (1 + n)%nat.
  apply sends_bind; [apply sends_request|]. intros r.
  destruct (location r); [|apply (sends_more 0); [lia | apply sends_ret]].
  destruct (_ && _); [|apply (sends_more 0); [lia | apply sends_ret]].
  change n with (0 + n)%nat. apply sends_bind; [apply sends_lift | apply IH].
Qed.

Lemma sends_session_setMetadata (k : string) (v : json) :
  sends_at_most 0 (Flow.session_setMetadata k v).
Proof.
  intros a. unfold Flow.session_setMetadata, bind. cbn [get].
  destruct (setMetadata (session a) k v) as [s'|e].
  - eexists _, _. split; [reflexivity | cbn; lia].
  - eexists _, _. split; [reflexivity | cbn; lia].
Qed.

Lemma sends_derive_mailbox (t : option json) :
  sends_at_most 0 (Flow.derive_mailbox _decodeJwtPayload t).
Proof.
  unfold Flow.derive_mailbox. destruct (_decodeJwtPayload t); [|apply sends_throw].
  change 0%nat with (0 + (0 + 0))%nat.
  apply sends_bind; [apply sends_lift|]. intros puid.
  apply sends_bind; [now apply sends_modify | intros; apply sends_ret].
Qed.

Lemma sends_exchange_code (rq : AuthRequest) (code : string) :
  sends_at_most 2 (exchange_code rq code).
Proof.
  unfold Flow.exchange_code.
  change 2%nat with (1 + (0 + (0 + (0 + (0 + ((1 + 0 + 0) + (0 + (0 + (0 + (0 + 0))))))))))%nat.
  apply sends_bind; [apply sends_request|]. intros r1.
  apply sends_bind; [now apply sends_modify|]. intros _.
  apply sends_bind; [apply sends_lift|]. intros id_token.
  apply sends_bind; [apply sends_derive_mailbox|]. intros mailbox.
  apply sends_bind; [apply sends_lift|]. intros access_token.
  apply sends_bind.
  { apply sends_try_catch; [|intros; apply sends_ret].
    apply sends_bind; [apply sends_request | intros; apply sends_ret]. }
  intros _.
  apply sends_bind; [now apply sends_modify|]. intros _.
  apply sends_bind; [apply sends_session_setMetadata|]. intros _.
  apply sends_bind; [apply sends_session_setMetadata|]. intros _.
  apply sends_bind; [apply sends_session_setMetadata|]. intros _.
  apply sends_ret.
Qed.

Lemma sends_silent_reentry (n : nat) (self : M bool) :
  sends_at_most n self -> sends_at_most (21 + n) (silent_reentry self).
Proof.
  intros Hs. unfold Flow.silent_reentry.
  change (21 + n)%nat with (1 + (20 + n))%nat.
  apply sends_bind; [apply sends_request|]. intros r.
  apply sends_bind; [apply sends_followRedirects|]. intros _. exact Hs.
Qed.

Lemma sends_acquire_body (n : nat) (retry : bool) (self : M bool) :
  (retry = false -> sends_at_most n self) ->
  sends_at_most (if retry then 4 else 23 + n) (acquire_body retry self).
Proof.
  intros Hs. unfold Flow.acquire_body.
  apply (sends_more (2 + (0 + (if retry then 2 else 21 + n))));
    [destruct retry; lia|].
  apply sends_bind; [apply sends_oauth_hops|]. intros [r|].
  2: { apply (sends_more 0); [lia | apply sends_throw]. }
  destruct (location r); [|apply (sends_more 0); [lia | apply sends_throw]].
  apply sends_bind; [apply sends_lift|]. intros sp.
  destruct (falsy_string (sp "code")).
  - destruct retry; cbn [negb andb].
    + apply (sends_more 0); [lia | apply sends_throw].
    + destruct (negb (falsy_string (sp "error"))).
      * apply sends_silent_reentry. now apply Hs.
      * apply (sends_more 0); [lia | apply sends_throw].
  - apply (sends_more 2); [destruct retry; lia | apply sends_exchange_code].
Qed.

Lemma sends_acquire (n : nat) (retry : bool) (self : M bool) :
  (retry = false -> sends_at_most n self) ->
  sends_at_most (if retry then 4 else 23 + n) (acquire retry self).
Proof.
  intros Hs. unfold Flow.acquire.
  apply (sends_more ((if retry then 4 else 23 + n) + 0)); [lia|].
  apply sends_try_catch; [now apply sends_acquire_body | intros; apply sends_ret].
Qed.

(** X10. [_getOutlookTokens] always comes back with a boolean, and makes
    at most 27 calls of the session client on the way: two authorization
    hops, then either the two calls of the code exchange or, once only,
    the silent re-entry (one call and at most twenty redirects followed)
    and a second attempt, which makes at most 4.  The traffic of the
    redirect resolver, which polls the recovery mailbox through a client
    of its own, is not among these calls. *)
Theorem getOutlookTokens_request_budget (n : nat) (retry : bool) (a : MicrosoftAuth) :
  exists b a',
    _getOutlookTokens (S (S n)) retry a = Some (Ok b, a')
    /\ (length (sent a') <= length (sent a) + (if retry then 4 else 27))%nat.
Proof.
  destruct (FlowFacts.getOutlookTokens_returns_bool server JSON_parse URL_searchParams
              resolve_url HandlerState new_handler analyzeRedirect createMicrosoftAuthUrl
              _decodeJwtPayload now n retry a) as (b & a' & H).
  exists b, a'. split; [exact H|].
  assert (Hs : sends_at_most (if retry then 4 else 27) (_getOutlookTokens (S (S n)) retry)).
  { cbn [Flow._getOutlookTokens].
    apply (sends_more (if retry then 4 else 23 + 4)); [destruct retry; lia|].
    apply sends_acquire. intros _.
    apply (sends_acquire 0 true). discriminate. }
  destruct (Hs a) as (res & a2 & H2 & Hlen). rewrite H in H2. now injection H2 as <- <-.
Qed.

End Budget.

(** ** Redirects *)

Section Steps.

Variable server : list Request -> Request -> Result Response.
Variable HandlerState : Type.
Variable new_handler : HandlerState.
Variable analyzeRedirect :
  HandlerState -> Response -> option string -> Result Analysis * HandlerState.

Local Abbreviation request := (Flow.request server).
Local Abbreviation redirect_loop := (Flow.redirect_loop server analyzeRedirect).
Local Abbreviation _followRedirects :=
  (Flow._followRedirects server new_handler analyzeRedirect).
Local Abbreviation in_sequence := (Statements.in_sequence server).

(** A call that brings a response has been answered by the remote side
    with an accepted status, and is recorded. *)
Lemma request_ok (validate : Z -> bool) (rq : Request) (a a' : MicrosoftAuth) (r : Response) :
  request validate rq a = Some (Ok r, a') ->
  server (sent a) rq = Ok r /\ validate (status r) = true /\ is_Some (url rq)
  /\ a' = record_sent rq a.
Proof.
  unfold Flow.request. destruct (url rq) as [u|]; [|discriminate].
  destruct (server (sent a) rq) as [r0|e]; [|discriminate].
  destruct (validate (status r0)) eqn:Hv; [|discriminate].
  intros [= <- <-]. auto.
Qed.

Lemma redirect_loop_final (r0 : Response) (n : nat) :
  forall (h : HandlerState) (r : Response) (a a' : MicrosoftAuth),
  in_sequence r0 r ->
  redirect_loop n h r a = Some (Ok tt, a') ->
  exists final h1 lu an h2,
    lastResponse a' = Some final /\ in_sequence r0 final
    /\ analyzeRedirect h1 final lu = (Ok an, h2) /\ an_type an = FINAL_PAGE
    /\ (S (length (sent a')) <= length (sent a) + n)%nat.
Proof.
  induction n as [|n IH]; intros h r a a' Hr; [discriminate|].
  cbn [Flow.redirect_loop]. unfold bind at 1. cbn [get].
  destruct (analyzeRedirect h r (lastUrl a)) as [[an|e] h'] eqn:Han; [|discriminate].
  assert (Hstep : forall rq (b : MicrosoftAuth),
             length (sent b) = length (sent a) ->
             bind (request validateStatus rq) (fun r1 => redirect_loop n h' r1) b
             = Some (Ok tt, a') ->
             exists final h1 lu an h2,
               lastResponse a' = Some final /\ in_sequence r0 final
               /\ analyzeRedirect h1 final lu = (Ok an, h2) /\ an_type an = FINAL_PAGE
               /\ (S (length (sent a')) <= length (sent a) + S n)%nat).
  { intros rq b Hb. unfold bind.
    destruct (request validateStatus rq b) as [[[r1|e] b1]|] eqn:Hrq; try discriminate.
    apply request_ok in Hrq as (Hs & _ & _ & ->). intros Hloop.
    destruct (IH h' r1 _ a' (or_intror (ex_intro _ _ (ex_intro _ _ Hs))) Hloop)
      as (final & h1 & lu & an1 & h2 & H1 & H2 & H3 & H4 & H5).
    exists final, h1, lu, an1, h2. repeat split; auto. cbn in H5. lia. }
  destruct (an_type an) eqn:Ht.
  1-4: unfold bind at 1, modify; apply Hstep; reflexivity.
  - apply Hstep; reflexivity.
  - unfold modify. intros [= <-]. exists r, h, (lastUrl a), an, h'.
    repeat split; auto. cbn. lia.
  - discriminate.
Qed.

Lemma followRedirects_unfold (r : Response) :
  _followRedirects r = redirect_loop 20 new_handler r.
Proof. reflexivity. Qed.

(** X11. When [_followRedirects] returns without an error, [lastResponse]
    is a response of the redirect sequence that the resolver classified
    as [FINAL_PAGE], and the session client was called at most 19 times
    (the resolver's own polling of the recovery mailbox is not a call of
    the session client). *)
Theorem followRedirects_ends_on_final_page (initialResponse : Response)
    (a a' : MicrosoftAuth) :
  _followRedirects initialResponse a = Some (Ok tt, a') ->
  exists final h lu an h',
    lastResponse a' = Some final
    /\ in_sequence initialResponse final
    /\ analyzeRedirect h final lu = (Ok an, h') /\ an_type an = FINAL_PAGE
    /\ (length (sent a') <= length (sent a) + 19)%nat.
Proof.
  intros H. rewrite followRedirects_unfold in H.
  destruct (redirect_loop_final initialResponse 20 new_handler initialResponse a a'
              (or_introl eq_refl) H) as (final & h1 & lu & an & h2 & H1 & H2 & H3 & H4 & H5).
  exists final, h1, lu, an, h2.
  split; [exact H1|]. split; [exact H2|]. split; [exact H3|]. split; [exact H4|].
  clear -H5. lia.
Qed.

(** ** [_postKmsi] *)


End Steps.

Lemma followRedirects_final_witness :
  exists a',
    Flow._followRedirects maintenance_server tt plain_resolver first_bounce
      (new_MicrosoftAuth "user@hotmail.com" "secret" None) = Some (Ok tt, a')
    /\ exists final h lu an h',
         lastResponse a' = Some final
         /\ Statements.in_sequence maintenance_server first_bounce final
         /\ plain_resolver h final lu = (Ok an, h') /\ an_type an = FINAL_PAGE
         /\ (length (sent a')
             <= length (sent (new_MicrosoftAuth "user@hotmail.com" "secret" None)) + 19)%nat.
Proof.
  eexists. split; [vm_compute; reflexivity|].
  apply (followRedirects_ends_on_final_page maintenance_server unit tt plain_resolver
           first_bounce (new_MicrosoftAuth "user@hotmail.com" "secret" None)).
  vm_compute. reflexivity.
Defined.



(** ** Outcomes *)

Section Outcome.

Variable server : list Request -> Request -> Result Response.
Variable JSON_parse : string -> option json.
Variable JSON_stringify : json -> string.
Variable jar_toJSON : list Cookie -> json.
Variable page_features :
  string -> option (gmap string json) * option (option string) * string.
Variable hidden_inputs : string -> list (string * string).
Variable PPFT_value : string -> option string.
Variable extractUcisData : string -> option (gmap string string).
Variable URL_searchParams : string -> Result (string -> option string).
Variable resolve_url : string -> string -> Result string.
Variable HandlerState : Type.
Variable new_handler : HandlerState.
Variable analyzeRedirect :
  HandlerState -> Response -> option string -> Result Analysis * HandlerState.
Variable createMicrosoftAuthUrl : bool -> AuthRequest.
Variable _decodeJwtPayload : option json -> option json.
Variable now : Z.
Variable now_iso : string.

Local Abbreviation _getInitialPage :=
  (Flow._getInitialPage server JSON_parse page_features hidden_inputs PPFT_value
     extractUcisData URL_searchParams new_handler analyzeRedirect).
Local Abbreviation _postUsername := (Flow._postUsername server JSON_parse).
Local Abbreviation _postPassword :=
  (Flow._postPassword server JSON_parse page_features hidden_inputs PPFT_value
     extractUcisData URL_searchParams new_handler analyzeRedirect).
Local Abbreviation _handleAuthState :=
  (Flow._handleAuthState server JSON_parse page_features hidden_inputs PPFT_value
     extractUcisData URL_searchParams resolve_url new_handler analyzeRedirect
     createMicrosoftAuthUrl _decodeJwtPayload now).
Local Abbreviation _performAuthFlow :=
  (Flow._performAuthFlow server JSON_parse page_features hidden_inputs PPFT_value
     extractUcisData URL_searchParams resolve_url new_handler analyzeRedirect
     createMicrosoftAuthUrl _decodeJwtPayload now).
Local Abbreviation login :=
  (Flow.login server JSON_parse JSON_stringify jar_toJSON page_features hidden_inputs
     PPFT_value extractUcisData URL_searchParams resolve_url new_handler analyzeRedirect
     createMicrosoftAuthUrl _decodeJwtPayload now now_iso).
Local Abbreviation _authenticateOutlook :=
  (Flow._authenticateOutlook server JSON_parse URL_searchParams resolve_url
     HandlerState new_handler analyzeRedirect createMicrosoftAuthUrl _decodeJwtPayload now).

Lemma handleAuthState_gives_up (fuel : nat) (st : AuthState) (a : MicrosoftAuth) :
  (blocking st = true ->
   _handleAuthState (S fuel) (Some st) a = Some (Ok (FlowBlocked st (customData a)), a))
  /\ (unexpected st = true ->
      _handleAuthState (S fuel) (Some st) a
      = Some (Throw (AuthError ("Unexpected state: " +:+ AuthState_name st) "AUTH_FLOW"), a)).
Proof.
  split; intros H; destruct st; try discriminate; reflexivity.
Qed.

(** X13. When the password post is answered by a page that is classified
    as one of the blocked states (account locked, re-authentication
    needed, passkey interrupt, alternative address needed), [login]
    returns a blocked result with that state and the stored custom data,
    without any further request; when the page is classified as a state
    the flow has no case for, [login] returns a failure with the message
    'Unexpected state: <state>' and the step AUTH_FLOW. *)
Theorem password_outcome_at_login (fuel : nat) (cookieTypes : list string)
    (a a1 a2 a3 : MicrosoftAuth) (initial : option AuthState) (st : AuthState) :
  _getInitialPage (S fuel) a = Some (Ok initial, a1) ->
  initial <> Some MICROSOFT_HOME_PAGE ->
  _postUsername a1 = Some (Ok tt, a2) ->
  _postPassword (S fuel) a2 = Some (Ok (Some st), a3) ->
  (blocking st = true ->
   login (S (S fuel)) cookieTypes a = Some (Ok (LoginBlocked st (customData a3)), a3))
  /\ (unexpected st = true -> st <> MICROSOFT_HOME_PAGE ->
      login (S (S fuel)) cookieTypes a
      = Some (Ok (LoginFailed ("Unexpected state: " +:+ AuthState_name st) "AUTH_FLOW"), a3)).
Proof.
  intros H0 Hi H1 H2.
  assert (Hflow : _performAuthFlow (S (S fuel)) a = _handleAuthState (S fuel) (Some st) a3
                  \/ st = MICROSOFT_HOME_PAGE).
  { destruct (decide (st = MICROSOFT_HOME_PAGE)) as [->|Hst]; [now right | left].
    cbn [Flow._performAuthFlow]. unfold bind at 1. rewrite H0.
    rewrite decide_False by exact Hi.
    unfold bind at 1. rewrite H1. unfold bind at 1. rewrite H2.
    rewrite decide_False by congruence. reflexivity. }
  destruct (handleAuthState_gives_up fuel st a3) as [Hb Hu].
  split.
  - intros Hbl. destruct Hflow as [Hflow| ->]; [|discriminate].
    unfold Flow.login, try_catch, bind. rewrite Hflow, (Hb Hbl). reflexivity.
  - intros Hun Hst. destruct Hflow as [Hflow|]; [|contradiction].
    unfold Flow.login, try_catch, bind. rewrite Hflow, (Hu Hun). reflexivity.
Qed.


End Outcome.

Lemma password_outcome_witness :
  exists a3,
    Flow.login locked_server JsonText.parse JsonText.stringify ToughCookie.toJSON
      bare_page_features no_hidden_inputs no_PPFT no_ucis Canned.URL_searchParams
      Canned.resolve_url tt plain_resolver authorize_request no_jwt 1762160400000
      "2026-11-03T09:00:00.000Z" 2 ["ALL"]
      (new_MicrosoftAuth "user@hotmail.com" "secret" None)
    = Some (Ok (LoginBlocked ACCOUNT_LOCKED (customData a3)), a3)
    /\ customData a3 = Some (JObj (<["IfExistsResult" := JNum 0]> ∅))
    /\ length (sent a3) = 3%nat.
Proof.
  eexists. split.
  - eapply (proj1 (password_outcome_at_login locked_server JsonText.parse JsonText.stringify
              ToughCookie.toJSON bare_page_features no_hidden_inputs no_PPFT no_ucis
              Canned.URL_searchParams Canned.resolve_url unit tt plain_resolver
              authorize_request no_jwt 1762160400000 "2026-11-03T09:00:00.000Z" 0 ["ALL"]
              (new_MicrosoftAuth "user@hotmail.com" "secret" None) _ _ _ None ACCOUNT_LOCKED
              ltac:(vm_compute; reflexivity) ltac:(discriminate)
              ltac:(vm_compute; reflexivity) ltac:(vm_compute; reflexivity))).
    reflexivity.
  - split; vm_compute; reflexivity.
Defined.

(** An answer to the password post that is JSON text, not a page, is not
    classified at all: the analyzer's constructor throws, and [login]
    reports the runtime's error at the step UNKNOWN. *)
Example password_answered_with_json :
  exists a',
    login_on json_answering_server 3 ["ALL"] fresh_auth
    = Some (Ok (LoginFailed "html.match is not a function" "UNKNOWN"), a')
    /\ map method (sent a') = [POST; POST; GET].
Proof. eexists. split; vm_compute; reflexivity. Qed.



Section Restore.

Variable JSON_stringify : json -> string.
Variable JSON_parse : string -> option json.
Variable jar_toJSON : list Cookie -> json.
Variable jar_fromJSON : json -> option (list Cookie).

Local Abbreviation exportCookieJar := (Session.exportCookieJar JSON_stringify jar_toJSON).
Local Abbreviation importCookieJar := (Session.importCookieJar JSON_parse jar_fromJSON).
Local Abbreviation export_document := (Session.export_document jar_toJSON).

(** X15. An instance constructed with the text that [exportCookieJar]
    gave for a session starts with the cookies and the metadata of that
    session, no flow token and the default login URL; constructed with a
    text that does not import, it is the instance constructed without a
    saved jar. *)
Theorem restored_session (email password : string) (s : HttpSession) (exportedAt : string) :
  JSON_parse "" = None ->
  truthy (jar_toJSON (jar_cookies (jar s))) = true ->
  jar_fromJSON (jar_toJSON (jar_cookies (jar s))) = Some (jar_cookies (jar s)) ->
  JSON_parse (JSON_stringify (export_document s exportedAt))
  = Some (export_document s exportedAt) ->
  session (new_MicrosoftAuth_with importCookieJar email password
             (Some (exportCookieJar s exportedAt)))
  = mkSession (mkJar (jar_cookies (jar s)) (Some (getAllMetadata s)))
              None (Some BASE_URLS_LOGIN)
  /\ forall text,
       importCookieJar text = None ->
       new_MicrosoftAuth_with importCookieJar email password (Some text)
       = new_MicrosoftAuth_with importCookieJar email password None.
Proof.
  intros Hempty Hobj Hjar Hjson. split.
  - unfold new_MicrosoftAuth_with.
    destruct (String.eqb_spec (exportCookieJar s exportedAt) "") as [E|_].
    { unfold Session.exportCookieJar in E. rewrite E in Hjson. congruence. }
    rewrite (SessionFacts.import_of_export JSON_stringify JSON_parse jar_toJSON jar_fromJSON
               s exportedAt Hobj Hjar Hjson).
    unfold new_MicrosoftAuth, new_HttpSession.
    cbn [session default from_option id _metadata mkJar].
    assert (Ht : truthy_opt (Some (getAllMetadata s)) = true).
    { cbn. unfold getAllMetadata. now apply SessionFacts.or_else_truthy. }
    now rewrite Ht.
  - intros text Hnone. unfold new_MicrosoftAuth_with. rewrite Hnone.
    now destruct (String.eqb text "").
Qed.

End Restore.

Lemma restored_session_witness :
  session (new_MicrosoftAuth_with
             (Session.importCookieJar JsonText.parse ToughCookie.fromJSON)
             "user@hotmail.com" "secret"
             (Some (Session.exportCookieJar JsonText.stringify ToughCookie.toJSON
                      sample_session "2026-11-03T09:00:00.000Z")))
  = mkSession (mkJar (jar_cookies (jar sample_session)) (Some (getAllMetadata sample_session)))
              None (Some BASE_URLS_LOGIN)
  /\ forall text,
       Session.importCookieJar JsonText.parse ToughCookie.fromJSON text = None ->
       new_MicrosoftAuth_with (Session.importCookieJar JsonText.parse ToughCookie.fromJSON)
         "user@hotmail.com" "secret" (Some text)
       = new_MicrosoftAuth_with (Session.importCookieJar JsonText.parse ToughCookie.fromJSON)
           "user@hotmail.com" "secret" None.
Proof.
  apply (restored_session JsonText.stringify JsonText.parse ToughCookie.toJSON
           ToughCookie.fromJSON "user@hotmail.com" "secret" sample_session
           "2026-11-03T09:00:00.000Z").
  - reflexivity.
  - reflexivity.
  - apply SessionFacts.tough_cookie_fromJSON_toJSON.
  - vm_compute. reflexivity.
Defined.


End FlowMoreFacts.
